(** * x-auto-dm: the campaign engine, embedded and checked against its specification

    The development follows the Python sources:
    - [x_dm_sender_improved.py] (class [XDMSender]): history loading, blacklist
      refresh, pacing, discovery, the send loop and the end-of-run reports;
    - [x_dm_sender.py]: the first version's [scroll_and_collect];
    - [maintenance_tools.py] ([MaintenanceTools]: the statistics and the
      health checks over the history).

    Modelling conventions.
    - A Python [str] is a [string]; only ASCII text is represented.
    - A Python [set] of strings or of pairs is a [gset]; the order in which a
      set is enumerated is left open (a parameter of the send phase).
    - A Python [int] is a [Z]; a [float] duration or rate is an exact rational
      ([Q]), so rounding is not represented.
    - The browser, the clock, the random generator, the spreadsheet and the
      webhook form the outside world: an abstract type with one operation per
      call the program makes ([Class Backend]).  The history file, the logger
      and the notifications sent are explicit components of the state.
    - A raised exception is a value [Raise e] of the [result] type; [try] and
      [except] are written out with [try_except]. *)

From Stdlib Require Import ZArith QArith List Ascii String Lia Bool.
From Stdlib Require Import Numbers.DecimalString.
From stdpp Require Import base option list gmap sets strings.

Local Open Scope string_scope.
Local Open Scope Z_scope.

(** ** Python strings *)

Module PyStr.

(** [str.isspace] restricted to ASCII: TAB..CR, FS..US and the blank. *)
Definition is_space (c : ascii) : bool :=
  let n := nat_of_ascii c in
  ((9 <=? n)%nat && (n <=? 13)%nat) || ((28 <=? n)%nat && (n <=? 32)%nat).

(** [s.startswith(p)] *)
Definition startswith (s p : string) : bool := String.prefix p s.

(** [sub in s] *)
Fixpoint contains (sub s : string) : bool :=
  String.prefix sub s ||
  match s with
  | EmptyString => false
  | String _ s' => contains sub s'
  end.

(** [s.split(c)] for a one-character separator: never empty. *)
Fixpoint split (c : ascii) (s : string) : list string :=
  match s with
  | EmptyString => [EmptyString]
  | String a s' =>
      if Ascii.eqb a c then EmptyString :: split c s'
      else match split c s' with
           | [] => [String a EmptyString]
           | w :: ws => String a w :: ws
           end
  end.

(** [l[-1]] and [l[0]] on the result of a split (which is not empty). *)
Definition last_item (l : list string) : string := List.last l EmptyString.
Definition first_item (l : list string) : string := List.hd EmptyString l.

Fixpoint lstrip (s : string) : string :=
  match s with
  | EmptyString => EmptyString
  | String a s' => if is_space a then lstrip s' else s
  end.

Fixpoint rstrip (s : string) : string :=
  match s with
  | EmptyString => EmptyString
  | String a s' =>
      match rstrip s' with
      | EmptyString => if is_space a then EmptyString else String a EmptyString
      | r => String a r
      end
  end.

(** [s.strip()] *)
Definition strip (s : string) : string := rstrip (lstrip s).

(** [s[:n]] for [n >= 0] *)
Definition slice_to (n : nat) (s : string) : string := String.substring 0 n s.

(** [s[1:]] *)
Definition tail (s : string) : string :=
  match s with
  | EmptyString => EmptyString
  | String _ s' => s'
  end.

(** [bool(s)]: a string is true when it is not empty. *)
Definition truthy (s : string) : bool :=
  match s with
  | EmptyString => false
  | String _ _ => true
  end.

(** [str(n)] for a natural number and for an integer. *)
Definition of_nat (n : nat) : string := NilZero.string_of_uint (Nat.to_uint n).
Definition of_Z (z : Z) : string :=
  if z <? 0 then String "-" (of_nat (Z.to_nat (- z))) else of_nat (Z.to_nat z).

(** The number with at least [w] digits, padded with zeros on the left
    (the [%02d] and [%04d] of [strftime]). *)
Fixpoint zeros (k : nat) : string :=
  match k with
  | O => EmptyString
  | S k' => String "0" (zeros k')
  end.

Definition zero_pad (w : nat) (n : nat) : string :=
  let d := of_nat n in
  zeros (w - String.length d) +:+ d.

Definition is_digit (c : ascii) : bool :=
  let n := nat_of_ascii c in (48 <=? n)%nat && (n <=? 57)%nat.

(** [int(s)] on what the [strptime] groups capture: digits, possibly after a
    blank. *)
Fixpoint int_acc (acc : Z) (s : string) : Z :=
  match s with
  | EmptyString => acc
  | String a s' =>
      if is_digit a then int_acc (10 * acc + Z.of_nat (nat_of_ascii a - 48)) s'
      else int_acc acc s'
  end.

Definition int (s : string) : Z := int_acc 0 s.

End PyStr.

(** ** Exceptions *)

Inductive exn : Type :=
  | ValueError (msg : string)
  | KeyError (msg : string)
  | ZeroDivisionError
  | UnboundLocalError (name : string)
  | OtherError (msg : string).

(** [str(e)] *)
Definition exn_str (e : exn) : string :=
  match e with
  | ValueError m => m
  | KeyError m => m
  | ZeroDivisionError => "division by zero"
  | UnboundLocalError n => "local variable '" +:+ n +:+ "' referenced before assignment"
  | OtherError m => m
  end.

Inductive result (A : Type) : Type :=
  | Ok (a : A)
  | Raise (e : exn).
Arguments Ok {A} a.
Arguments Raise {A} e.

(** ** [datetime] *)

Module PyTime.

Record datetime : Type := mk_datetime {
  year : Z; month : Z; day : Z;
  hour : Z; minute : Z; second : Z; microsecond : Z
}.

Definition is_leap (y : Z) : bool :=
  (y mod 4 =? 0) && (negb (y mod 100 =? 0) || (y mod 400 =? 0)).

Definition days_before_year (y : Z) : Z :=
  let p := y - 1 in p * 365 + p / 4 - p / 100 + p / 400.

Definition days_in_month (y m : Z) : Z :=
  if (m =? 2) && is_leap y then 29
  else nth (Z.to_nat m) [-1; 31; 28; 31; 30; 31; 30; 31; 31; 30; 31; 30; 31] (-1).

Definition days_before_month (y m : Z) : Z :=
  nth (Z.to_nat m) [-1; 0; 31; 59; 90; 120; 151; 181; 212; 243; 273; 304; 334] (-1)
  + (if (2 <? m) && is_leap y then 1 else 0).

Definition ymd2ord (y m d : Z) : Z :=
  days_before_year y + days_before_month y m + d.

(** The checks of the [datetime] constructor. *)
Definition valid (t : datetime) : bool :=
  (1 <=? year t) && (year t <=? 9999) &&
  (1 <=? month t) && (month t <=? 12) &&
  (1 <=? day t) && (day t <=? days_in_month (year t) (month t)) &&
  (0 <=? hour t) && (hour t <=? 23) &&
  (0 <=? minute t) && (minute t <=? 59) &&
  (0 <=? second t) && (second t <=? 59) &&
  (0 <=? microsecond t) && (microsecond t <=? 999999).

(** A point in time, in microseconds from the start of ordinal day 0.
    Naive datetimes are compared field by field, which on valid values is the
    order of these numbers; [t - timedelta(days=n)] keeps the time of day and
    moves the ordinal back by [n]. *)
Definition instant (t : datetime) : Z :=
  (((ymd2ord (year t) (month t) (day t) * 24 + hour t) * 60 + minute t) * 60
   + second t) * 1000000 + microsecond t.

Definition one_day : Z := 86400 * 1000000.

Definition minus_days (t : datetime) (n : Z) : Z := instant t - n * one_day.

(** *** [strftime] *)

Definition fmt_date (t : datetime) : string :=
  PyStr.zero_pad 4 (Z.to_nat (year t)) +:+ "-" +:+
  PyStr.zero_pad 2 (Z.to_nat (month t)) +:+ "-" +:+
  PyStr.zero_pad 2 (Z.to_nat (day t)).

(** [t.strftime('%Y-%m-%d')] *)
Definition strftime_Ymd (t : datetime) : string := fmt_date t.

(** [t.strftime('%Y-%m')] *)
Definition strftime_Ym (t : datetime) : string :=
  PyStr.zero_pad 4 (Z.to_nat (year t)) +:+ "-" +:+
  PyStr.zero_pad 2 (Z.to_nat (month t)).

(** [t.strftime('%Y-%m-%d %H:%M:%S')] *)
Definition strftime_YmdHMS (t : datetime) : string :=
  fmt_date t +:+ " " +:+
  PyStr.zero_pad 2 (Z.to_nat (hour t)) +:+ ":" +:+
  PyStr.zero_pad 2 (Z.to_nat (minute t)) +:+ ":" +:+
  PyStr.zero_pad 2 (Z.to_nat (second t)).

(** *** [strptime]

    The format is compiled to a regular expression: a directive becomes a
    group of alternatives, a run of blanks becomes [\s+], any other character
    stands for itself.  The expression is matched at the start of the text
    ([re.match]: the first match in the order of the alternatives), and text
    left over after the match is an error. *)

Inductive directive : Type := dir_Y | dir_m | dir_d | dir_H | dir_M | dir_S.

Inductive tok : Type :=
  | TLit (c : ascii)
  | TSpace
  | TDir (d : directive).

Definition is_char (x : ascii) : ascii -> bool := fun c => Ascii.eqb c x.
Definition in_range (lo hi : ascii) : ascii -> bool :=
  fun c => (nat_of_ascii lo <=? nat_of_ascii c)%nat
           && (nat_of_ascii c <=? nat_of_ascii hi)%nat.
Definition any_digit : ascii -> bool := in_range "0" "9".

Definition directive_regex (d : directive) : list (list (ascii -> bool)) :=
  match d with
  | dir_Y => [[any_digit; any_digit; any_digit; any_digit]]
  | dir_m => [[is_char "1"; in_range "0" "2"]; [is_char "0"; in_range "1" "9"];
              [in_range "1" "9"]]
  | dir_d => [[is_char "3"; in_range "0" "1"]; [in_range "1" "2"; any_digit];
              [is_char "0"; in_range "1" "9"]; [in_range "1" "9"];
              [is_char " "; in_range "1" "9"]]
  | dir_H => [[is_char "2"; in_range "0" "3"]; [in_range "0" "1"; any_digit];
              [any_digit]]
  | dir_M => [[in_range "0" "5"; any_digit]; [any_digit]]
  | dir_S => [[is_char "6"; in_range "0" "1"]; [in_range "0" "5"; any_digit];
              [any_digit]]
  end.

Definition directive_of (c : ascii) : option directive :=
  if Ascii.eqb c "Y" then Some dir_Y
  else if Ascii.eqb c "m" then Some dir_m
  else if Ascii.eqb c "d" then Some dir_d
  else if Ascii.eqb c "H" then Some dir_H
  else if Ascii.eqb c "M" then Some dir_M
  else if Ascii.eqb c "S" then Some dir_S
  else None.

(** The compiled format; [None] for a directive outside the six above. *)
Fixpoint compile (in_space : bool) (fmt : string) : option (list tok) :=
  match fmt with
  | EmptyString => Some []
  | String "%" (String c rest) =>
      match directive_of c, compile false rest with
      | Some d, Some ts => Some (TDir d :: ts)
      | _, _ => None
      end
  | String a rest =>
      if PyStr.is_space a then
        if in_space then compile true rest
        else option_map (cons TSpace) (compile true rest)
      else option_map (cons (TLit a)) (compile false rest)
  end.

Fixpoint match_classes (cs : list (ascii -> bool)) (s : string)
  : option (string * string) :=
  match cs with
  | [] => Some (EmptyString, s)
  | c :: cs' =>
      match s with
      | String a s' =>
          if c a then
            match match_classes cs' s' with
            | Some (cap, r) => Some (String a cap, r)
            | None => None
            end
          else None
      | EmptyString => None
      end
  end.

Definition match_alts (alts : list (list (ascii -> bool))) (s : string)
  : list (string * string) :=
  omap (fun cs => match_classes cs s) alts.

(** [\s+], greedy: what is left after one or more blanks, longest run first. *)
Fixpoint match_spaces (s : string) : list string :=
  match s with
  | String a s' => if PyStr.is_space a then match_spaces s' ++ [s'] else []
  | EmptyString => []
  end.

(** Every way to match the tokens at the start of [s], in the order a
    backtracking matcher tries them: the captured groups and the rest. *)
Fixpoint re_matches (ts : list tok) (s : string)
  : list (list (directive * string) * string) :=
  match ts with
  | [] => [([], s)]
  | TLit c :: ts' =>
      match s with
      | String a s' => if Ascii.eqb a c then re_matches ts' s' else []
      | EmptyString => []
      end
  | TSpace :: ts' =>
      r ← match_spaces s; re_matches ts' r
  | TDir d :: ts' =>
      cr ← match_alts (directive_regex d) s;
      fr ← re_matches ts' cr.2;
      [((d, cr.1) :: fr.1, fr.2)]
  end.

Definition directive_eqb (a b : directive) : bool :=
  match a, b with
  | dir_Y, dir_Y | dir_m, dir_m | dir_d, dir_d
  | dir_H, dir_H | dir_M, dir_M | dir_S, dir_S => true
  | _, _ => false
  end.

Fixpoint group (d : directive) (dflt : Z) (fs : list (directive * string)) : Z :=
  match fs with
  | [] => dflt
  | (d', s) :: fs' => if directive_eqb d d' then PyStr.int s else group d dflt fs'
  end.

(** [datetime.strptime(s, fmt)] *)
Definition strptime (s fmt : string) : result datetime :=
  match compile false fmt with
  | None => Raise (ValueError "bad directive in format")
  | Some ts =>
      match head (re_matches ts s) with
      | None => Raise (ValueError "time data does not match format")
      | Some (fs, rest) =>
          if PyStr.truthy rest then Raise (ValueError "unconverted data remains")
          else
            let t := {| year := group dir_Y 1900 fs; month := group dir_m 1 fs;
                        day := group dir_d 1 fs; hour := group dir_H 0 fs;
                        minute := group dir_M 0 fs; second := group dir_S 0 fs;
                        microsecond := 0 |} in
            if valid t then Ok t
            else Raise (ValueError "value out of range")
      end
  end.

End PyTime.

Import PyTime.

(** ** Configuration, history rows, notifications *)

(** The entries of [config.json] the engine reads. *)
Record Config : Type := {
  sent_history_reset_days : Z;
  max_messages_per_day : Z;
  blocked_hours : list Z;
  min_wait_seconds : Q;
  max_wait_seconds : Q;
  keywords : list string;
  max_users_per_keyword : Z;
  max_scroll_per_page : Z;
  monthly_report_day : Z
}.

(** One row of the history file, as [csv.DictReader] yields it under the
    header [date, username, url, status, error, message_sent]. *)
Record Row : Type := mk_row {
  date : string;
  username : string;
  url : string;
  status : string;
  error : string;
  message_sent : string
}.

(** What is handed to [notify_slack]; the text around the numbers is left
    out. *)
Inductive notification : Type :=
  | DailyReport (today : string) (success_count fail_count : nat)
      (failed_users : list string)
  | DailyReportError (e : string)
  | MonthlyReport (month : string) (total_sent days : nat)
  | SystemErrorAlert (e : string).

Inductive level : Type := DEBUG | INFO | WARNING | ERROR.

(** A candidate: the pair [(username, url)]. *)
Abbreviation target := (string * string)%type.

(** ** The outside world *)

Class Backend (W : Type) : Type := {
  (** [datetime.now()] *)
  datetime_now : W -> datetime * W;
  (** [random.uniform(a, b)] and [random.random()] *)
  random_uniform : Q -> Q -> W -> Q * W;
  random_random : W -> Q * W;
  (** [time.sleep(d)] *)
  time_sleep : Q -> W -> W;
  (** the body of [setup_chrome_driver] *)
  chrome_start : W -> result unit * W;
  (** [driver.get(url)] *)
  driver_get : string -> W -> result unit * W;
  (** [driver.find_elements(By.XPATH, selector)] followed by
      [get_attribute("href")] on each element: the attributes read, and the
      exception that interrupted the reading, if any *)
  find_hrefs : string -> W -> (list (option string) * option exn) * W;
  (** [execute_script("return document.body.scrollHeight")] *)
  scroll_height : W -> result Z * W;
  (** [execute_script("window.scrollTo(0, document.body.scrollHeight);")] *)
  scroll_to_bottom : W -> result unit * W;
  (** [driver.quit()] *)
  driver_quit : W -> W;
  (** the spreadsheet calls of [load_blacklist], down to [col_values] *)
  col_values : W -> result (list string) * W;
  (** [requests.post] and [raise_for_status] *)
  requests_post : notification -> W -> result unit * W;
  (** reading the message file; [None] when the file does not exist *)
  read_message_file : W -> option string * W;
  (** [open(log_file, 'a', ...)] in [log_sending_result] *)
  open_log : W -> result unit * W;
  (** [writer.writerow(row)] on the file so opened, and its closing *)
  write_row : Row -> W -> result unit * W;
  (** the browser dialogue of [send_dm_to_user], which catches every
      exception and always returns a pair *)
  send_dm_to_user : string -> string -> string -> W -> (bool * string) * W
}.

(** ** State and the two monads *)

Section Engine.

Context {W : Type} `{Backend W}.

Record State : Type := mk_state {
  world : W;
  (** the history file *)
  history : list Row;
  (** what went to the logger, oldest first *)
  logger : list (level * string);
  (** the notifications handed to [notify_slack], oldest first *)
  slack : list notification;
  (** the fields of the [XDMSender] object *)
  sent_users : gset string;
  blacklist_urls : gset string;
  sent_count : Z;
  driver : bool
}.

Definition set_world (w : W) (s : State) : State :=
  mk_state w (history s) (logger s) (slack s) (sent_users s) (blacklist_urls s)
    (sent_count s) (driver s).
Definition set_history (h : list Row) (s : State) : State :=
  mk_state (world s) h (logger s) (slack s) (sent_users s) (blacklist_urls s)
    (sent_count s) (driver s).
Definition set_logger (l : list (level * string)) (s : State) : State :=
  mk_state (world s) (history s) l (slack s) (sent_users s) (blacklist_urls s)
    (sent_count s) (driver s).
Definition set_slack (n : list notification) (s : State) : State :=
  mk_state (world s) (history s) (logger s) n (sent_users s) (blacklist_urls s)
    (sent_count s) (driver s).
Definition set_sent_users (u : gset string) (s : State) : State :=
  mk_state (world s) (history s) (logger s) (slack s) u (blacklist_urls s)
    (sent_count s) (driver s).
Definition set_blacklist_urls (b : gset string) (s : State) : State :=
  mk_state (world s) (history s) (logger s) (slack s) (sent_users s) b
    (sent_count s) (driver s).
Definition set_sent_count (n : Z) (s : State) : State :=
  mk_state (world s) (history s) (logger s) (slack s) (sent_users s)
    (blacklist_urls s) n (driver s).
Definition set_driver (d : bool) (s : State) : State :=
  mk_state (world s) (history s) (logger s) (slack s) (sent_users s)
    (blacklist_urls s) (sent_count s) d.

(** Code that cannot raise. *)
Definition IO (A : Type) : Type := State -> A * State.

Definition ret {A} (a : A) : IO A := fun s => (a, s).
Definition bind {A B} (m : IO A) (k : A -> IO B) : IO B :=
  fun s => let (a, s') := m s in k a s'.

(** Code that can raise: the state reached is kept with the exception. *)
Definition Exc (A : Type) : Type := IO (result A).

Definition ok {A} (a : A) : Exc A := ret (Ok a).
Definition raise {A} (e : exn) : Exc A := ret (Raise e).
Definition bind_exc {A B} (m : Exc A) (k : A -> Exc B) : Exc B :=
  bind m (fun r => match r with Ok a => k a | Raise e => raise e end).
Definition lift {A} (m : IO A) : Exc A := bind m ok.

(** [try: m  except Exception as e: h e] *)
Definition try_except {A} (m : Exc A) (h : exn -> IO A) : IO A :=
  bind m (fun r => match r with Ok a => ret a | Raise e => h e end).

End Engine.

Arguments State W : clear implicits.
Arguments IO W A : clear implicits.
Arguments Exc W A : clear implicits.

Declare Scope io_scope.
Delimit Scope io_scope with io.
Notation "'let*' x ':=' m 'in' k" := (bind m (fun x => k))
  (at level 10, x pattern, m at level 100, k at level 200) : io_scope.
Notation "m ';;' k" := (bind m (fun _ => k))
  (at level 100, k at level 200, right associativity) : io_scope.
Notation "'let?' x ':=' m 'in' k" := (bind_exc m (fun x => k))
  (at level 10, x pattern, m at level 100, k at level 200) : io_scope.
Notation "m ';;?' k" := (bind_exc m (fun _ => k))
  (at level 100, k at level 200, right associativity) : io_scope.

Local Open Scope io_scope.

(** ** [XDMSender] *)

Section XDMSender.

Context {W : Type} `{Backend W}.
Variable config : Config.

(** [list(s)] for a set of candidates: the order is the interpreter's. *)
Variable enumerate : gset target -> list target.

Definition io_world {A} (op : W -> A * W) : IO W A :=
  fun s => let (a, w) := op (world s) in (a, set_world w s).
Definition io_world_ (op : W -> W) : IO W unit :=
  fun s => (tt, set_world (op (world s)) s).
Definition get {A} (f : State W -> A) : IO W A := fun s => (f s, s).
Definition modify (f : State W -> State W) : IO W unit := fun s => (tt, f s).
Definition log (lv : level) (msg : string) : IO W unit :=
  modify (fun s => set_logger (logger s ++ [(lv, msg)]) s).

(** *** [load_sent_history] *)

Definition history_row (reset_date : Z) (users : gset string) (row : Row)
  : gset string :=
  match strptime (date row) "%Y-%m-%d %H:%M" with
  | Ok send_date =>
      if (reset_date <? instant send_date) && String.eqb (status row) "Success"
      then {[username row]} ∪ users
      else users
  | Raise _ => users
  end.

Definition recent_users (now : datetime) (rows : list Row) (users : gset string)
  : gset string :=
  fold_left (history_row (minus_days now (sent_history_reset_days config)))
    rows users.

Definition load_sent_history : IO W unit :=
  let* now := io_world datetime_now in
  let* rows := get history in
  let* users := get sent_users in
  modify (set_sent_users (recent_users now rows users));;
  let* users := get sent_users in
  log INFO ("Loaded " +:+ PyStr.of_nat (size users) +:+ " users from recent history").

(** *** [load_blacklist] *)

Definition blacklist_keep (url : string) : bool :=
  PyStr.truthy url &&
  (PyStr.startswith url "https://twitter.com" || PyStr.startswith url "https://x.com").

Definition blacklist_of (urls : list string) : gset string :=
  list_to_set (map PyStr.strip (filter (fun u => blacklist_keep u = true) urls)).

Definition load_blacklist : IO W unit :=
  try_except
    (let? urls := io_world col_values in
     lift (modify (set_blacklist_urls (blacklist_of urls));;
           let* b := get blacklist_urls in
           log INFO ("Loaded " +:+ PyStr.of_nat (size b) +:+ " blacklisted URLs")))
    (fun e =>
       log WARNING ("Failed to load blacklist from Google Sheets: " +:+ exn_str e);;
       modify (set_blacklist_urls ∅)).

(** *** [__init__], after the configuration and the history file are in
    place: counters at zero, the date of the day (read and never used), then
    the two loads. *)
Definition initial (w : W) (rows : list Row) : State W :=
  mk_state w rows [] [] ∅ ∅ 0 false.

Definition init : IO W unit :=
  let* today_date := io_world datetime_now in
  load_sent_history;;
  load_blacklist;;
  log INFO "X DM Sender initialized successfully".

(** *** [load_message_text]

    The greeting returned when the file is missing is not ASCII in the
    source; [hello] stands for it. *)
Definition load_message_text : IO W string :=
  let* r := io_world read_message_file in
  match r with
  | Some text => ret (PyStr.strip text)
  | None => log WARNING "Message file not found";; ret "hello"
  end.

(** *** [is_allowed_time] *)
Definition is_allowed_time : IO W bool :=
  let* now := io_world datetime_now in
  ret (negb (existsb (Z.eqb (hour now)) (blocked_hours config))).

(** *** [wait_between_actions] *)

(** The adjustment of the base wait to the number of actions. *)
Definition fatigue (action_count : Z) (base_wait : Q) : Q :=
  if 100 <? action_count then (base_wait * (3 # 2))%Q
  else if 300 <? action_count then (base_wait * 2)%Q
  else base_wait.

Definition wait_between_actions (action_count : Z) : IO W unit :=
  let* base_wait := io_world (random_uniform (min_wait_seconds config)
                                             (max_wait_seconds config)) in
  let base_wait := fatigue action_count base_wait in
  let* r := io_world random_random in
  let* base_wait :=
    (if negb (Qle_bool (1 # 10) r)
     then let* b := io_world (random_uniform 60 180) in ret (base_wait + b)%Q
     else ret base_wait) in
  io_world_ (time_sleep base_wait).

(** *** [extract_usernames_from_page]

    The XPath expressions are kept as labels of the three attempts; their
    inner quotation marks are written as apostrophes. *)

Definition selectors : list string :=
  [ "//div[@data-testid='UserCell']//a[contains(@href, '/')]";
    "//div[contains(@data-testid, 'User')]//a[contains(@href, '/')]";
    "//a[contains(@href, 'twitter.com/') or contains(@href, 'x.com/')]" ].

(** What one link contributes: nothing, or a pair [(username, href)]. *)
Definition user_of_href (href : option string) : option target :=
  match href with
  | None => None
  | Some href =>
      if PyStr.truthy href && negb (PyStr.contains "/status/" href)
         && negb (PyStr.contains "/search" href)
      then
        if PyStr.contains "twitter.com" href || PyStr.contains "x.com" href
        then
          let username_part :=
            PyStr.first_item (PyStr.split "?" (PyStr.last_item (PyStr.split "/" href))) in
          if PyStr.truthy username_part && negb (PyStr.startswith username_part "i/")
          then Some ("@" +:+ username_part, href)
          else None
        else None
      else None
  end.

Definition users_of_hrefs (hrefs : list (option string)) : gset target :=
  list_to_set (omap user_of_href hrefs).

Fixpoint extract_loop (sels : list string) (usernames : gset target)
  : IO W (gset target) :=
  match sels with
  | [] => ret usernames
  | selector :: sels' =>
      let* r := io_world (find_hrefs selector) in
      let usernames := usernames ∪ users_of_hrefs r.1 in
      match r.2 with
      | Some e =>
          log DEBUG ("Selector " +:+ selector +:+ " failed: " +:+ exn_str e);;
          extract_loop sels' usernames
      | None =>
          if bool_decide (usernames = ∅) then extract_loop sels' usernames
          else ret usernames
      end
  end.

Definition extract_usernames_from_page : IO W (gset target) :=
  extract_loop selectors ∅.

(** *** [scroll_and_collect] *)

(** One turn of the loop up to the comparison of the heights: the set
    collected so far, and whether [new_height == current_height]. *)
Definition scroll_turn (all_usernames : gset target)
  : Exc W (gset target * bool) :=
  let? current_users := lift extract_usernames_from_page in
  let all_usernames := all_usernames ∪ current_users in
  let? current_height := io_world scroll_height in
  io_world scroll_to_bottom;;?
  let? d := lift (io_world (random_uniform 2 4)) in
  lift (io_world_ (time_sleep d));;?
  let? new_height := io_world scroll_height in
  ok (all_usernames, new_height =? current_height).

(** The [for scroll in range(max_scrolls)] loop with [n] turns left; the
    result carries the number of turns entered, which is [scroll + 1] when
    the loop is left. *)
Fixpoint scroll_loop (n : nat) (entered : nat) (all_usernames : gset target)
  (stable_count : Z) : Exc W (gset target * nat) :=
  match n with
  | O => ok (all_usernames, entered)
  | S n' =>
      let? r := scroll_turn all_usernames in
      let '(all_usernames, same) := r in
      if same then
        let stable_count := stable_count + 1 in
        if 2 <=? stable_count then ok (all_usernames, S entered)
        else scroll_loop n' (S entered) all_usernames stable_count
      else scroll_loop n' (S entered) all_usernames 0
  end.

Definition scroll_and_collect (max_scrolls : option Z) : Exc W (gset target) :=
  let max_scrolls := default (max_scroll_per_page config) max_scrolls in
  let? r := scroll_loop (Z.to_nat max_scrolls) 0 ∅ 0 in
  let '(all_usernames, entered) := r in
  match entered with
  | O => raise (UnboundLocalError "scroll")
  | S _ =>
      lift (log INFO ("Collected " +:+ PyStr.of_nat (size all_usernames)
                      +:+ " users after " +:+ PyStr.of_nat entered +:+ " scrolls"));;?
      ok all_usernames
  end.

(** *** Discovery *)

(** The filter both discovery phases apply to what a page yielded. *)
Definition filter_users (sent : gset string) (black : gset string)
  (users : gset target) : gset target :=
  filter (fun t => (t.1 ∉ sent) ∧ (t.2 ∉ black)) users.

Definition search_one (keyword : string) : Exc W (gset target) :=
  lift (log INFO ("Searching for keyword: " +:+ keyword));;?
  io_world (driver_get ("https://x.com/search?q=" +:+ keyword
                        +:+ "&src=typed_query&f=user"));;?
  let? d := lift (io_world (random_uniform 3 6)) in
  lift (io_world_ (time_sleep d));;?
  let? users := scroll_and_collect None in
  let? sent := lift (get sent_users) in
  let? black := lift (get blacklist_urls) in
  let filtered_users := filter_users sent black users in
  lift (log INFO ("Found " +:+ PyStr.of_nat (size filtered_users)
                  +:+ " new users for keyword '" +:+ keyword +:+ "'"));;?
  lift (wait_between_actions 0);;?
  ok filtered_users.

Fixpoint search_loop (kws : list string) (all_users : gset target)
  : IO W (gset target) :=
  match kws with
  | [] => ret all_users
  | keyword :: kws' =>
      if max_users_per_keyword config * Z.of_nat (length (keywords config))
         <=? Z.of_nat (size all_users)
      then ret all_users
      else
        let* found :=
          try_except (search_one keyword)
            (fun e =>
               log ERROR ("Error searching for keyword '" +:+ keyword +:+ "': "
                          +:+ exn_str e);;
               ret ∅) in
        search_loop kws' (all_users ∪ found)
  end.

Definition search_users_by_keywords : IO W (gset target) :=
  search_loop (keywords config) ∅.

Definition following_one (username : string) : Exc W (gset target) :=
  lift (log INFO ("Collecting following for " +:+ username));;?
  io_world (driver_get ("https://x.com/" +:+ PyStr.tail username +:+ "/following"));;?
  let? d := lift (io_world (random_uniform 4 7)) in
  lift (io_world_ (time_sleep d));;?
  let? users := scroll_and_collect (Some 3) in
  let? sent := lift (get sent_users) in
  let? black := lift (get blacklist_urls) in
  let filtered_users := filter_users sent black users in
  lift (log INFO ("Found " +:+ PyStr.of_nat (size filtered_users)
                  +:+ " following users for " +:+ username));;?
  lift (wait_between_actions 0);;?
  ok filtered_users.

Fixpoint following_loop (targets : list target) (following_users : gset target)
  : IO W (gset target) :=
  match targets with
  | [] => ret following_users
  | (username, _) :: targets' =>
      let* found :=
        try_except (following_one username)
          (fun e =>
             log ERROR ("Error collecting following for " +:+ username +:+ ": "
                        +:+ exn_str e);;
             ret ∅) in
      following_loop targets' (following_users ∪ found)
  end.

Definition collect_following_users (target_users : list target)
  : IO W (gset target) :=
  let max_targets := Nat.min 10 (length target_users) in
  following_loop (take max_targets target_users) ∅.

(** *** [log_sending_result]

    The file is opened first, then the clock is read for the row, then the
    row is written; an exception of either step is logged and the row is
    lost. *)

Definition excerpt (message : string) : string :=
  if (50 <? String.length message)%nat
  then PyStr.slice_to 50 message +:+ "..."
  else message.

Definition log_sending_result (username url status error message : string)
  : IO W unit :=
  try_except
    (io_world open_log;;?
     let? now := lift (io_world datetime_now) in
     let row := mk_row (strftime_YmdHMS now) username url status error
                  (excerpt message) in
     io_world (write_row row);;?
     lift (modify (fun s => set_history (history s ++ [row]) s)))
    (fun e => log ERROR ("Failed to log result: " +:+ exn_str e)).

(** *** [notify_slack] *)
Definition notify_slack (message : notification) : IO W unit :=
  modify (fun s => set_slack (slack s ++ [message]) s);;
  try_except (io_world (requests_post message))
    (fun e => log ERROR ("Slack notification failed: " +:+ exn_str e)).

(** *** [send_daily_report] *)

Definition is_today (today : string) (row : Row) : bool :=
  PyStr.startswith (date row) today.

Definition daily_success (today : string) (rows : list Row) : nat :=
  length (filter (fun r => is_today today r && String.eqb (status r) "Success" = true) rows).

Definition daily_failed (today : string) (rows : list Row) : list Row :=
  filter (fun r => is_today today r && negb (String.eqb (status r) "Success") = true) rows.

Definition failed_user (row : Row) : string :=
  username row +:+ " (" +:+ PyStr.slice_to 30 (error row) +:+ ")".

Definition send_daily_report : IO W unit :=
  try_except
    (let? now := lift (io_world datetime_now) in
     let today := strftime_Ymd now in
     let? rows := lift (get history) in
     let success_count := daily_success today rows in
     let failed := daily_failed today rows in
     let fail_count := length failed in
     match (success_count + fail_count)%nat with
     | O => raise ZeroDivisionError
     | S _ =>
         lift (notify_slack (DailyReport today success_count fail_count
                               (take 5 (map failed_user failed)));;
               log INFO "Daily report sent successfully")
     end)
    (fun e =>
       log ERROR ("Failed to send daily report: " +:+ exn_str e);;
       notify_slack (DailyReportError (exn_str e))).

(** *** [send_monthly_report] *)

(** [now.replace(day=1) - timedelta(days=1)]: the month before, which does
    not exist before year 1. *)
Definition last_month (now : datetime) : result datetime :=
  if month now =? 1 then
    if year now <=? 1 then Raise (OtherError "date value out of range")
    else Ok (mk_datetime (year now - 1) 12 31 (hour now) (minute now)
               (second now) (microsecond now))
  else Ok (mk_datetime (year now) (month now - 1)
             (days_in_month (year now) (month now - 1)) (hour now) (minute now)
             (second now) (microsecond now)).

Definition monthly_rows (month_str : string) (rows : list Row) : list Row :=
  filter (fun r => PyStr.startswith (date r) month_str
                   && String.eqb (status r) "Success" = true) rows.

Definition send_monthly_report : IO W unit :=
  try_except
    (let? now := lift (io_world datetime_now) in
     if negb (day now =? monthly_report_day config) then ok tt
     else
       let? lm := ret (last_month now) in
       let month_str := strftime_Ym lm in
       let? rows := lift (get history) in
       let sent := monthly_rows month_str rows in
       let daily_counts : gset string :=
         list_to_set (map (fun r => PyStr.slice_to 10 (date r)) sent) in
       lift (notify_slack (MonthlyReport month_str (length sent) (size daily_counts));;
             log INFO "Monthly report sent successfully"))
    (fun e => log ERROR ("Failed to send monthly report: " +:+ exn_str e)).

(** *** [run] *)

Definition setup_chrome_driver : Exc W unit :=
  let* r := io_world chrome_start in
  match r with
  | Ok _ =>
      modify (set_driver true);;
      log INFO "Chrome driver initialized successfully";;
      ok tt
  | Raise e =>
      log ERROR ("Failed to initialize Chrome driver: " +:+ exn_str e);;
      raise e
  end.

(** [l[:n]]: the first [n] items, or all but the last [-n] when [n] is
    negative. *)
Definition py_take {A} (n : Z) (l : list A) : list A :=
  if 0 <=? n then take (Z.to_nat n) l
  else take (length l - Z.to_nat (- n)) l.

Inductive flow : Type := Continue | Break.

(** The body of the send loop for one candidate. *)
Definition send_one (message_text : string) (t : target) : IO W flow :=
  let '(username, url) := t in
  let* sc := get sent_count in
  if max_messages_per_day config <=? sc then ret Break
  else
    let* allowed := is_allowed_time in
    if negb allowed then
      log INFO "Reached blocked hours. Stopping.";;
      ret Break
    else
      let* r := io_world (send_dm_to_user username url message_text) in
      let '(success, error) := r in
      let status := if success then "Success" else "Failed" in
      log_sending_result username url status error message_text;;
      (if success then
         modify (fun s => set_sent_count (sent_count s + 1) s);;
         modify (fun s => set_sent_users ({[username]} ∪ sent_users s) s);;
         let* sc := get sent_count in
         log INFO ("DM sent successfully to " +:+ username +:+ " ("
                   +:+ PyStr.of_Z sc +:+ "/"
                   +:+ PyStr.of_Z (max_messages_per_day config) +:+ ")")
       else
         log WARNING ("Failed to send DM to " +:+ username +:+ ": " +:+ error));;
      let* sc := get sent_count in
      wait_between_actions sc;;
      ret Continue.

Fixpoint send_loop (message_text : string) (targets : list target) : IO W unit :=
  match targets with
  | [] => ret tt
  | t :: targets' =>
      let* f := send_one message_text t in
      match f with
      | Break => ret tt
      | Continue => send_loop message_text targets'
      end
  end.

(** The send loop over [list(target_users)[:max_messages_per_day]]. *)
Definition send_candidates (message_text : string) (candidates : list target)
  : IO W unit :=
  send_loop message_text (py_take (max_messages_per_day config) candidates).

Definition run_body : Exc W unit :=
  lift (log INFO "Starting X DM Sender");;?
  let? allowed := lift is_allowed_time in
  if negb allowed then
    lift (log INFO "Current time is in blocked hours. Exiting.")
  else
    setup_chrome_driver;;?
    let? message_text := lift load_message_text in
    lift (log INFO "Starting user collection...");;?
    let? target_users := lift search_users_by_keywords in
    let? target_users :=
      lift (if Z.of_nat (size target_users) <? max_messages_per_day config then
              log INFO "Not enough users found. Collecting following users...";;
              let* following_users :=
                collect_following_users (enumerate target_users) in
              ret (target_users ∪ following_users)
            else ret target_users) in
    lift (log INFO ("Starting DM sending to "
                    +:+ PyStr.of_Z (Z.min (Z.of_nat (size target_users))
                                          (max_messages_per_day config))
                    +:+ " users"));;?
    lift (send_candidates message_text (enumerate target_users));;?
    let? sc := lift (get sent_count) in
    lift (log INFO ("DM sending completed. Total sent: " +:+ PyStr.of_Z sc)).

Definition run : IO W unit :=
  try_except run_body
    (fun e =>
       log ERROR ("Critical error in main execution: " +:+ exn_str e);;
       notify_slack (SystemErrorAlert (exn_str e)));;
  (let* d := get driver in
   if d then io_world_ driver_quit else ret tt);;
  send_daily_report;;
  send_monthly_report.

(** [main]: build the object, then run it. *)
Definition main : IO W unit := init;; run.

End XDMSender.

(** ** The first version of the script, [x_dm_sender.py] *)

Module Legacy.
Section Legacy.

Context {W : Type} `{Backend W}.

Definition user_of_href (href : option string) : option target :=
  match href with
  | None => None
  | Some href =>
      if PyStr.truthy href && negb (PyStr.contains "/status/" href)
      then Some ("@" +:+ PyStr.last_item (PyStr.split "/" href), href)
      else None
  end.

(** No exception is caught here: one raised while the links are read leaves
    the function. *)
Definition extract_usernames_from_page : Exc W (gset target) :=
  let* r := io_world (find_hrefs "//div[@data-testid='UserCell']//a[contains(@href, '/')]") in
  match r.2 with
  | Some e => raise e
  | None => ok (list_to_set (omap user_of_href r.1))
  end.

(** One turn: the set collected, the new height, and whether
    [new_height == last_height]. *)
Definition scroll_turn (all_usernames : gset target) (last_height : Z)
  : Exc W (gset target * Z * bool) :=
  let? users := extract_usernames_from_page in
  let all_usernames := all_usernames ∪ users in
  io_world scroll_to_bottom;;?
  lift (io_world_ (time_sleep 3));;?
  let? new_height := io_world scroll_height in
  ok (all_usernames, new_height, new_height =? last_height).

Fixpoint scroll_loop (n : nat) (entered : nat) (all_usernames : gset target)
  (last_height : Z) : Exc W (gset target * nat) :=
  match n with
  | O => ok (all_usernames, entered)
  | S n' =>
      let? r := scroll_turn all_usernames last_height in
      let '(all_usernames, new_height, same) := r in
      if same then ok (all_usernames, S entered)
      else scroll_loop n' (S entered) all_usernames new_height
  end.

(** [scroll_and_collect(max_scrolls)]; the number of turns entered is kept
    beside the set returned. *)
Definition scroll_and_collect (max_scrolls : Z) : Exc W (gset target * nat) :=
  let? last_height := io_world scroll_height in
  scroll_loop (Z.to_nat max_scrolls) 0 ∅ last_height.

End Legacy.
End Legacy.

(** ** [MaintenanceTools.analyze_sending_statistics] *)

Module Maintenance.

(** The counters and tables the loop over the history fills.  The two entries
    derived from them afterwards, [most_active_days] and [recommendations],
    are not represented. *)
Record Stats : Type := mk_stats {
  total_attempts : Z;
  successful_sends : Z;
  failed_sends : Z;
  success_rate : Q;
  daily_breakdown : gmap string (Z * Z);
  error_analysis : gmap string Z;
  hourly_pattern : gmap Z Z
}.

Definition empty_stats : Stats := mk_stats 0 0 0 0 ∅ ∅ ∅.

(** [d[k] += 1] on a [defaultdict(int)] or a [Counter]. *)
Definition bump {K} `{Countable K} (k : K) (m : gmap K Z) : gmap K Z :=
  <[k := default 0 (m !! k) + 1]> m.

Definition bump_day (ok : bool) (k : string) (m : gmap string (Z * Z))
  : gmap string (Z * Z) :=
  let '(s, f) := default (0, 0) (m !! k) in
  <[k := if ok then (s + 1, f) else (s, f + 1)]> m.

Definition analyze_row (cutoff_date : Z) (stats : Stats) (row : Row) : Stats :=
  match strptime (date row) "%Y-%m-%d %H:%M:%S" with
  | Raise _ => stats
  | Ok send_date =>
      if cutoff_date <=? instant send_date then
        let day_key := strftime_Ymd send_date in
        let hour_key := hour send_date in
        let ok := String.eqb (status row) "Success" in
        mk_stats
          (total_attempts stats + 1)
          (if ok then successful_sends stats + 1 else successful_sends stats)
          (if ok then failed_sends stats else failed_sends stats + 1)
          (success_rate stats)
          (bump_day ok day_key (daily_breakdown stats))
          (if ok then error_analysis stats
           else bump (PyStr.slice_to 50 (error row)) (error_analysis stats))
          (bump hour_key (hourly_pattern stats))
      else stats
  end.

Definition with_rate (stats : Stats) : Stats :=
  if 0 <? total_attempts stats then
    mk_stats (total_attempts stats) (successful_sends stats) (failed_sends stats)
      ((inject_Z (successful_sends stats) / inject_Z (total_attempts stats)) * 100)%Q
      (daily_breakdown stats) (error_analysis stats) (hourly_pattern stats)
  else stats.

(** [analyze_sending_statistics(days)] over the rows of the history file,
    read at the time [now]. *)
Definition analyze_sending_statistics (now : datetime) (days : Z)
  (rows : list Row) : Stats :=
  with_rate (fold_left (analyze_row (minus_days now days)) rows empty_stats).

End Maintenance.

(** ** A scripted world, to run the engine on concrete scenarios *)

Module Sim.

(** What a scenario fixes: the clock as a function of the number of readings
    made so far, the spreadsheet's answer, for each address the successive
    views (links shown, page height) as the page is scrolled, and the verdict
    of the send dialogue for each candidate. *)
Record scenario : Type := {
  clock : nat -> datetime;
  sheet : result (list string);
  pages : string -> list (list string * Z);
  verdict : string -> string -> bool * string
}.

(** What changes: the clock readings made, where the browser is, how far it
    has scrolled, and the calls made to the browser. *)
Record world : Type := mk_world {
  ticks : nat;
  location : string;
  position : nat;
  calls : list string
}.

Definition start : world := mk_world 0 "" 0 [].

Definition view (sc : scenario) (w : world) : list string * Z :=
  let l := pages sc (location w) in
  nth (Nat.min (position w) (length l - 1)) l ([], 0).

Definition call (c : string) (w : world) : world :=
  mk_world (ticks w) (location w) (position w) (calls w ++ [c]).

Definition backend (sc : scenario) : Backend world := {|
  datetime_now w :=
    (clock sc (ticks w), mk_world (S (ticks w)) (location w) (position w) (calls w));
  random_uniform a b w := (a, w);
  random_random w := ((1 # 2)%Q, w);
  time_sleep d w := w;
  chrome_start w := (Ok tt, call "start" w);
  driver_get u w :=
    (Ok tt, mk_world (ticks w) u 0 (calls w ++ ["get " +:+ u]));
  find_hrefs sel w := ((map Some (view sc w).1, None), w);
  scroll_height w := (Ok (view sc w).2, w);
  scroll_to_bottom w :=
    (Ok tt, mk_world (ticks w) (location w) (S (position w)) (calls w ++ ["scroll"]));
  driver_quit w := call "quit" w;
  col_values w := (sheet sc, w);
  requests_post n w := (Ok tt, w);
  read_message_file w := (Some "hi", w);
  open_log w := (Ok tt, w);
  write_row r w := (Ok tt, w);
  send_dm_to_user u l m w := (verdict sc u l, call ("dm " +:+ u) w)
|}.

End Sim.

(** Scenario data used below. *)

(** One possible enumeration of a set of candidates. *)
Definition set_order : gset target -> list target := elements.

Definition noon : datetime := mk_datetime 2024 8 30 12 0 0 0.

Definition demo_config : Config := {|
  sent_history_reset_days := 90;
  max_messages_per_day := 3;
  blocked_hours := [0; 1; 2; 3; 4; 5; 6];
  min_wait_seconds := 30;
  max_wait_seconds := 90;
  keywords := ["vtuber"];
  max_users_per_keyword := 50;
  max_scroll_per_page := 5;
  monthly_report_day := 1
|}.

Definition search_address (keyword : string) : string :=
  "https://x.com/search?q=" +:+ keyword +:+ "&src=typed_query&f=user".

Definition twin_scenario : Sim.scenario := {|
  Sim.clock _ := noon;
  Sim.sheet := Raise (OtherError "quota exceeded");
  Sim.pages u :=
    if String.eqb u (search_address "vtuber")
    then [(["https://twitter.com/alice"; "https://x.com/alice"], 900)]
    else [([], 0)];
  Sim.verdict _ _ := (true, "Success")
|}.

Definition rows_with (st : string) (rows : list Row) : list Row :=
  filter (fun r => String.eqb (status r) st = true) rows.


(** ** Notions used to state the properties *)

(** The number of [:] in a text. *)
Fixpoint colons (s : string) : nat :=
  match s with
  | EmptyString => O
  | String a s' => if Ascii.eqb a ":" then S (colons s') else colons s'
  end.

(** The number of literal [:] in a compiled format. *)
Fixpoint lit_colons (ts : list tok) : nat :=
  match ts with
  | [] => O
  | TLit c :: ts' => if Ascii.eqb c ":" then S (lit_colons ts') else lit_colons ts'
  | _ :: ts' => lit_colons ts'
  end.

(** A character class that rejects the colon. *)
Definition no_colon (c : ascii -> bool) : Prop := c ":"%char = false.

(** The row [log_sending_result] writes for an attempt made at [now]. *)
Definition attempt_row (now : datetime) (u l : string) (ok : bool)
  (err msg : string) : Row :=
  mk_row (strftime_YmdHMS now) u l (if ok then "Success" else "Failed") err
    (excerpt msg).

Definition count_status (st : string) (rows : list Row) : nat :=
  length (rows_with st rows).

(** A history file that can be appended to: opening it and writing a row
    never raise. *)
Definition writable_log {W : Type} `{Backend W} : Prop :=
  (forall w, (open_log w).1 = Ok tt)
  /\ (forall row w, (write_row row w).1 = Ok tt).

(** The row of claim C1: a success logged one second inside a window of 90
    days that ends at [noon]. *)
Definition boundary_time : datetime := mk_datetime 2024 6 1 12 0 1 0.
Definition boundary_row : Row :=
  attempt_row boundary_time "@alice" "https://x.com/alice" true "Success" "hi".

(** The state in which [__init__] calls [load_blacklist]. *)
Definition before_refresh {W : Type} `{Backend W} (config : Config)
  (st : State W) : State W :=
  (load_sent_history config (io_world datetime_now st).2).2.

(** The states in which a turn of the send loop over [targets], entered in
    [st], has run to its last statement (the wait). *)
Inductive iteration_end {W : Type} `{Backend W} (config : Config) (msg : string)
  : list target -> State W -> State W -> Prop :=
  | end_first t ts st st' :
      send_one config msg t st = (Continue, st') ->
      iteration_end config msg (t :: ts) st st'
  | end_later t ts st st1 st' :
      send_one config msg t st = (Continue, st1) ->
      iteration_end config msg ts st1 st' ->
      iteration_end config msg (t :: ts) st st'.

(** The rows a computation added to the history. *)
Definition new_rows {W : Type} (st st' : State W) : list Row :=
  drop (length (history st)) (history st').

(** The scenario of claim C3: five candidates, the third one fails. *)
Definition five : list target :=
  [ ("@u1", "https://x.com/u1"); ("@u2", "https://x.com/u2");
    ("@u3", "https://x.com/u3"); ("@u4", "https://x.com/u4");
    ("@u5", "https://x.com/u5") ].

Definition cap_scenario : Sim.scenario := {|
  Sim.clock _ := noon;
  Sim.sheet := Ok [];
  Sim.pages _ := [([], 0)];
  Sim.verdict u _ :=
    if String.eqb u "@u3" then (false, "Message button not found")
    else (true, "Success")
|}.

Definition summary (rows : list Row) : list (string * string) :=
  map (fun r => (username r, status r)) rows.

(** The scenario of claim C5: the clock shows two in the morning, an hour
    the configuration blocks; the search page would offer a candidate. *)
Definition two_am : datetime := mk_datetime 2024 8 30 2 0 0 0.

Definition blocked_scenario : Sim.scenario := {|
  Sim.clock _ := two_am;
  Sim.sheet := Ok [];
  Sim.pages u :=
    if String.eqb u (search_address "vtuber")
    then [(["https://x.com/alice"], 900)]
    else [([], 0)];
  Sim.verdict _ _ := (true, "Success")
|}.

(** *** A run after the provider of the blacklist has failed *)

(** Every page opens, shows the one link [href] and can be scrolled. *)
Definition page_shows {W : Type} `{Backend W} (href : string) : Prop :=
  (forall address w, (driver_get address w).1 = Ok tt)
  /\ (forall selector w, (find_hrefs selector w).1 = ([Some href], None))
  /\ (forall w, exists h, (scroll_height w).1 = Ok h)
  /\ (forall w, (scroll_to_bottom w).1 = Ok tt).

(** Whenever the clock is read, it shows an hour that is not blocked. *)
Definition always_allowed {W : Type} `{Backend W} (config : Config) : Prop :=
  forall w,
    existsb (Z.eqb (hour (datetime_now w).1)) (blocked_hours config) = false.

(** A world at noon whose spreadsheet raises and whose every page shows the
    profile of one account. *)
Definition single_scenario : Sim.scenario := {|
  Sim.clock _ := noon;
  Sim.sheet := Raise (OtherError "quota exceeded");
  Sim.pages _ := [(["https://x.com/alice"], 900)];
  Sim.verdict _ _ := (true, "Success")
|}.

(** *** Scrolling *)

(** The height comparisons of the first [k] turns of
    [XDMSender.scroll_and_collect] when nothing ends the loop: an entry is
    [true] when the reveal action of that turn left the height unchanged. *)
Fixpoint free_turns {W : Type} `{Backend W} (k : nat) (all_usernames : gset target)
  : Exc W (list bool) :=
  match k with
  | O => ok []
  | S k' =>
      let? r := scroll_turn all_usernames in
      let? rest := free_turns k' r.1 in
      ok (r.2 :: rest)
  end.

(** The same for the first version of the script. *)
Fixpoint legacy_free_turns {W : Type} `{Backend W} (k : nat)
  (all_usernames : gset target) (last_height : Z) : Exc W (list bool) :=
  match k with
  | O => ok []
  | S k' =>
      let? r := Legacy.scroll_turn all_usernames last_height in
      let? rest := legacy_free_turns k' r.1.1 r.1.2 in
      ok (r.2 :: rest)
  end.

(** What the browser shows in one turn of [XDMSender.scroll_and_collect]:
    the links of the page, then [document.body.scrollHeight] read before and
    after the reveal action ([window.scrollTo]) and the pause. *)
Definition turn_heights {W : Type} `{Backend W} (all_usernames : gset target)
  : Exc W (gset target * (Z * Z)) :=
  let? current_users := lift extract_usernames_from_page in
  let? current_height := io_world scroll_height in
  io_world scroll_to_bottom;;?
  let? d := lift (io_world (random_uniform 2 4)) in
  lift (io_world_ (time_sleep d));;?
  let? new_height := io_world scroll_height in
  ok (all_usernames ∪ current_users, (current_height, new_height)).

(** The two heights of each of the first [k] turns when nothing ends the
    loop. *)
Fixpoint heights_seen {W : Type} `{Backend W} (k : nat) (all_usernames : gset target)
  : Exc W (list (Z * Z)) :=
  match k with
  | O => ok []
  | S k' =>
      let? r := turn_heights all_usernames in
      let? rest := heights_seen k' r.1 in
      ok (r.2 :: rest)
  end.

(** The reveal action of a turn left the height of the page unchanged. *)
Definition unchanged (heights : Z * Z) : bool := heights.2 =? heights.1.

(** What the browser shows in one turn of the first version: the links, then
    the height read after the reveal action and the pause. *)
Definition legacy_turn_height {W : Type} `{Backend W} (all_usernames : gset target)
  : Exc W (gset target * Z) :=
  let? users := Legacy.extract_usernames_from_page in
  io_world scroll_to_bottom;;?
  lift (io_world_ (time_sleep 3));;?
  let? new_height := io_world scroll_height in
  ok (all_usernames ∪ users, new_height).

Fixpoint legacy_heights_seen {W : Type} `{Backend W} (k : nat)
  (all_usernames : gset target) : Exc W (list Z) :=
  match k with
  | O => ok []
  | S k' =>
      let? r := legacy_turn_height all_usernames in
      let? rest := legacy_heights_seen k' r.1 in
      ok (r.2 :: rest)
  end.

(** For each height of the list, whether it equals the one before it;
    [last_height] comes before the first. *)
Fixpoint legacy_unchanged (last_height : Z) (heights : list Z) : list bool :=
  match heights with
  | [] => []
  | h :: rest => (h =? last_height) :: legacy_unchanged h rest
  end.

(** Two consecutive [true] somewhere in the list. *)
Fixpoint has_twice (l : list bool) : bool :=
  match l with
  | [] => false
  | b :: t =>
      match t with
      | b' :: _ => (b && b') || has_twice t
      | [] => false
      end
  end.

(** A page whose height never changes while every reveal action shows one
    more account. *)
Definition growing_scenario : Sim.scenario := {|
  Sim.clock _ := noon;
  Sim.sheet := Ok [];
  Sim.pages _ :=
    [ (["https://x.com/a"], 100);
      (["https://x.com/a"; "https://x.com/b"], 100);
      (["https://x.com/a"; "https://x.com/b"; "https://x.com/c"], 100);
      (["https://x.com/a"; "https://x.com/b"; "https://x.com/c"; "https://x.com/d"], 100) ];
  Sim.verdict _ _ := (true, "Success")
|}.

(** A page on which nothing changes. *)
Definition stable_scenario : Sim.scenario := {|
  Sim.clock _ := noon;
  Sim.sheet := Ok [];
  Sim.pages _ := [ (["https://x.com/a"], 100) ];
  Sim.verdict _ _ := (true, "Success")
|}.

(** *** Statistics *)

(** A row is inside the analysis window when its date reads as a timestamp
    with seconds that is not older than [now - days]. *)
Definition in_window (now : datetime) (days : Z) (row : Row) : bool :=
  match strptime (date row) "%Y-%m-%d %H:%M:%S" with
  | Ok t => minus_days now days <=? instant t
  | Raise _ => false
  end.

(** The number of rows inside the window with a given status. *)
Definition window_count (now : datetime) (days : Z) (st : string)
  (rows : list Row) : Z :=
  Z.of_nat (length (filter (fun r => in_window now days r && String.eqb (status r) st = true) rows)).

(** The number of rows inside the window whose status is not Success. *)
Definition other_count (now : datetime) (days : Z) (rows : list Row) : Z :=
  Z.of_nat (length (filter (fun r => in_window now days r
                                     && negb (String.eqb (status r) "Success") = true) rows)).

(** Three rows for the statistics: two inside a window of seven days, one
    of each status, and one older than the window. *)
Definition stat_rows : list Row :=
  [ mk_row "2024-08-29 10:00:00" "@a" "https://x.com/a" "Success" "Success" "hi";
    mk_row "2024-08-29 10:05:00" "@b" "https://x.com/b" "Failed" "Message button not found" "hi";
    mk_row "2024-08-01 10:00:00" "@c" "https://x.com/c" "Success" "Success" "hi" ].

(** *** Blacklist *)

(** The condition the claim C10 states: the entry, stripped, starts with one
    of the two prefixes. *)
Definition keep_after_strip (url : string) : bool :=
  PyStr.startswith (PyStr.strip url) "https://twitter.com"
  || PyStr.startswith (PyStr.strip url) "https://x.com".

(** *** Frames *)

(** Between two states nothing differs but the world and the logger. *)
Definition quiet {W : Type} (st st' : State W) : Prop :=
  history st' = history st
  /\ slack st' = slack st
  /\ sent_users st' = sent_users st
  /\ blacklist_urls st' = blacklist_urls st
  /\ sent_count st' = sent_count st
  /\ driver st' = driver st.

(** A computation that touches only the world and the logger. *)
Definition quiet_io {W : Type} {A : Type} (m : IO W A) : Prop :=
  forall st, quiet st (m st).2.

(** The candidate a history row was written for. *)
Definition row_target (r : Row) : target := (username r, url r).

(** A candidate the discovery filter lets through, for the sets of the
    state [st]. *)
Definition passes {W : Type} (st : State W) (t : target) : Prop :=
  (t.1 ∉ sent_users st) /\ (t.2 ∉ blacklist_urls st).

(** A notification the daily report step can send for the day [today]. *)
Definition daily_notification (today : string) (rows : list Row) : notification :=
  match (daily_success today rows + length (daily_failed today rows))%nat with
  | O => DailyReportError "division by zero"
  | S _ =>
      DailyReport today (daily_success today rows) (length (daily_failed today rows))
        (take 5 (map failed_user (daily_failed today rows)))
  end.

(** The rows of the history whose date starts with [today]. *)
Definition rows_of_day (today : string) (rows : list Row) : list Row :=
  filter (fun r => is_today today r = true) rows.

(** A backend whose browser cannot be started. *)
Definition without_browser {W : Type} (b : Backend W) (e : exn) : Backend W := {|
  datetime_now := @datetime_now W b;
  random_uniform := @random_uniform W b;
  random_random := @random_random W b;
  time_sleep := @time_sleep W b;
  chrome_start w := (Raise e, w);
  driver_get := @driver_get W b;
  find_hrefs := @find_hrefs W b;
  scroll_height := @scroll_height W b;
  scroll_to_bottom := @scroll_to_bottom W b;
  driver_quit := @driver_quit W b;
  col_values := @col_values W b;
  requests_post := @requests_post W b;
  read_message_file := @read_message_file W b;
  open_log := @open_log W b;
  write_row := @write_row W b;
  send_dm_to_user := @send_dm_to_user W b
|}.

(** Between two states nothing differs but the world, the logger and the
    notifications sent. *)
Definition calm {W : Type} (st st' : State W) : Prop :=
  history st' = history st
  /\ sent_users st' = sent_users st
  /\ blacklist_urls st' = blacklist_urls st
  /\ sent_count st' = sent_count st
  /\ driver st' = driver st.

(** Between two states the history, the notifications, the two sets and the
    counter are the same. *)
Definition steady {W : Type} (st s : State W) : Prop :=
  history s = history st
  /\ slack s = slack st
  /\ sent_users s = sent_users st
  /\ blacklist_urls s = blacklist_urls st
  /\ sent_count s = sent_count st.

(** What the send phase may have added to the state [st]: rows for
    candidates that pass the filter of [st], no more of them than the cap,
    and no more successes among them than the counter has grown (as many,
    when the history file can be written); no notification. *)
Definition sent_only {W : Type} `{Backend W} (cap : Z) (st s : State W) : Prop :=
  exists rows,
    history s = (history st ++ rows)%list
    /\ slack s = slack st
    /\ sent_count st + Z.of_nat (count_status "Success" rows) <= sent_count s
    /\ (writable_log ->
        sent_count s = sent_count st + Z.of_nat (count_status "Success" rows))
    /\ Forall (fun r => passes st (row_target r)) rows
    /\ (0 <= cap -> (length rows <= Z.to_nat cap)%nat).

(** From every state that satisfies [P], the computation ends in a result
    and a state that satisfy [Q]. *)
Definition triple {W A : Type} (P : State W -> Prop) (m : IO W A)
  (Q : A -> State W -> Prop) : Prop :=
  forall st, P st -> Q (m st).1 (m st).2.

(** The [finally] block of [run]. *)
Definition run_finally {W : Type} `{Backend W} (config : Config) : IO W unit :=
  (let* d := get driver in
   if d then io_world_ driver_quit else ret tt);;
  send_daily_report;;
  send_monthly_report config.

(** The [except] block of [run]. *)
Definition run_except {W : Type} `{Backend W} (e : exn) : IO W unit :=
  log ERROR ("Critical error in main execution: " +:+ exn_str e);;
  notify_slack (SystemErrorAlert (exn_str e)).

(** *** Reading back what [strftime] wrote *)

(** The group of alternatives [alts] captures exactly the text [cap]: the
    first alternative that matches [cap] takes all of it, and those before
    it fail on a character of [cap], not for want of text. *)
Fixpoint alts_capture (alts : list (list (ascii -> bool))) (cap : string) : bool :=
  match alts with
  | [] => false
  | cs :: rest =>
      match match_classes cs cap with
      | Some (c, r) => String.eqb c cap && negb (PyStr.truthy r)
      | None => (length cs <=? String.length cap)%nat && alts_capture rest cap
      end
  end.

(** A number printed with [w] digits is captured by the directive [d], does
    not start with a blank, and reads back as the number. *)
Definition field_ok (d : directive) (w : nat) (v : nat) : bool :=
  let s := PyStr.zero_pad w v in
  alts_capture (directive_regex d) s
  && Z.eqb (PyStr.int s) (Z.of_nat v)
  && match s with
     | String a _ => negb (PyStr.is_space a)
     | EmptyString => false
     end.

(** A datetime without its microseconds. *)
Definition whole_second (t : datetime) : datetime :=
  mk_datetime (year t) (month t) (day t) (hour t) (minute t) (second t) 0.

(** *** [MaintenanceTools]: the health checks over the history *)

Module Health.

Definition one_hour : Z := 3600 * 1000000.

(** The loop of [check_recent_activity]: it returns at the first row whose
    date reads as a timestamp not older than the cutoff; rows that do not
    parse are skipped. *)
Fixpoint recent_activity_loop (cutoff_time : Z) (rows : list Row) : bool :=
  match rows with
  | [] => false
  | row :: rest =>
      match strptime (date row) "%Y-%m-%d %H:%M:%S" with
      | Ok send_date =>
          if cutoff_time <=? instant send_date then true
          else recent_activity_loop cutoff_time rest
      | Raise _ => recent_activity_loop cutoff_time rest
      end
  end.

(** [check_recent_activity(hours)] over the rows of the history file, read
    at the time [now]. *)
Definition check_recent_activity (now : datetime) (hours : Z) (rows : list Row)
  : bool :=
  recent_activity_loop (instant now - hours * one_hour) rows.

(** The three collections the loop of [check_sent_history_health] fills. *)
Record Tally : Type := mk_tally {
  unique_users : gset string;
  recent_users : gset string;
  duplicate_sends : list (string * string * string)
}.

Definition health_row (cutoff_date : Z) (acc : Tally) (row : Row) : Tally :=
  match strptime (date row) "%Y-%m-%d %H:%M:%S" with
  | Raise _ => acc
  | Ok send_date =>
      let username := username row in
      mk_tally
        ({[username]} ∪ unique_users acc)
        (if (cutoff_date <=? instant send_date) && String.eqb (status row) "Success"
         then {[username]} ∪ recent_users acc
         else recent_users acc)
        (if bool_decide (username ∈ unique_users acc)
         then duplicate_sends acc ++ [(username, date row, status row)]
         else duplicate_sends acc)
  end.

Definition tally (now : datetime) (reset_days : Z) (rows : list Row) : Tally :=
  fold_left (health_row (minus_days now reset_days)) rows (mk_tally ∅ ∅ []).

(** The dictionary [check_sent_history_health] returns. *)
Record Report : Type := mk_report {
  total_unique_users : nat;
  recent_successful_users : nat;
  reported_duplicates : list (string * string * string);
  reset_effectiveness : Q
}.

Definition check_sent_history_health (config : Config) (now : datetime)
  (rows : list Row) : Report :=
  let t := tally now (sent_history_reset_days config) rows in
  mk_report
    (size (unique_users t))
    (size (recent_users t))
    (take 10 (duplicate_sends t))
    (if bool_decide (unique_users t = ∅) then 0%Q
     else (inject_Z (Z.of_nat (size (recent_users t)))
           / inject_Z (Z.of_nat (size (unique_users t))) * 100)%Q).

End Health.

(** The rows of a history whose date reads as a timestamp with seconds. *)
Definition parses (r : Row) : bool :=
  match strptime (date r) "%Y-%m-%d %H:%M:%S" with
  | Ok _ => true
  | Raise _ => false
  end.

Definition parseable (rows : list Row) : list Row :=
  filter (fun r => parses r = true) rows.

(** *** The send dialogue: [safe_click] and [send_dm_to_user] in detail *)

(** A handle on a page element. *)
Abbreviation element := nat.

(** What waiting for a clickable element ends in. *)
Inductive wait_result : Type :=
  | Found (e : element)
  | TimedOut
  | WaitError (e : exn).

(** What a click ends in. *)
Inductive click_result : Type :=
  | Clicked
  | Intercepted (text : string)
  | ClickError (e : exn).

(** How an element is looked for: [By.XPATH] or [By.CSS_SELECTOR]. *)
Inductive By : Type := XPATH | CSS_SELECTOR.

(** The element-level calls of the send dialogue. *)
Class Browser (W : Type) : Type := {
  (** [wait.until(EC.element_to_be_clickable((by, selector)))] *)
  wait_clickable : By -> string -> W -> wait_result * W;
  (** [execute_script("arguments[0].scrollIntoView(true);", element)] *)
  scroll_into_view : element -> W -> result unit * W;
  (** [element.click()] *)
  element_click : element -> W -> click_result * W;
  (** [element.send_keys(keys)] *)
  send_keys : element -> string -> W -> result unit * W
}.

Module Dialogue.
Section Dialogue.

Context {W : Type} `{Backend W} `{Browser W}.

(** [safe_click]: the loop over [range(max_attempts)], with [n] attempts
    left and [attempt] of them made. *)
Fixpoint safe_click_loop (el : element) (n : nat) (attempt : nat) : IO W bool :=
  match n with
  | O => ret false
  | S n' =>
      let* r := io_world (scroll_into_view el) in
      match r with
      | Raise e =>
          log WARNING ("Click failed: " +:+ exn_str e);;
          safe_click_loop el n' (S attempt)
      | Ok _ =>
          io_world_ (time_sleep (1 # 2));;
          let* c := io_world (element_click el) in
          match c with
          | Clicked => ret true
          | Intercepted _ =>
              log WARNING ("Click intercepted, attempt " +:+ PyStr.of_nat (S attempt));;
              io_world_ (time_sleep 1);;
              safe_click_loop el n' (S attempt)
          | ClickError e =>
              log WARNING ("Click failed: " +:+ exn_str e);;
              safe_click_loop el n' (S attempt)
          end
      end
  end.

Definition safe_click (el : element) (max_attempts : Z) : IO W bool :=
  safe_click_loop el (Z.to_nat max_attempts) 0.

(** The selectors are tried in order; a timeout moves on to the next one,
    any other exception leaves the function. *)
Fixpoint first_clickable (how : By) (selectors : list string)
  : Exc W (option element) :=
  match selectors with
  | [] => ok None
  | selector :: rest =>
      let* r := io_world (wait_clickable how selector) in
      match r with
      | Found el => ok (Some el)
      | TimedOut => first_clickable how rest
      | WaitError e => raise e
      end
  end.

(** The selectors, with the source's inner double quotes written as single
    ones. *)
Definition message_selectors : list string :=
  [ "//div[@aria-label='メッセージ']";
    "//div[@data-testid='sendDMFromProfile']";
    "//a[contains(@href, '/messages/compose')]";
    "//div[contains(text(), 'メッセージ')]" ].

Definition textbox_selectors : list string :=
  [ "div[role='textbox']";
    "div[data-testid='dmComposerTextInput']";
    "div[contenteditable='true']" ].

Definition sleep_uniform (a b : Q) : IO W unit :=
  let* d := io_world (random_uniform a b) in
  io_world_ (time_sleep d).

(** Typing, one character at a time, with a short pause now and then. *)
Fixpoint type_message (textbox : element) (message : string) : Exc W unit :=
  match message with
  | EmptyString => ok tt
  | String c rest =>
      io_world (send_keys textbox (String c EmptyString));;?
      let? r := lift (io_world random_random) in
      lift (if negb (Qle_bool (1 # 10) r) then sleep_uniform (1 # 10) (3 # 10)
            else ret tt);;?
      type_message textbox rest
  end.

(** [textbox.click()]: here a refused click is an exception. *)
Definition click_or_raise (el : element) : Exc W unit :=
  let* c := io_world (element_click el) in
  match c with
  | Clicked => ok tt
  | Intercepted text => raise (OtherError text)
  | ClickError e => raise e
  end.

(** The body of the [try] of [send_dm_to_user]. *)
Definition send_dm_body (username url message : string) : Exc W (bool * string) :=
  lift (log INFO ("Attempting to send DM to " +:+ username));;?
  io_world (driver_get url);;?
  lift (sleep_uniform 3 6);;?
  let? message_button := first_clickable XPATH message_selectors in
  match message_button with
  | None => ok (false, "Message button not found")
  | Some message_button =>
      let? clicked := lift (safe_click message_button 3) in
      if negb clicked then ok (false, "Failed to click message button")
      else
        lift (sleep_uniform 2 4);;?
        let? textbox := first_clickable CSS_SELECTOR textbox_selectors in
        match textbox with
        | None => ok (false, "Text input not found")
        | Some textbox =>
            click_or_raise textbox;;?
            lift (io_world_ (time_sleep (1 # 2)));;?
            type_message textbox message;;?
            lift (sleep_uniform 1 2);;?
            io_world (send_keys textbox "RETURN");;?
            lift (sleep_uniform 2 4);;?
            ok (true, "Success")
        end
  end.

(** [send_dm_to_user]: every exception ends in a failure with its text. *)
Definition send_dm_to_user (username url message : string) : IO W (bool * string) :=
  try_except (send_dm_body username url message)
    (fun e =>
       log ERROR ("Error sending DM to " +:+ username +:+ ": " +:+ exn_str e);;
       ret (false, exn_str e)).

End Dialogue.
End Dialogue.

(** A page on which nothing ever becomes clickable. *)
Definition stuck_browser : Browser Sim.world := {|
  wait_clickable how sel w := (TimedOut, Sim.call ("wait " +:+ sel) w);
  scroll_into_view el w := (Ok tt, w);
  element_click el w := (Intercepted "covered", Sim.call "click" w);
  send_keys el k w := (Ok tt, Sim.call ("keys " +:+ k) w)
|}.

(** A page on which the message button is there but every click on it is
    intercepted. *)
Definition covered_browser : Browser Sim.world := {|
  wait_clickable how sel w := (Found 7%nat, Sim.call ("wait " +:+ sel) w);
  scroll_into_view el w := (Ok tt, w);
  element_click el w := (Intercepted "covered", Sim.call "click" w);
  send_keys el k w := (Ok tt, Sim.call ("keys " +:+ k) w)
|}.

(** Whatever the state, the result of the computation satisfies [P]. *)
Definition always {W A : Type} (P : A -> Prop) (m : IO W A) : Prop :=
  forall st, P (m st).1.

(** A verdict of the send dialogue whose text agrees with its flag. *)
Definition coherent_verdict (r : result (bool * string)) : Prop :=
  match r with
  | Ok (true, text) => text = "Success"
  | _ => True
  end.

(** The backend [b] with a network on which no page opens: [driver.get]
    raises [e]. *)
Definition offline {W : Type} (b : Backend W) (e : exn) : Backend W := {|
  datetime_now := @datetime_now W b;
  random_uniform := @random_uniform W b;
  random_random := @random_random W b;
  time_sleep := @time_sleep W b;
  chrome_start := @chrome_start W b;
  driver_get u w := (Raise e, w);
  find_hrefs := @find_hrefs W b;
  scroll_height := @scroll_height W b;
  scroll_to_bottom := @scroll_to_bottom W b;
  driver_quit := @driver_quit W b;
  col_values := @col_values W b;
  requests_post := @requests_post W b;
  read_message_file := @read_message_file W b;
  open_log := @open_log W b;
  write_row := @write_row W b;
  send_dm_to_user := @send_dm_to_user W b
|}.

(** A page on which every element is there and takes clicks and keys. *)
Definition ready_browser : Browser Sim.world := {|
  wait_clickable how sel w := (Found 7%nat, Sim.call ("wait " +:+ sel) w);
  scroll_into_view el w := (Ok tt, w);
  element_click el w := (Clicked, Sim.call "click" w);
  send_keys el k w := (Ok tt, Sim.call ("keys " +:+ k) w)
|}.

(** The character [c] occurs in [s]. *)
Fixpoint has_char (c : ascii) (s : string) : bool :=
  match s with
  | EmptyString => false
  | String a s' => Ascii.eqb a c || has_char c s'
  end.

(** The part of a link that becomes the identifier:
    [href.split("/")[-1].split("?")[0]]. *)
Definition username_part (href : string) : string :=
  PyStr.first_item (PyStr.split "?" (PyStr.last_item (PyStr.split "/" href))).

(** The configuration [demo_config] with scrolling switched off. *)
Definition idle_config : Config := {|
  sent_history_reset_days := 90;
  max_messages_per_day := 3;
  blocked_hours := [0; 1; 2; 3; 4; 5; 6];
  min_wait_seconds := 30;
  max_wait_seconds := 90;
  keywords := ["vtuber"];
  max_users_per_keyword := 50;
  max_scroll_per_page := 0;
  monthly_report_day := 1
|}.

(** * Properties *)

(** ** Text *)

Lemma append_cons x a b : String x a +:+ b = String x (a +:+ b).
Proof. reflexivity. Qed.

Lemma append_assoc (a b c : string) : (a +:+ b) +:+ c = a +:+ (b +:+ c).
Proof.
  induction a as [|x a IH]; [reflexivity|].
  rewrite !append_cons, IH. reflexivity.
Qed.

Lemma colons_app a b : colons (a +:+ b) = (colons a + colons b)%nat.
Proof.
  induction a as [|c a IH]; [reflexivity|].
  rewrite append_cons. simpl. destruct (Ascii.eqb c ":"); simpl; lia.
Qed.

Lemma colons_digits d : colons (NilEmpty.string_of_uint d) = O.
Proof. induction d; simpl; auto. Qed.

Lemma colons_of_nat n : colons (PyStr.of_nat n) = O.
Proof.
  unfold PyStr.of_nat, NilZero.string_of_uint.
  destruct (Nat.to_uint n) eqn:E; try reflexivity; rewrite <- E; apply colons_digits.
Qed.

Lemma colons_zeros k : colons (PyStr.zeros k) = O.
Proof. induction k; simpl; auto. Qed.

Lemma colons_zero_pad w n : colons (PyStr.zero_pad w n) = O.
Proof.
  unfold PyStr.zero_pad.
  rewrite colons_app, colons_zeros, colons_of_nat. reflexivity.
Qed.

(** A timestamp with seconds has two colons. *)
Lemma colons_strftime t : colons (strftime_YmdHMS t) = 2%nat.
Proof.
  unfold strftime_YmdHMS, fmt_date.
  repeat rewrite colons_app. repeat rewrite colons_zero_pad. reflexivity.
Qed.

(** ** [strptime]: what a match consumes *)

Lemma class_not_colon (c : ascii -> bool) a :
  no_colon c -> c a = true -> Ascii.eqb a ":" = false.
Proof.
  intros Hc Ha. destruct (Ascii.eqb a ":") eqn:E; [|reflexivity].
  apply Ascii.eqb_eq in E. subst a. unfold no_colon in Hc. congruence.
Qed.

Lemma match_classes_split cs s cap r :
  Forall no_colon cs -> match_classes cs s = Some (cap, r) ->
  s = cap +:+ r /\ colons cap = O.
Proof.
  revert s cap r. induction cs as [|c cs IH]; intros s cap r Hcs Hm; simpl in Hm.
  - inversion Hm; subst. split; reflexivity.
  - destruct s as [|a s]; [discriminate|].
    destruct (c a) eqn:Hca; [|discriminate].
    destruct (match_classes cs s) as [[cap' r']|] eqn:Hrec; [|discriminate].
    inversion Hm; subst. inversion Hcs; subst.
    destruct (IH _ _ _ H2 Hrec) as [-> Hc0]. split; [reflexivity|].
    simpl. rewrite (class_not_colon c a); auto.
Qed.

Lemma directive_no_colon d : Forall (Forall no_colon) (directive_regex d).
Proof. destruct d; simpl; repeat constructor. Qed.

Lemma match_spaces_split s r :
  r ∈ match_spaces s -> exists pre, s = pre +:+ r /\ colons pre = O.
Proof.
  revert r. induction s as [|a s IH]; intros r Hr; simpl in Hr.
  - inversion Hr.
  - destruct (PyStr.is_space a) eqn:Hsp; [|inversion Hr].
    assert (Ha : Ascii.eqb a ":" = false).
    { destruct (Ascii.eqb a ":") eqn:E; [|reflexivity].
      apply Ascii.eqb_eq in E. subst a. discriminate. }
    apply elem_of_app in Hr as [Hr|Hr].
    + destruct (IH _ Hr) as (pre & -> & Hp).
      exists (String a pre). split; [reflexivity|].
      simpl. rewrite Ha. exact Hp.
    + apply list_elem_of_singleton in Hr. subst r.
      exists (String a EmptyString).
      split; [reflexivity|]. simpl. rewrite Ha. reflexivity.
Qed.

(** Whatever way the tokens match, the text consumed holds as many colons as
    the format has literal ones: no directive and no blank matches a colon. *)
Lemma re_matches_split ts s fs r :
  (fs, r) ∈ re_matches ts s ->
  exists pre, s = pre +:+ r /\ colons pre = lit_colons ts.
Proof.
  revert s fs r. induction ts as [|t ts IH]; intros s fs r Hm.
  - simpl in Hm. apply list_elem_of_singleton in Hm. inversion Hm; subst.
    exists EmptyString. split; reflexivity.
  - destruct t as [c| |d]; simpl in Hm.
    + destruct s as [|a s]; [inversion Hm|].
      destruct (Ascii.eqb a c) eqn:Hac; [|inversion Hm].
      apply Ascii.eqb_eq in Hac. subst c.
      destruct (IH _ _ _ Hm) as (pre & -> & Hp).
      exists (String a pre). split; [reflexivity|].
      simpl. rewrite Hp. reflexivity.
    + apply list_elem_of_bind in Hm as (r1 & Hm & Hs).
      destruct (match_spaces_split _ _ Hs) as (p1 & -> & Hp1).
      destruct (IH _ _ _ Hm) as (p2 & -> & Hp2).
      exists (p1 +:+ p2). split; [symmetry; apply append_assoc|].
      rewrite colons_app, Hp1, Hp2. reflexivity.
    + apply list_elem_of_bind in Hm as ([cap r1] & Hm & Ha).
      apply list_elem_of_bind in Hm as ([fs2 r2] & Hm & Hr).
      apply list_elem_of_singleton in Hm. inversion Hm; subst. simpl in *.
      unfold match_alts in Ha. apply list_elem_of_omap in Ha as (cs & Hin & Hmc).
      pose proof (directive_no_colon d) as Hd.
      rewrite Forall_forall in Hd. specialize (Hd _ Hin).
      destruct (match_classes_split _ _ _ _ Hd Hmc) as [-> Hc].
      destruct (IH _ _ _ Hr) as (p2 & -> & Hp2).
      exists (cap +:+ p2). split; [symmetry; apply append_assoc|].
      rewrite colons_app, Hc, Hp2. reflexivity.
Qed.

(** A text with more colons than the format is never accepted: something is
    left over after the match. *)
Lemma strptime_surplus_colon s fmt ts :
  compile false fmt = Some ts -> (lit_colons ts < colons s)%nat ->
  exists e, strptime s fmt = Raise e.
Proof.
  intros Hc Hlt. unfold strptime. rewrite Hc.
  destruct (head (re_matches ts s)) as [[fs rest]|] eqn:Hh; [|eexists; reflexivity].
  apply head_Some_elem_of in Hh.
  destruct (re_matches_split _ _ _ _ Hh) as (pre & Hs & Hp).
  rewrite Hs, colons_app, Hp in Hlt.
  destruct rest; [simpl in Hlt; lia|]. simpl. eexists; reflexivity.
Qed.

(** The timestamp [log_sending_result] writes is rejected by the format
    [load_sent_history] reads with. *)
Lemma strptime_rejects_seconds t :
  exists e, strptime (strftime_YmdHMS t) "%Y-%m-%d %H:%M" = Raise e.
Proof.
  eapply strptime_surplus_colon; [reflexivity|].
  rewrite colons_strftime. simpl. lia.
Qed.

(** ** [load_sent_history] *)

Lemma history_row_skips_logged reset users t u l st err msg :
  history_row reset users (mk_row (strftime_YmdHMS t) u l st err msg) = users.
Proof.
  unfold history_row. simpl.
  destruct (strptime_rejects_seconds t) as [e ->]. reflexivity.
Qed.

(** Rows written by the engine never enter the set of recent users. *)
Lemma recent_users_skips_logged config now rows users :
  Forall (fun r => exists t, date r = strftime_YmdHMS t) rows ->
  recent_users config now rows users = users.
Proof.
  unfold recent_users. intros Hrows. revert users.
  induction Hrows as [|r rows [t Ht] _ IH]; intros users; [reflexivity|].
  simpl. rewrite <- (IH users) at 2. f_equal.
  destruct r as [d u l st err msg]. simpl in Ht. subst d.
  apply history_row_skips_logged.
Qed.

Lemma filter_users_empty (users : gset target) : filter_users ∅ ∅ users = users.
Proof.
  unfold filter_users. apply set_eq. intros t.
  rewrite elem_of_filter. split; [tauto|]. intros Ht. split; [|exact Ht].
  split; apply not_elem_of_empty.
Qed.

(** C1, at the failing input.  The history holds one row, stamped by
    [log_sending_result] one second inside the window of 90 days that ends at
    [noon], with status Success for [@alice].  The row lies inside the window,
    yet [load_sent_history] collects nobody, and the filter of the discovery
    phase keeps the candidate [@alice]: the identifier is not excluded. *)
Theorem C1_logged_success_not_excluded :
  instant boundary_time = minus_days noon 90 + 1000000
  /\ status boundary_row = "Success"
  /\ recent_users demo_config noon [boundary_row] ∅ = ∅
  /\ filter_users (recent_users demo_config noon [boundary_row] ∅) ∅
       {[ ("@alice", "https://x.com/alice") ]}
     = {[ ("@alice", "https://x.com/alice") ]}.
Proof.
  assert (Hr : recent_users demo_config noon [boundary_row] ∅ = ∅).
  { apply recent_users_skips_logged. repeat constructor.
    exists boundary_time. reflexivity. }
  split; [vm_compute; reflexivity|]. split; [reflexivity|]. split; [exact Hr|].
  rewrite Hr. apply filter_users_empty.
Qed.

(** ** The send loop *)

Section SendLoop.

Context {W : Type} `{Backend W}.
Variable config : Config.

(** The wait changes nothing but the world. *)
Lemma wait_between_actions_world n (st : State W) :
  exists w', wait_between_actions config n st = (tt, set_world w' st).
Proof.
  unfold wait_between_actions, io_world, io_world_, bind, ret.
  destruct (random_uniform _ _ (world st)) as [a w1]. simpl.
  destruct (random_random w1) as [r w2]. simpl.
  destruct (negb (Qle_bool (1 # 10) r)); simpl.
  - destruct (random_uniform 60 180 w2) as [b w3]. simpl. eexists. reflexivity.
  - eexists. reflexivity.
Qed.

(** [log_sending_result] writes the row of the attempt at the end of the
    history, or, when the file cannot be opened or written, nothing; it
    touches nothing else but the world and the log. *)
Lemma log_sending_result_spec u l status err msg (st : State W) :
  exists st' rows,
    log_sending_result u l status err msg st = (tt, st')
    /\ history st' = (history st ++ rows)%list
    /\ (rows = []
        \/ exists now, rows = [mk_row (strftime_YmdHMS now) u l status err (excerpt msg)])
    /\ (writable_log ->
        exists now, rows = [mk_row (strftime_YmdHMS now) u l status err (excerpt msg)])
    /\ sent_count st' = sent_count st /\ slack st' = slack st
    /\ sent_users st' = sent_users st.
Proof.
  unfold log_sending_result, try_except, bind_exc, lift, ok, raise, log, modify,
    io_world, bind, ret.
  destruct (open_log (world st)) as [[[]|e] w1] eqn:Hopen; cbn.
  - destruct (datetime_now w1) as [now w2]. cbn.
    match goal with |- context [write_row ?r w2] =>
      destruct (write_row r w2) as [[[]|e] w3] eqn:Hwrite end; cbn.
    + eexists _, [_]. split; [reflexivity|]. cbn.
      split; [reflexivity|]. split; [right; eexists; reflexivity|].
      split; [intros _; eexists; reflexivity|]. repeat split.
    + eexists _, []. split; [reflexivity|]. cbn. rewrite app_nil_r.
      split; [reflexivity|]. split; [left; reflexivity|].
      split; [|repeat split].
      intros [_ Hw]. pose proof (f_equal fst Hwrite) as Hbad. cbn in Hbad.
      rewrite Hw in Hbad. discriminate.
  - eexists _, []. split; [reflexivity|]. cbn. rewrite app_nil_r.
    split; [reflexivity|]. split; [left; reflexivity|].
    split; [|repeat split].
    intros [Ho _]. specialize (Ho (world st)). rewrite Hopen in Ho. discriminate.
Qed.

(** One turn of the loop: either it leaves the loop and writes nothing, or
    the cap is not reached, the hour is allowed and the candidate is
    attempted; the row of the attempt is then written, unless the history
    file fails. *)
Lemma send_one_spec msg u l (st : State W) :
  (exists st', send_one config msg (u, l) st = (Break, st')
     /\ history st' = history st /\ sent_count st' = sent_count st
     /\ slack st' = slack st /\ sent_users st' = sent_users st
     /\ (max_messages_per_day config <= sent_count st -> st' = st)
     /\ (max_messages_per_day config <= sent_count st
         \/ existsb (Z.eqb (hour (datetime_now (world st)).1))
              (blocked_hours config) = true))
  \/
  (exists st' t0 w1 ok err w2 rows,
     send_one config msg (u, l) st = (Continue, st')
     /\ sent_count st < max_messages_per_day config
     /\ datetime_now (world st) = (t0, w1)
     /\ existsb (Z.eqb (hour t0)) (blocked_hours config) = false
     /\ send_dm_to_user u l msg w1 = ((ok, err), w2)
     /\ history st' = (history st ++ rows)%list
     /\ (rows = [] \/ exists now, rows = [attempt_row now u l ok err msg])
     /\ (writable_log -> exists now, rows = [attempt_row now u l ok err msg])
     /\ sent_count st' = sent_count st + (if ok then 1 else 0)
     /\ slack st' = slack st
     /\ sent_users st' = (if ok then {[u]} ∪ sent_users st else sent_users st)).
Proof.
  pose proof (log_sending_result_spec u l) as Hspec. unfold send_one.
  revert Hspec. generalize (log_sending_result u l). intros write Hspec.
  unfold is_allowed_time, log, modify, get, io_world, io_world_, bind, ret; simpl.
  destruct (max_messages_per_day config <=? sent_count st) eqn:Hcap.
  - left. exists st. apply Z.leb_le in Hcap. repeat apply conj; auto.
  - apply Z.leb_gt in Hcap.
    destruct (datetime_now (world st)) as [t0 w1] eqn:Hnow. simpl.
    destruct (existsb (Z.eqb (hour t0)) (blocked_hours config)) eqn:Hb; simpl.
    + left. eexists. split; [reflexivity|]. simpl. repeat apply conj; auto.
      intros. lia.
    + right.
      destruct (send_dm_to_user u l msg w1) as [[ok err] w2] eqn:Hs. simpl.
      match goal with |- context [write ?status err msg ?s] =>
        destruct (Hspec status err msg s)
          as (s1 & rows & Hlog & Hh & Hrows & Hwr & Hc & Hsl & Hu)
      end.
      rewrite Hlog. simpl in Hh, Hc, Hsl, Hu.
      destruct ok; simpl;
        match goal with
        | |- context [wait_between_actions config ?n ?s] =>
            destruct (wait_between_actions_world n s) as [w' ->]
        end.
      * eexists _, t0, w1, true, err, w2, rows.
        split; [reflexivity|]. simpl. rewrite Hh, Hc, Hsl, Hu.
        repeat apply conj; auto.
      * eexists _, t0, w1, false, err, w2, rows.
        split; [reflexivity|]. simpl. rewrite Hh, Hc, Hsl, Hu.
        repeat apply conj; auto. lia.
Qed.

Lemma count_status_app st (a b : list Row) :
  count_status st (a ++ b) = (count_status st a + count_status st b)%nat.
Proof.
  unfold count_status, rows_with. rewrite filter_app, length_app. reflexivity.
Qed.

Lemma count_success_attempt now u l ok err msg :
  count_status "Success" [attempt_row now u l ok err msg] = if ok then 1%nat else 0%nat.
Proof. destruct ok; reflexivity. Qed.

Lemma count_failed_attempt now u l ok err msg :
  count_status "Failed" [attempt_row now u l ok err msg] = if ok then 0%nat else 1%nat.
Proof. destruct ok; reflexivity. Qed.

(** Once the counter has reached the cap the loop does nothing at all: the
    state, world included, is the one it was entered in. *)
Lemma send_loop_at_cap msg targets (st : State W) :
  max_messages_per_day config <= sent_count st ->
  send_loop config msg targets st = (tt, st).
Proof.
  intros Hcap. destruct targets as [|[u l] ts]; [reflexivity|].
  simpl. unfold bind, send_one, get. simpl.
  apply Z.leb_le in Hcap. rewrite Hcap. reflexivity.
Qed.

Lemma count_success_logged u l ok err msg rows :
  rows = [] \/ (exists now, rows = [attempt_row now u l ok err msg]) ->
  (count_status "Success" rows <= if ok then 1 else 0)%nat.
Proof.
  intros [-> | [now ->]].
  - unfold count_status. simpl. lia.
  - rewrite count_success_attempt. destruct ok; lia.
Qed.

(** What holds where a turn ends: the rows added, the counter against the
    number of successes among them, and the cap. *)
Lemma iteration_end_rows msg targets (st st' : State W) :
  iteration_end config msg targets st st' ->
  exists rows,
    history st' = (history st ++ rows)%list
    /\ sent_count st + Z.of_nat (count_status "Success" rows) <= sent_count st'
    /\ (writable_log ->
        sent_count st' = sent_count st + Z.of_nat (count_status "Success" rows))
    /\ sent_count st' <= max_messages_per_day config.
Proof.
  induction 1 as [[u l] ts st st' Hone | [u l] ts st st1 st' Hone Hrest IH].
  - destruct (send_one_spec msg u l st) as
      [(s & Hs & _)
      |(s & t0 & w1 & ok & err & w2 & rows & Hs & Hlt & _ & _ & _ & Hh & Hrows & Hwr & Hc & _)];
      rewrite Hone in Hs; inversion Hs; subst s.
    exists rows. split; [exact Hh|]. split; [|split].
    + pose proof (count_success_logged _ _ _ _ _ _ Hrows). destruct ok; lia.
    + intros Hw. destruct (Hwr Hw) as [now ->]. rewrite count_success_attempt.
      destruct ok; lia.
    + destruct ok; lia.
  - destruct (send_one_spec msg u l st) as
      [(s & Hs & _)
      |(s & t0 & w1 & ok & err & w2 & rows1 & Hs & Hlt & _ & _ & _ & Hh & Hrows & Hwr & Hc & _)];
      rewrite Hone in Hs; inversion Hs; subst s.
    destruct IH as (rows & Hr & Hn & Heq & Hle).
    exists (rows1 ++ rows)%list. rewrite count_status_app.
    split; [|split; [|split; [|exact Hle]]].
    + rewrite Hr, Hh, <- app_assoc. reflexivity.
    + pose proof (count_success_logged _ _ _ _ _ _ Hrows). destruct ok; lia.
    + intros Hw. destruct (Hwr Hw) as [now ->]. rewrite count_success_attempt.
      specialize (Heq Hw). destruct ok; lia.
Qed.

Lemma send_loop_cons msg t ts (st : State W) :
  send_loop config msg (t :: ts) st =
  match send_one config msg t st with
  | (Break, s) => (tt, s)
  | (Continue, s) => send_loop config msg ts s
  end.
Proof.
  simpl. unfold bind. destruct (send_one config msg t st) as [[|] s]; reflexivity.
Qed.

(** A loop entered with the counter within the cap leaves it within the
    cap, whichever way it is left. *)
Lemma send_loop_final_within_cap msg targets : forall (st : State W),
  sent_count st <= max_messages_per_day config ->
  sent_count (send_loop config msg targets st).2 <= max_messages_per_day config.
Proof.
  induction targets as [|[u l] ts IH]; intros st Hle; [exact Hle|].
  rewrite send_loop_cons.
  destruct (send_one_spec msg u l st) as
    [(s & Hs & _ & Hc & _)
    |(s & t0 & w1 & ok & err & w2 & rows & Hs & Hlt & _ & _ & _ & _ & _ & _ & Hc & _)];
    rewrite Hs; simpl.
  - rewrite Hc. exact Hle.
  - apply IH. destruct ok; lia.
Qed.


(** A turn entered below the cap, with the time gate open, a backend whose
    verdict on the candidate is [(ok, err)] and a history file that can be
    written, attempts the candidate and writes its row. *)
Lemma send_one_attempt msg u l ok err (st : State W) :
  writable_log ->
  sent_count st < max_messages_per_day config ->
  (forall w, existsb (Z.eqb (hour (datetime_now w).1)) (blocked_hours config) = false) ->
  (forall w, (send_dm_to_user u l msg w).1 = (ok, err)) ->
  exists st' now,
    send_one config msg (u, l) st = (Continue, st')
    /\ history st' = (history st ++ [attempt_row now u l ok err msg])%list
    /\ sent_count st' = sent_count st + (if ok then 1 else 0).
Proof.
  intros Hlog Hlt Hopen Hverdict.
  destruct (send_one_spec msg u l st) as
    [(s & _ & _ & _ & _ & _ & _ & [Hge | Hblocked])
    |(s & t0 & w1 & ok' & err' & w2 & rows & Hs & _ & _ & _ & Hdm & Hh & _ & Hwr & Hc & _)].
  - lia.
  - rewrite Hopen in Hblocked. discriminate.
  - specialize (Hverdict w1). rewrite Hdm in Hverdict. simpl in Hverdict.
    inversion Hverdict; subst ok' err'.
    destruct (Hwr Hlog) as [now ->].
    exists s, now. repeat apply conj; assumption.
Qed.

(** C3, amended.  With a daily cap of 3, the counter at zero, the time gate
    open, a history file that can be written and five candidates of which
    the backend accepts the first two and refuses the third, the send phase
    writes exactly three rows: Success for
    the first and the second candidate, Failed for the third, and nothing for
    the fourth and the fifth, whatever the backend would have answered for
    them.  The counter ends at 2. *)
Theorem C3_only_first_cap_candidates_attempted
  msg c1 c2 c3 c4 c5 e1 e2 e3 (st : State W) :
  writable_log ->
  max_messages_per_day config = 3 ->
  sent_count st = 0 ->
  (forall w, existsb (Z.eqb (hour (datetime_now w).1)) (blocked_hours config) = false) ->
  (forall w, (send_dm_to_user c1.1 c1.2 msg w).1 = (true, e1)) ->
  (forall w, (send_dm_to_user c2.1 c2.2 msg w).1 = (true, e2)) ->
  (forall w, (send_dm_to_user c3.1 c3.2 msg w).1 = (false, e3)) ->
  let st' := (send_candidates config msg [c1; c2; c3; c4; c5] st).2 in
  (exists t1 t2 t3,
     new_rows st st' =
       [ attempt_row t1 c1.1 c1.2 true e1 msg;
         attempt_row t2 c2.1 c2.2 true e2 msg;
         attempt_row t3 c3.1 c3.2 false e3 msg ])
  /\ count_status "Success" (new_rows st st') = 2%nat
  /\ count_status "Failed" (new_rows st st') = 1%nat
  /\ sent_count st' = 2.
Proof.
  intros Hlog Hcap Hzero Hopen H1 H2 H3.
  destruct c1 as [u1 l1], c2 as [u2 l2], c3 as [u3 l3]. simpl in H1, H2, H3.
  unfold send_candidates. rewrite Hcap.
  change (py_take 3 [(u1, l1); (u2, l2); (u3, l3); c4; c5])
    with [(u1, l1); (u2, l2); (u3, l3)].
  destruct (send_one_attempt msg u1 l1 true e1 st) as (s1 & t1 & Hs1 & Hh1 & Hn1);
    [exact Hlog | lia | exact Hopen | exact H1 |].
  destruct (send_one_attempt msg u2 l2 true e2 s1) as (s2 & t2 & Hs2 & Hh2 & Hn2);
    [exact Hlog | lia | exact Hopen | exact H2 |].
  destruct (send_one_attempt msg u3 l3 false e3 s2) as (s3 & t3 & Hs3 & Hh3 & Hn3);
    [exact Hlog | lia | exact Hopen | exact H3 |].
  rewrite send_loop_cons, Hs1, send_loop_cons, Hs2, send_loop_cons, Hs3.
  simpl.
  assert (Hrows : new_rows st s3 =
            [attempt_row t1 u1 l1 true e1 msg; attempt_row t2 u2 l2 true e2 msg;
             attempt_row t3 u3 l3 false e3 msg]).
  { unfold new_rows. rewrite Hh3, Hh2, Hh1, <- !app_assoc. simpl.
    apply drop_app_length. }
  repeat apply conj.
  - exists t1, t2, t3. exact Hrows.
  - rewrite Hrows. reflexivity.
  - rewrite Hrows. reflexivity.
  - lia.
Qed.

End SendLoop.

(** C3, witness: the scripted world of [cap_scenario] meets the hypotheses. *)
Lemma C3_witness :
  let st := initial Sim.start [] in
  let st' := (@send_candidates _ (Sim.backend cap_scenario) demo_config "hi"
                five st).2 in
  (exists t1 t2 t3,
     new_rows st st' =
       [ attempt_row t1 "@u1" "https://x.com/u1" true "Success" "hi";
         attempt_row t2 "@u2" "https://x.com/u2" true "Success" "hi";
         attempt_row t3 "@u3" "https://x.com/u3" false "Message button not found" "hi" ])
  /\ count_status "Success" (new_rows st st') = 2%nat
  /\ count_status "Failed" (new_rows st st') = 1%nat
  /\ sent_count st' = 2.
Proof.
  apply (@C3_only_first_cap_candidates_attempted _ (Sim.backend cap_scenario)
           demo_config "hi" ("@u1", "https://x.com/u1") ("@u2", "https://x.com/u2")
           ("@u3", "https://x.com/u3") ("@u4", "https://x.com/u4")
           ("@u5", "https://x.com/u5") "Success" "Success"
           "Message button not found" (initial Sim.start []));
    try reflexivity; try (intros w; reflexivity).
  split; intros; reflexivity.
Defined.

(** C3 as stated fails: in the scenario of the claim (cap 3, five candidates,
    the backend accepts all but the third) the history shows two Success rows
    and one Failed row, not three Success rows, and the fourth candidate is
    never handed to the backend. *)
Lemma C3_counterexample :
  let st' := (@send_candidates _ (Sim.backend cap_scenario) demo_config "hi"
                five (initial Sim.start [])).2 in
  Sim.verdict cap_scenario "@u4" "https://x.com/u4" = (true, "Success")
  /\ summary (history st')
     = [("@u1", "Success"); ("@u2", "Success"); ("@u3", "Failed")]
  /\ count_status "Success" (history st') <> 3%nat
  /\ Sim.calls (world st') = ["dm @u1"; "dm @u2"; "dm @u3"].
Proof. vm_compute. repeat split; congruence. Qed.


(** C2, at the failing input.  The search page shows the same handle under a
    twitter.com and an x.com address; both links yield the identifier
    [@alice], the two pairs are distinct candidates, and the run writes two
    Success rows for [@alice]. *)
Theorem C2_same_identifier_sent_twice :
  let st := (@main _ (Sim.backend twin_scenario) demo_config set_order
               (initial Sim.start [])).2 in
  user_of_href (Some "https://twitter.com/alice")
    = Some ("@alice", "https://twitter.com/alice")
  /\ user_of_href (Some "https://x.com/alice") = Some ("@alice", "https://x.com/alice")
  /\ map (fun r => (username r, url r, status r)) (history st)
     = [ ("@alice", "https://twitter.com/alice", "Success");
         ("@alice", "https://x.com/alice", "Success") ]
  /\ count_status "Success"
       (filter (fun r => username r = "@alice") (history st)) = 2%nat.
Proof. vm_compute. repeat split; reflexivity. Qed.

(** ** The run as a whole *)

Section Run.

Context {W : Type} `{Backend W}.
Variable config : Config.
Variable enumerate : gset target -> list target.

(** A run started in a blocked hour goes straight to the two reports: the
    browser is not started and no page is opened. *)
Lemma run_blocked (st : State W) :
  driver st = false ->
  existsb (Z.eqb (hour (datetime_now (world st)).1)) (blocked_hours config) = true ->
  run config enumerate st =
  (send_daily_report;; send_monthly_report config)%io
    (set_logger (logger st ++ [(INFO, "Starting X DM Sender");
                               (INFO, "Current time is in blocked hours. Exiting.")])
       (set_world (datetime_now (world st)).2 st)).
Proof.
  intros Hd Hb.
  unfold run, run_body, try_except, bind_exc, lift, ok, is_allowed_time, log,
    modify, get, io_world, bind, ret. simpl.
  destruct (datetime_now (world st)) as [t0 w1]. simpl in *.
  rewrite Hb. simpl. rewrite Hd, <- app_assoc. reflexivity.
Qed.

(** A notification is recorded whether or not the webhook accepts it; the
    history is not touched. *)
Lemma notify_slack_spec n (st : State W) :
  exists st', notify_slack n st = (tt, st')
    /\ history st' = history st
    /\ slack st' = (slack st ++ [n])%list.
Proof.
  unfold notify_slack, try_except, log, modify, io_world, bind, ret. simpl.
  destruct (requests_post n (world st)) as [[[]|e] w2];
    simpl; eexists; (split; [reflexivity|]); simpl; split; reflexivity.
Qed.

(** With no row of today in the history the daily report divides by zero,
    and the handler sends an error notification. *)
Lemma send_daily_report_empty_day (st : State W) :
  let today := strftime_Ymd (datetime_now (world st)).1 in
  daily_success today (history st) = O ->
  daily_failed today (history st) = [] ->
  exists st', send_daily_report st = (tt, st')
    /\ history st' = history st
    /\ slack st' = (slack st ++ [DailyReportError "division by zero"])%list.
Proof.
  intros today Hs Hf.
  unfold send_daily_report, try_except, bind_exc, lift, ok, raise,
    log, modify, get, io_world, bind, ret. simpl.
  destruct (datetime_now (world st)) as [now w1]. simpl in *.
  subst today. rewrite Hs, Hf. simpl.
  match goal with
  | |- context [notify_slack ?n ?s] =>
      destruct (notify_slack_spec n s) as (s' & -> & Hh & Hsl)
  end.
  exists s'. split; [reflexivity|]. split; [exact Hh | exact Hsl].
Qed.

(** The refresh of the blacklist when the provider raises. *)
Lemma load_blacklist_failure (st : State W) e w' :
  col_values (world st) = (Raise e, w') ->
  load_blacklist st =
  (tt, set_blacklist_urls ∅
         (set_logger (logger st ++ [(WARNING,
            "Failed to load blacklist from Google Sheets: " +:+ exn_str e)])
            (set_world w' st))).
Proof.
  intros Hp.
  unfold load_blacklist, try_except, bind_exc, raise, log, modify, io_world,
    bind, ret. rewrite Hp. reflexivity.
Qed.

Lemma filter_users_no_blacklist (sent : gset string) (users : gset target) t :
  t ∈ filter_users sent ∅ users <-> (t ∈ users /\ t.1 ∉ sent).
Proof.
  unfold filter_users. rewrite elem_of_filter. split; [tauto|].
  intros [Hu Hs]. repeat split; auto. apply not_elem_of_empty.
Qed.

(** When the provider raises during the refresh at the start, the object
    is built all the same and [run] is entered: the blacklist is empty, a
    warning is in the log, the history, the counter and the notifications
    are untouched, and the discovery filter drops a candidate only for an
    identifier in the recent history, never for its address. *)
Lemma init_after_provider_failure (st : State W) e w' :
  col_values (world (before_refresh config st)) = (Raise e, w') ->
  let st1 := (init config st).2 in
  main config enumerate st = run config enumerate st1
  /\ blacklist_urls st1 = ∅
  /\ (WARNING, "Failed to load blacklist from Google Sheets: " +:+ exn_str e)
       ∈ logger st1
  /\ world st1 = w'
  /\ history st1 = history st
  /\ sent_count st1 = sent_count st
  /\ slack st1 = slack st
  /\ (forall users t,
        t ∈ filter_users (sent_users st1) (blacklist_urls st1) users
        <-> (t ∈ users /\ t.1 ∉ sent_users st1)).
Proof.
  intros Hp. simpl.
  assert (Hinit : init config st =
    (tt, set_logger
           (logger (before_refresh config st) ++
              [(WARNING, "Failed to load blacklist from Google Sheets: " +:+ exn_str e);
               (INFO, "X DM Sender initialized successfully")])
           (set_blacklist_urls ∅ (set_world w' (before_refresh config st))))).
  { unfold before_refresh in *. unfold init, bind.
    destruct (io_world datetime_now st) as [today s0]. simpl in *.
    destruct (load_sent_history config s0) as [[] s1] eqn:Hl.
    simpl in Hp. rewrite (load_blacklist_failure s1 e w' Hp).
    unfold log, modify. simpl. rewrite <- app_assoc. reflexivity. }
  assert (Hframe : history (before_refresh config st) = history st
                   /\ sent_count (before_refresh config st) = sent_count st
                   /\ slack (before_refresh config st) = slack st).
  { unfold before_refresh, load_sent_history, log, modify, get, io_world, bind,
      ret. simpl.
    destruct (datetime_now (world st)) as [today w0]. simpl.
    destruct (datetime_now w0). simpl. repeat split. }
  destruct Hframe as (Hh & Hc & Hs).
  repeat apply conj.
  - unfold main, bind. destruct (init config st) as [[] s]. reflexivity.
  - rewrite Hinit. reflexivity.
  - rewrite Hinit. simpl. apply elem_of_app. right. left.
  - rewrite Hinit. reflexivity.
  - rewrite Hinit. simpl. exact Hh.
  - rewrite Hinit. simpl. exact Hc.
  - rewrite Hinit. simpl. exact Hs.
  - intros users t. rewrite Hinit. simpl. apply filter_users_no_blacklist.
Qed.

End Run.

(** C5, at the failing input.  The hours 0 to 6 are blocked, the clock shows
    two in the morning and the history is empty.  The run opens no page and
    writes no row, but the daily report divides by zero and its handler
    sends an error notification. *)
Theorem C5_blocked_run_sends_error_notification :
  let st := (@main _ (Sim.backend blocked_scenario) demo_config set_order
               (initial Sim.start [])).2 in
  existsb (Z.eqb (hour two_am)) (blocked_hours demo_config) = true
  /\ history st = []
  /\ Sim.calls (world st) = []
  /\ slack st = [DailyReportError "division by zero"].
Proof. vm_compute. repeat split; reflexivity. Qed.

(** ** Scrolling *)

Section Scroll.
Context {W : Type} `{Backend W}.

Lemma has_twice_cons_false l : has_twice (false :: l) = has_twice l.
Proof. destruct l; reflexivity. Qed.

Lemma has_twice_false_second b l : has_twice (b :: false :: l) = has_twice l.
Proof. simpl. rewrite andb_false_r. simpl. destruct l; reflexivity. Qed.

Lemma scroll_loop_spec k :
  forall (p : bool) entered all (st : State W) flags s_end,
    free_turns k all st = (Ok flags, s_end) ->
    exists all' n st',
      scroll_loop k entered all (if p then 1 else 0) st = (Ok (all', (entered + n)%nat), st')
      /\ (n <= k)%nat
      /\ (has_twice (p :: take n flags) = true \/ n = k)
      /\ (forall j, (j < n)%nat -> has_twice (p :: take j flags) = false)
      /\ free_turns n all st = (Ok (take n flags), st').
Proof.
  induction k as [|k IH]; intros p entered all st flags s_end Hfree.
  - exists all, O, st. simpl. rewrite Nat.add_0_r.
    repeat apply conj; auto. intros j Hj. lia.
  - simpl in Hfree. unfold bind_exc, bind in Hfree.
    destruct (scroll_turn all st) as [[[all1 same]|e] s1] eqn:Hturn;
      [|discriminate].
    simpl in Hfree.
    destruct (free_turns k all1 s1) as [[rest|e] s2] eqn:Hrest; [|discriminate].
    inversion Hfree; subst flags s_end. clear Hfree.
    assert (Hstep : forall stable,
              scroll_loop (S k) entered all stable st =
              (if same then
                 if 2 <=? stable + 1 then (Ok (all1, S entered), s1)
                 else scroll_loop k (S entered) all1 (stable + 1) s1
               else scroll_loop k (S entered) all1 0 s1)).
    { intros stable. simpl. unfold bind_exc, bind. rewrite Hturn. simpl.
      destruct same; [destruct (2 <=? stable + 1)|]; reflexivity. }
    assert (Hfree1 : forall n, free_turns (S n) all st =
              match free_turns n all1 s1 with
              | (Ok r, s) => (Ok (same :: r), s)
              | (Raise e, s) => (Raise e, s)
              end).
    { intros n. simpl. unfold bind_exc, bind. rewrite Hturn. simpl.
      destruct (free_turns n all1 s1) as [[r|e] s]; reflexivity. }
    rewrite Hstep.
    destruct same; [destruct p|].
    + exists all1, 1%nat, s1. split; [|split; [|split; [|split]]].
      * simpl. rewrite Nat.add_1_r. reflexivity.
      * lia.
      * left. reflexivity.
      * intros j Hj. assert (j = O) by lia. subst j. reflexivity.
      * rewrite Hfree1. simpl. unfold ok, ret. destruct rest; reflexivity.
    + destruct (IH true (S entered) all1 s1 rest s2 Hrest)
        as (all' & n & st' & Hloop & Hle & Hstop & Hbefore & Hrun).
      exists all', (S n), st'. split; [|split; [|split; [|split]]].
      * change (0 + 1) with 1. simpl. simpl in Hloop.
        rewrite Hloop, Nat.add_succ_r. reflexivity.
      * lia.
      * destruct Hstop as [Hs| ->]; [left|right; reflexivity].
        simpl take. rewrite has_twice_cons_false. exact Hs.
      * intros [|j] Hj; [reflexivity|]. simpl take.
        rewrite has_twice_cons_false. apply Hbefore. lia.
      * rewrite Hfree1, Hrun. reflexivity.
    + destruct (IH false (S entered) all1 s1 rest s2 Hrest)
        as (all' & n & st' & Hloop & Hle & Hstop & Hbefore & Hrun).
      exists all', (S n), st'. split; [|split; [|split; [|split]]].
      * simpl in Hloop. rewrite Hloop, Nat.add_succ_r. reflexivity.
      * lia.
      * destruct Hstop as [Hs| ->]; [left|right; reflexivity].
        simpl take. rewrite has_twice_false_second.
        rewrite has_twice_cons_false in Hs. exact Hs.
      * intros [|j] Hj; [destruct p; reflexivity|]. simpl take.
        rewrite has_twice_false_second, <- has_twice_cons_false.
        apply Hbefore. lia.
      * rewrite Hfree1, Hrun. reflexivity.
Qed.

(** The first version leaves the loop at the first turn whose reveal action
    leaves the height unchanged. *)
Lemma legacy_scroll_loop_spec k :
  forall entered all last (st : State W) flags s_end,
    legacy_free_turns k all last st = (Ok flags, s_end) ->
    exists all' n st',
      Legacy.scroll_loop k entered all last st = (Ok (all', (entered + n)%nat), st')
      /\ (n <= k)%nat
      /\ (existsb id (take n flags) = true \/ n = k)
      /\ (forall j, (j < n)%nat -> existsb id (take j flags) = false)
      /\ legacy_free_turns n all last st = (Ok (take n flags), st').
Proof.
  induction k as [|k IH]; intros entered all last st flags s_end Hfree.
  - exists all, O, st. simpl. rewrite Nat.add_0_r.
    repeat apply conj; auto. intros j Hj. lia.
  - simpl in Hfree. unfold bind_exc, bind in Hfree.
    destruct (Legacy.scroll_turn all last st) as [[[[all1 new] same]|e] s1] eqn:Hturn;
      [|discriminate].
    simpl in Hfree.
    destruct (legacy_free_turns k all1 new s1) as [[rest|e] s2] eqn:Hrest;
      [|discriminate].
    inversion Hfree; subst flags s_end. clear Hfree.
    assert (Hfree1 : forall n, legacy_free_turns (S n) all last st =
              match legacy_free_turns n all1 new s1 with
              | (Ok r, s) => (Ok (same :: r), s)
              | (Raise e, s) => (Raise e, s)
              end).
    { intros n. simpl. unfold bind_exc, bind. rewrite Hturn. simpl.
      destruct (legacy_free_turns n all1 new s1) as [[r|e] s]; reflexivity. }
    simpl. unfold bind_exc, bind. rewrite Hturn. simpl.
    destruct same.
    + exists all1, 1%nat, s1. split; [|split; [|split; [|split]]].
      * rewrite Nat.add_1_r. reflexivity.
      * lia.
      * left. reflexivity.
      * intros j Hj. assert (j = O) by lia. subst j. reflexivity.
      * rewrite Hfree1. simpl. unfold ok, ret. destruct rest; reflexivity.
    + destruct (IH (S entered) all1 new s1 rest s2 Hrest)
        as (all' & n & st' & Hloop & Hle & Hstop & Hbefore & Hrun).
      exists all', (S n), st'. split; [|split; [|split; [|split]]].
      * rewrite Hloop, Nat.add_succ_r. reflexivity.
      * lia.
      * destruct Hstop as [Hs| ->]; [left|right; reflexivity]. exact Hs.
      * intros [|j] Hj; [reflexivity|]. simpl. apply Hbefore. lia.
      * rewrite Hfree1, Hrun. reflexivity.
Qed.

(** The flag of a turn is the comparison of the two heights the turn
    reads. *)
Lemma scroll_turn_heights all (st : State W) :
  scroll_turn all st =
  match turn_heights all st with
  | (Ok (users, heights), s) => (Ok (users, unchanged heights), s)
  | (Raise e, s) => (Raise e, s)
  end.
Proof.
  unfold scroll_turn, turn_heights, unchanged, bind_exc, lift, ok, raise,
    io_world, io_world_, bind, ret.
  destruct (extract_usernames_from_page st) as [users s1]. cbn.
  destruct (scroll_height (world s1)) as [[h1|e] w1]; cbn; [|reflexivity].
  destruct (scroll_to_bottom w1) as [[[]|e] w2]; cbn; [|reflexivity].
  destruct (random_uniform 2 4 w2) as [d w3]. cbn.
  destruct (scroll_height (time_sleep d w3)) as [[h2|e] w4]; reflexivity.
Qed.

Lemma free_turns_heights k : forall all (st : State W),
  free_turns k all st =
  match heights_seen k all st with
  | (Ok heights, s) => (Ok (map unchanged heights), s)
  | (Raise e, s) => (Raise e, s)
  end.
Proof.
  induction k as [|k IH]; intros all st; [reflexivity|].
  cbn [free_turns heights_seen]. unfold bind_exc, bind.
  rewrite scroll_turn_heights.
  destruct (turn_heights all st) as [[[users heights]|e] s1]; [|reflexivity].
  cbn [fst snd]. rewrite IH.
  destruct (heights_seen k users s1) as [[rest|e] s2]; reflexivity.
Qed.

Lemma heights_seen_take k : forall n all (st : State W) heights s_end,
  heights_seen k all st = (Ok heights, s_end) -> (n <= k)%nat ->
  exists s, heights_seen n all st = (Ok (take n heights), s).
Proof.
  induction k as [|k IH]; intros n all st heights s_end Hk Hn.
  - assert (n = O) by lia. subst n. exists st. reflexivity.
  - destruct n as [|n]; [exists st; reflexivity|].
    cbn [heights_seen] in *. unfold bind_exc, bind in *.
    destruct (turn_heights all st) as [[[users h]|e] s1]; [|discriminate].
    cbn [fst snd] in *.
    destruct (heights_seen k users s1) as [[rest|e] s2] eqn:Hrest; [|discriminate].
    injection Hk as <- <-.
    destruct (IH n users s1 rest s2 Hrest ltac:(lia)) as [s Hs].
    rewrite Hs. exists s. reflexivity.
Qed.

(** The same for the first version: the flag of a turn compares the height
    read in the turn with the one read in the turn before. *)
Lemma legacy_scroll_turn_height all last (st : State W) :
  Legacy.scroll_turn all last st =
  match legacy_turn_height all st with
  | (Ok (users, h), s) => (Ok (users, h, h =? last), s)
  | (Raise e, s) => (Raise e, s)
  end.
Proof.
  unfold Legacy.scroll_turn, legacy_turn_height, bind_exc, lift, ok, raise,
    io_world, io_world_, bind, ret.
  destruct (Legacy.extract_usernames_from_page st) as [[users|e] s1]; cbn;
    [|reflexivity].
  destruct (scroll_to_bottom (world s1)) as [[[]|e] w2]; cbn; [|reflexivity].
  destruct (scroll_height (time_sleep 3 w2)) as [[h2|e] w4]; reflexivity.
Qed.

Lemma legacy_free_turns_heights k : forall all last (st : State W),
  legacy_free_turns k all last st =
  match legacy_heights_seen k all st with
  | (Ok heights, s) => (Ok (legacy_unchanged last heights), s)
  | (Raise e, s) => (Raise e, s)
  end.
Proof.
  induction k as [|k IH]; intros all last st; [reflexivity|].
  cbn [legacy_free_turns legacy_heights_seen]. unfold bind_exc, bind.
  rewrite legacy_scroll_turn_height.
  destruct (legacy_turn_height all st) as [[[users h]|e] s1]; [|reflexivity].
  cbn [fst snd]. rewrite IH.
  destruct (legacy_heights_seen k users s1) as [[rest|e] s2]; reflexivity.
Qed.

Lemma legacy_heights_seen_take k : forall n all (st : State W) heights s_end,
  legacy_heights_seen k all st = (Ok heights, s_end) -> (n <= k)%nat ->
  exists s, legacy_heights_seen n all st = (Ok (take n heights), s).
Proof.
  induction k as [|k IH]; intros n all st heights s_end Hk Hn.
  - assert (n = O) by lia. subst n. exists st. reflexivity.
  - destruct n as [|n]; [exists st; reflexivity|].
    cbn [legacy_heights_seen] in *. unfold bind_exc, bind in *.
    destruct (legacy_turn_height all st) as [[[users h]|e] s1]; [|discriminate].
    cbn [fst snd] in *.
    destruct (legacy_heights_seen k users s1) as [[rest|e] s2] eqn:Hrest;
      [|discriminate].
    injection Hk as <- <-.
    destruct (IH n users s1 rest s2 Hrest ltac:(lia)) as [s Hs].
    rewrite Hs. exists s. reflexivity.
Qed.

Lemma legacy_unchanged_take last heights : forall n,
  take n (legacy_unchanged last heights) = legacy_unchanged last (take n heights).
Proof.
  revert last. induction heights as [|h rest IH]; intros last [|n]; try reflexivity.
  simpl. rewrite IH. reflexivity.
Qed.

(** C6, amended.  Let the browser raise nothing and let [heights] be the
    pairs of page heights ([document.body.scrollHeight] before and after
    the reveal action) that [max_scrolls] turns would read.  The loop of
    [XDMSender.scroll_and_collect] returns after [n] turns, where [n] is the
    first number of turns among which two consecutive ones left the height
    unchanged, or [max_scrolls] when there is none: not later (the state it
    returns in is the one reached after exactly [n] turns) and not earlier.
    Only the heights decide; what the candidate count does plays no part.
    The loop of the first version ([x_dm_sender.py]) returns after the first
    turn that reads the height of the turn before (at first: the height read
    before the loop), or after [max_scrolls] turns. *)
Theorem C6_stops_on_unchanged_height
  max_scrolls (st : State W) heights s_end
  legacy_max last_height (lst : State W) lheights ls_end :
  heights_seen max_scrolls ∅ st = (Ok heights, s_end) ->
  legacy_heights_seen legacy_max ∅ lst = (Ok lheights, ls_end) ->
  (exists all n st',
     scroll_loop max_scrolls 0 ∅ 0 st = (Ok (all, n), st')
     /\ (n <= max_scrolls)%nat
     /\ (has_twice (map unchanged (take n heights)) = true \/ n = max_scrolls)
     /\ (forall j, (j < n)%nat -> has_twice (map unchanged (take j heights)) = false)
     /\ heights_seen n ∅ st = (Ok (take n heights), st'))
  /\
  (exists all n st',
     Legacy.scroll_loop legacy_max 0 ∅ last_height lst = (Ok (all, n), st')
     /\ (n <= legacy_max)%nat
     /\ (existsb id (legacy_unchanged last_height (take n lheights)) = true
         \/ n = legacy_max)
     /\ (forall j, (j < n)%nat ->
           existsb id (legacy_unchanged last_height (take j lheights)) = false)
     /\ legacy_heights_seen n ∅ lst = (Ok (take n lheights), st')).
Proof.
  intros Hseen Hlseen. split.
  - assert (Hfree : free_turns max_scrolls ∅ st = (Ok (map unchanged heights), s_end))
      by (rewrite free_turns_heights, Hseen; reflexivity).
    destruct (scroll_loop_spec max_scrolls false 0%nat ∅ st _ s_end Hfree)
      as (all & n & st' & Hloop & Hle & Hstop & Hbefore & Hrun).
    exists all, n, st'. split; [exact Hloop|]. split; [exact Hle|].
    split; [|split].
    + rewrite has_twice_cons_false, <- fmap_take in Hstop. exact Hstop.
    + intros j Hj. specialize (Hbefore j Hj).
      rewrite has_twice_cons_false, <- fmap_take in Hbefore. exact Hbefore.
    + destruct (heights_seen_take max_scrolls n ∅ st heights s_end Hseen Hle)
        as [s Hs].
      rewrite free_turns_heights, Hs in Hrun. injection Hrun as _ <-. exact Hs.
  - assert (Hfree : legacy_free_turns legacy_max ∅ last_height lst
                    = (Ok (legacy_unchanged last_height lheights), ls_end))
      by (rewrite legacy_free_turns_heights, Hlseen; reflexivity).
    destruct (legacy_scroll_loop_spec legacy_max 0%nat ∅ last_height lst _
                ls_end Hfree)
      as (all & n & st' & Hloop & Hle & Hstop & Hbefore & Hrun).
    exists all, n, st'. split; [exact Hloop|]. split; [exact Hle|].
    split; [|split].
    + rewrite legacy_unchanged_take in Hstop. exact Hstop.
    + intros j Hj. specialize (Hbefore j Hj).
      rewrite legacy_unchanged_take in Hbefore. exact Hbefore.
    + destruct (legacy_heights_seen_take legacy_max n ∅ lst lheights ls_end
                  Hlseen Hle) as [s Hs].
      rewrite legacy_free_turns_heights, Hs in Hrun. injection Hrun as _ <-.
      exact Hs.
Qed.

End Scroll.

(** C6, witness: five turns on the page where nothing changes, its height
    at 100 throughout.  The loop of [XDMSender] stops after two turns, that
    of the first version after one. *)
Lemma C6_witness :
  let st := initial Sim.start [] in
  let heights := [(100, 100); (100, 100); (100, 100); (100, 100); (100, 100)] in
  let lheights := [100; 100; 100; 100; 100] in
  (exists all n st',
     @scroll_loop _ (Sim.backend stable_scenario) 5 0 ∅ 0 st = (Ok (all, n), st')
     /\ (n <= 5)%nat
     /\ (has_twice (map unchanged (take n heights)) = true \/ n = 5%nat)
     /\ (forall j, (j < n)%nat -> has_twice (map unchanged (take j heights)) = false)
     /\ @heights_seen _ (Sim.backend stable_scenario) n ∅ st
        = (Ok (take n heights), st'))
  /\
  (exists all n st',
     @Legacy.scroll_loop _ (Sim.backend stable_scenario) 5 0 ∅ 100 st
     = (Ok (all, n), st')
     /\ (n <= 5)%nat
     /\ (existsb id (legacy_unchanged 100 (take n lheights)) = true \/ n = 5%nat)
     /\ (forall j, (j < n)%nat ->
           existsb id (legacy_unchanged 100 (take j lheights)) = false)
     /\ @legacy_heights_seen _ (Sim.backend stable_scenario) n ∅ st
        = (Ok (take n lheights), st')).
Proof.
  apply (@C6_stops_on_unchanged_height _ (Sim.backend stable_scenario)
           5%nat (initial Sim.start [])
           [(100, 100); (100, 100); (100, 100); (100, 100); (100, 100)]
           (@heights_seen _ (Sim.backend stable_scenario) 5 ∅ (initial Sim.start [])).2
           5%nat 100 (initial Sim.start []) [100; 100; 100; 100; 100]
           (@legacy_heights_seen _ (Sim.backend stable_scenario) 5 ∅
              (initial Sim.start [])).2);
    vm_compute; reflexivity.
Defined.

(** C6 as stated fails.  On a page whose height stays at 100 while every
    reveal action shows one more account, the loop of [XDMSender] with ten
    turns allowed returns after two turns although the set collected grew in
    the second turn (one account after the first turn, two after the
    second): the two turns read the heights 100 and 100.  On a page where
    nothing changes, the loop of the first version returns after one turn,
    not two. *)
Lemma C6_counterexample :
  let st := initial Sim.start [] in
  match (@scroll_turn _ (Sim.backend growing_scenario) ∅ st).1,
        (@scroll_loop _ (Sim.backend growing_scenario) 10 0 ∅ 0 st).1 with
  | Ok (all1, same1), Ok (all2, n) =>
      size all1 = 1%nat /\ size all2 = 2%nat /\ n = 2%nat /\ (n < 10)%nat
  | _, _ => False
  end
  /\ (@heights_seen _ (Sim.backend growing_scenario) 2 ∅ st).1
     = Ok [(100, 100); (100, 100)]
  /\
  match (@Legacy.scroll_and_collect _ (Sim.backend stable_scenario) 5 st).1 with
  | Ok (all, n) => n = 1%nat /\ size all = 1%nat
  | Raise _ => False
  end.
Proof. vm_compute. repeat split; lia. Qed.

(** ** Pacing *)

Section Pacing.

Context {W : Type} `{Backend W}.
Variable config : Config.

(** The duration handed to [time.sleep], in terms of the three draws. *)
Lemma wait_between_actions_duration action_count (st : State W) :
  wait_between_actions config action_count st =
  let (base_wait, w1) :=
    random_uniform (min_wait_seconds config) (max_wait_seconds config) (world st) in
  let (r, w2) := random_random w1 in
  if negb (Qle_bool (1 # 10) r) then
    let (long_break, w3) := random_uniform 60 180 w2 in
    (tt, set_world (time_sleep (fatigue action_count base_wait + long_break)%Q w3) st)
  else (tt, set_world (time_sleep (fatigue action_count base_wait) w2) st).
Proof.
  unfold wait_between_actions, io_world, io_world_, bind, ret.
  destruct (random_uniform _ _ (world st)) as [a w1]. simpl.
  destruct (random_random w1) as [r w2]. simpl.
  destruct (negb (Qle_bool (1 # 10) r)); simpl; [|reflexivity].
  destruct (random_uniform 60 180 w2) as [b w3]. reflexivity.
Qed.

End Pacing.

(** Past the first threshold the factor is 1.5, however large the count. *)
Lemma fatigue_past_first_threshold action_count base_wait :
  100 < action_count -> fatigue action_count base_wait = (base_wait * (3 # 2))%Q.
Proof.
  intros Hgt. unfold fatigue. apply Z.ltb_lt in Hgt. rewrite Hgt. reflexivity.
Qed.

(** C7, at the failing input.  With 301 actions so far, a count past the
    second threshold, the base wait is multiplied by 1.5: a base wait of 60
    seconds becomes 90 seconds, not 120. *)
Theorem C7_second_tier_never_applies :
  (forall base_wait, fatigue 301 base_wait = (base_wait * (3 # 2))%Q)
  /\ (fatigue 301 60 == 90)%Q
  /\ ~ (fatigue 301 60 == 60 * 2)%Q.
Proof.
  split; [intros b; reflexivity|]. split; [reflexivity|].
  intros Heq. vm_compute in Heq. discriminate.
Qed.

(** ** Statistics *)

Section Statistics.

Import Maintenance.

Variable now : datetime.
Variable days : Z.

Lemma analyze_row_counts stats row :
  let stats' := analyze_row (minus_days now days) stats row in
  total_attempts stats' = total_attempts stats
      + window_count now days "Success" [row] + other_count now days [row]
  /\ successful_sends stats' = successful_sends stats + window_count now days "Success" [row]
  /\ failed_sends stats' = failed_sends stats + other_count now days [row]
  /\ success_rate stats' = success_rate stats.
Proof.
  unfold analyze_row, window_count, other_count, in_window.
  rewrite !filter_cons, !filter_nil.
  destruct (strptime (date row) "%Y-%m-%d %H:%M:%S") as [t|e]; simpl.
  - destruct (minus_days now days <=? instant t); simpl.
    + destruct (String.eqb (status row) "Success"); simpl;
        repeat apply conj; try reflexivity; lia.
    + repeat apply conj; try reflexivity; lia.
  - repeat apply conj; try reflexivity; lia.
Qed.

Lemma window_count_cons st r rows :
  window_count now days st (r :: rows)
  = window_count now days st [r] + window_count now days st rows.
Proof.
  unfold window_count. rewrite !filter_cons, filter_nil.
  destruct (decide _); simpl; lia.
Qed.

Lemma other_count_cons r rows :
  other_count now days (r :: rows)
  = other_count now days [r] + other_count now days rows.
Proof.
  unfold other_count. rewrite !filter_cons, filter_nil.
  destruct (decide _); simpl; lia.
Qed.

(** The loop over the history counts the rows inside the window. *)
Lemma analyze_fold_counts rows : forall stats,
  let stats' := fold_left (analyze_row (minus_days now days)) rows stats in
  total_attempts stats' = total_attempts stats
      + window_count now days "Success" rows + other_count now days rows
  /\ successful_sends stats' = successful_sends stats + window_count now days "Success" rows
  /\ failed_sends stats' = failed_sends stats + other_count now days rows
  /\ success_rate stats' = success_rate stats.
Proof.
  induction rows as [|r rows IH]; intros stats.
  - simpl. unfold window_count, other_count. simpl.
    repeat apply conj; try reflexivity; lia.
  - simpl. destruct (IH (analyze_row (minus_days now days) stats r))
      as (Ht & Hs & Hf & Hr).
    destruct (analyze_row_counts stats r) as (Ht1 & Hs1 & Hf1 & Hr1).
    rewrite window_count_cons, other_count_cons.
    repeat apply conj; [lia | lia | lia | congruence].
Qed.

(** When every row inside the window is a Success or a Failed row, the rows
    that are not Success are the Failed ones. *)
Lemma other_count_failed rows :
  (forall r, r ∈ rows -> in_window now days r = true ->
             status r = "Success" \/ status r = "Failed") ->
  other_count now days rows = window_count now days "Failed" rows.
Proof.
  induction rows as [|r rows IH]; intros Hst; [reflexivity|].
  rewrite other_count_cons, window_count_cons, IH.
  - f_equal. unfold other_count, window_count. rewrite !filter_cons, !filter_nil.
    destruct (in_window now days r) eqn:Hw; simpl; [|reflexivity].
    destruct (Hst r) as [Hs|Hs]; [left | exact Hw | |]; rewrite Hs; reflexivity.
  - intros r' Hin. apply Hst. right. exact Hin.
Qed.

(** C8.  Over a history whose rows inside the analysis window are N Success
    rows and M Failed rows, the analysis returns N + M attempts, N successes,
    M failures, and the rate N / (N + M) * 100, or zero when N + M = 0. *)
Theorem C8_statistics_counts rows :
  (forall r, r ∈ rows -> in_window now days r = true ->
             status r = "Success" \/ status r = "Failed") ->
  let N := window_count now days "Success" rows in
  let M := window_count now days "Failed" rows in
  let stats := analyze_sending_statistics now days rows in
  total_attempts stats = N + M
  /\ successful_sends stats = N
  /\ failed_sends stats = M
  /\ (N + M = 0 -> success_rate stats = 0%Q)
  /\ (0 < N + M -> success_rate stats = (inject_Z N / inject_Z (N + M) * 100)%Q).
Proof.
  intros Hst N M stats.
  destruct (analyze_fold_counts rows empty_stats) as (Ht & Hs & Hf & Hr).
  rewrite (other_count_failed rows Hst) in Ht, Hf. simpl in Ht, Hs, Hf, Hr.
  fold N in Ht, Hs. fold M in Ht, Hf.
  subst stats. unfold analyze_sending_statistics, with_rate.
  destruct (0 <? total_attempts (fold_left _ rows empty_stats)) eqn:Hpos; simpl.
  - apply Z.ltb_lt in Hpos. repeat apply conj; try assumption.
    + intros H0. lia.
    + intros _. rewrite Hs, Ht. reflexivity.
  - apply Z.ltb_ge in Hpos. repeat apply conj; try assumption.
    + intros _. exact Hr.
    + intros Hgt. lia.
Qed.

End Statistics.

(** C8, witness: of the three rows of [stat_rows], read on 30 August with a
    window of seven days, one Success and one Failed row are inside the
    window; the rate is 50. *)
Lemma C8_witness :
  let N := window_count noon 7 "Success" stat_rows in
  let M := window_count noon 7 "Failed" stat_rows in
  let stats := Maintenance.analyze_sending_statistics noon 7 stat_rows in
  (N = 1 /\ M = 1)
  /\ (Maintenance.total_attempts stats = N + M
      /\ Maintenance.successful_sends stats = N
      /\ Maintenance.failed_sends stats = M
      /\ (N + M = 0 -> Maintenance.success_rate stats = 0%Q)
      /\ (0 < N + M ->
          Maintenance.success_rate stats = (inject_Z N / inject_Z (N + M) * 100)%Q)).
Proof.
  split; [vm_compute; split; reflexivity|].
  apply (C8_statistics_counts noon 7 stat_rows).
  intros r Hr _. unfold stat_rows in Hr.
  repeat (apply elem_of_cons in Hr as [-> | Hr]; [simpl; auto|]).
  inversion Hr.
Defined.

(** ** The blacklist *)

Lemma blacklist_keep_prefix u :
  blacklist_keep u = true <->
  (PyStr.startswith u "https://twitter.com" = true
   \/ PyStr.startswith u "https://x.com" = true).
Proof.
  unfold blacklist_keep. split.
  - intros Hk. apply andb_true_iff in Hk as [_ Hk].
    apply orb_true_iff in Hk. exact Hk.
  - intros Hk. apply andb_true_iff. split.
    + destruct u; [|reflexivity]. destruct Hk as [Hk|Hk]; discriminate.
    + apply orb_true_iff. exact Hk.
Qed.

(** The entries the refresh stores: the stripped forms of the provider
    entries that themselves start with one of the two prefixes. *)
Lemma blacklist_of_members (urls : list string) x :
  x ∈ blacklist_of urls <->
  exists u, u ∈ urls
    /\ (PyStr.startswith u "https://twitter.com" = true
        \/ PyStr.startswith u "https://x.com" = true)
    /\ x = PyStr.strip u.
Proof.
  unfold blacklist_of. rewrite elem_of_list_to_set.
  rewrite list_elem_of_In, in_map_iff. split.
  - intros (u & Hx & Hin). apply list_elem_of_In in Hin.
    apply list_elem_of_filter in Hin as [Hk Hin].
    exists u. split; [exact Hin|]. split; [|symmetry; exact Hx].
    apply blacklist_keep_prefix. exact Hk.
  - intros (u & Hin & Hk & ->). exists u. split; [reflexivity|].
    apply list_elem_of_In. apply list_elem_of_filter. split; [|exact Hin].
    apply blacklist_keep_prefix. exact Hk.
Qed.

(** Stripping on the right keeps a prefix made of characters that are not
    blank. *)
Lemma rstrip_keeps_prefix p : forall u,
  Forall (fun c => PyStr.is_space c = false) (list_ascii_of_string p) ->
  String.prefix p u = true -> String.prefix p (PyStr.rstrip u) = true.
Proof.
  induction p as [|a p IH]; intros u Hp Hpre; [destruct (PyStr.rstrip u); reflexivity|].
  destruct u as [|b u]; [discriminate|]. simpl in Hpre.
  destruct (ascii_dec a b) as [<-|]; [|discriminate].
  simpl in Hp. inversion Hp as [|? ? Ha Hrest]; subst.
  specialize (IH u Hrest Hpre). simpl.
  destruct (PyStr.rstrip u) as [|c r] eqn:Hr.
  - rewrite Ha. destruct p; [|discriminate]. simpl.
    destruct (ascii_dec a a); [reflexivity|contradiction].
  - simpl. destruct (ascii_dec a a); [exact IH|contradiction].
Qed.

(** Stripping on the left leaves a text alone that starts with a character
    that is not blank. *)
Lemma lstrip_keeps_prefix a p u :
  PyStr.is_space a = false ->
  String.prefix (String a p) u = true -> PyStr.lstrip u = u.
Proof.
  intros Ha Hpre. destruct u as [|b u]; [reflexivity|]. simpl in Hpre.
  destruct (ascii_dec a b) as [<-|]; [|discriminate].
  simpl. rewrite Ha. reflexivity.
Qed.

Lemma strip_keeps_prefix a p u :
  Forall (fun c => PyStr.is_space c = false) (list_ascii_of_string (String a p)) ->
  PyStr.startswith u (String a p) = true ->
  PyStr.startswith (PyStr.strip u) (String a p) = true.
Proof.
  unfold PyStr.startswith, PyStr.strip. intros Hp Hpre.
  rewrite (lstrip_keeps_prefix a p u); [|inversion Hp; assumption|exact Hpre].
  apply rstrip_keeps_prefix; assumption.
Qed.

(** An entry the refresh keeps starts, once stripped, with one of the two
    prefixes. *)
Lemma kept_entry_keep_after_strip u :
  blacklist_keep u = true -> keep_after_strip u = true.
Proof.
  intros Hk. apply blacklist_keep_prefix in Hk. unfold keep_after_strip.
  apply orb_true_iff.
  destruct Hk as [Hk|Hk]; [left|right];
    (apply strip_keeps_prefix; [repeat constructor | exact Hk]).
Qed.

(** C10.  The refresh keeps only provider entries that, stripped of the
    surrounding whitespace, start with [https://twitter.com] or
    [https://x.com]: every address in the blacklist is the stripped form of
    such an entry.  Every other entry is dropped: it fails the test of the
    refresh and its stripped form does not enter the blacklist.  So the
    filter of the discovery phase excludes a candidate for its address only
    when that address is the stripped form of an entry of that kind; an
    address listed in any other form is never excluded. *)
Theorem C10_blacklist_keeps_only_prefixed_entries (urls : list string) :
  (forall u, blacklist_keep u = true -> keep_after_strip u = true)
  /\ (forall x, x ∈ blacklist_of urls ->
        exists u, u ∈ urls /\ keep_after_strip u = true /\ x = PyStr.strip u)
  /\ (forall u, keep_after_strip u = false ->
        blacklist_keep u = false /\ PyStr.strip u ∉ blacklist_of urls)
  /\ (forall sent users (t : target),
        t ∈ users -> t.1 ∉ sent ->
        (~ exists u, u ∈ urls /\ keep_after_strip u = true /\ t.2 = PyStr.strip u) ->
        t ∈ filter_users sent (blacklist_of urls) users).
Proof.
  assert (Hmem : forall x, x ∈ blacklist_of urls ->
            exists u, u ∈ urls /\ keep_after_strip u = true /\ x = PyStr.strip u).
  { intros x Hx. apply blacklist_of_members in Hx as (u & Hin & Hk & ->).
    exists u. split; [exact Hin|]. split; [|reflexivity].
    apply kept_entry_keep_after_strip, blacklist_keep_prefix, Hk. }
  split; [exact kept_entry_keep_after_strip|]. split; [exact Hmem|]. split.
  - intros u Hno. split.
    + destruct (blacklist_keep u) eqn:Hk; [|reflexivity].
      apply kept_entry_keep_after_strip in Hk. congruence.
    + intros Hin. apply Hmem in Hin as (u' & _ & Hk & Heq).
      unfold keep_after_strip in Hno, Hk. rewrite Heq in Hno. congruence.
  - intros sent users t Hu Hs Hno. unfold filter_users.
    apply elem_of_filter. split; [|exact Hu]. split; [exact Hs|].
    intros Hin. apply Hno. apply Hmem in Hin. exact Hin.
Qed.

(** The converse fails: an entry with a blank in front starts, once
    stripped, with [https://x.com], yet the refresh drops it, since it tests
    the prefix before it strips. *)
Lemma leading_blank_entry_dropped :
  keep_after_strip " https://x.com/alice" = true
  /\ PyStr.strip " https://x.com/alice" = "https://x.com/alice"
  /\ blacklist_of [" https://x.com/alice"] = ∅
  /\ "https://x.com/alice" ∉ blacklist_of [" https://x.com/alice"].
Proof.
  assert (He : blacklist_of [" https://x.com/alice"] = ∅) by reflexivity.
  repeat apply conj; try reflexivity.
  rewrite He. apply not_elem_of_empty.
Qed.

(** ** Frames: what discovery and pacing leave alone *)

Create HintDb quiet discriminated.

Section Frames.

Context {W : Type} `{Backend W}.
Variable config : Config.

Lemma quiet_refl (st : State W) : quiet st st.
Proof. repeat split. Qed.

Lemma quiet_trans (a b c : State W) : quiet a b -> quiet b c -> quiet a c.
Proof.
  unfold quiet. intros (h1 & s1 & u1 & b1 & c1 & d1) (h2 & s2 & u2 & b2 & c2 & d2).
  repeat apply conj; congruence.
Qed.

Lemma quiet_ret {A} (a : A) : quiet_io (ret a : IO W A).
Proof. intros st. apply quiet_refl. Qed.

Lemma quiet_bind {A B} (m : IO W A) (k : A -> IO W B) :
  quiet_io m -> (forall a, quiet_io (k a)) -> quiet_io (bind m k).
Proof.
  intros Hm Hk st. unfold bind. specialize (Hm st).
  destruct (m st) as [a s1]. simpl in *.
  eapply quiet_trans; [exact Hm | apply Hk].
Qed.

Lemma quiet_io_world {A} (op : W -> A * W) : quiet_io (io_world op).
Proof. intros st. unfold io_world. destruct (op (world st)). repeat split. Qed.

Lemma quiet_io_world_ (op : W -> W) : quiet_io (io_world_ op).
Proof. intros st. repeat split. Qed.

Lemma quiet_get {A} (f : State W -> A) : quiet_io (get f).
Proof. intros st. apply quiet_refl. Qed.

Lemma quiet_log lv msg : quiet_io (log lv msg : IO W unit).
Proof. intros st. repeat split. Qed.

Lemma quiet_bind_exc {A B} (m : Exc W A) (k : A -> Exc W B) :
  quiet_io m -> (forall a, quiet_io (k a)) -> quiet_io (bind_exc m k).
Proof.
  intros Hm Hk. apply quiet_bind; [exact Hm|].
  intros [a|e]; [apply Hk | apply quiet_ret].
Qed.

Lemma quiet_lift {A} (m : IO W A) : quiet_io m -> quiet_io (lift m).
Proof. intros Hm. apply quiet_bind; [exact Hm | intros a; apply quiet_ret]. Qed.

Lemma quiet_try_except {A} (m : Exc W A) (h : exn -> IO W A) :
  quiet_io m -> (forall e, quiet_io (h e)) -> quiet_io (try_except m h).
Proof.
  intros Hm Hh. apply quiet_bind; [exact Hm|].
  intros [a|e]; [apply quiet_ret | apply Hh].
Qed.

#[local] Hint Resolve quiet_ret quiet_io_world quiet_io_world_ quiet_get quiet_log
  quiet_lift quiet_bind_exc quiet_bind quiet_try_except : quiet.

Lemma quiet_ok {A} (a : A) : quiet_io (ok a : Exc W A).
Proof. apply quiet_ret. Qed.

Lemma quiet_raise {A} e : quiet_io (raise e : Exc W A).
Proof. apply quiet_ret. Qed.

#[local] Hint Resolve quiet_ok quiet_raise : quiet.

Lemma quiet_wait action_count : quiet_io (wait_between_actions config action_count).
Proof.
  unfold wait_between_actions.
  apply quiet_bind; [auto with quiet|]. intros b.
  apply quiet_bind; [auto with quiet|]. intros r.
  apply quiet_bind; [|auto with quiet].
  destruct (negb _); auto with quiet.
Qed.

Lemma quiet_extract_loop sels : forall usernames,
  quiet_io (extract_loop sels usernames : IO W _).
Proof.
  induction sels as [|sel sels IH]; intros usernames; simpl; [apply quiet_ret|].
  apply quiet_bind; [apply quiet_io_world|]. intros r.
  destruct (r.2).
  - apply quiet_bind; [apply quiet_log | intros _; apply IH].
  - destruct (bool_decide _); [apply IH | apply quiet_ret].
Qed.

Lemma quiet_extract : quiet_io (extract_usernames_from_page : IO W _).
Proof. apply quiet_extract_loop. Qed.

#[local] Hint Resolve quiet_wait quiet_extract : quiet.

Lemma quiet_scroll_turn all : quiet_io (scroll_turn all : Exc W _).
Proof. unfold scroll_turn. auto 20 with quiet. Qed.

Lemma quiet_scroll_loop n : forall entered all stable,
  quiet_io (scroll_loop n entered all stable : Exc W _).
Proof.
  induction n as [|n IH]; intros entered all stable; simpl; [auto with quiet|].
  apply quiet_bind_exc; [apply quiet_scroll_turn|].
  intros [all' same]. destruct same; [destruct (2 <=? _)|]; auto with quiet.
Qed.

Lemma quiet_scroll_and_collect m : quiet_io (scroll_and_collect config m : Exc W _).
Proof.
  unfold scroll_and_collect. apply quiet_bind_exc; [apply quiet_scroll_loop|].
  intros [all entered]. destruct entered; auto 10 with quiet.
Qed.

#[local] Hint Resolve quiet_scroll_and_collect : quiet.

Lemma quiet_search_one keyword : quiet_io (search_one config keyword : Exc W _).
Proof. unfold search_one. auto 30 with quiet. Qed.

Lemma quiet_search_loop kws : forall all_users,
  quiet_io (search_loop config kws all_users : IO W _).
Proof.
  induction kws as [|kw kws IH]; intros all_users; simpl; [auto with quiet|].
  destruct (_ <=? _); [auto with quiet|].
  apply quiet_bind; [|intros found; apply IH].
  apply quiet_try_except; [apply quiet_search_one | auto with quiet].
Qed.

Lemma quiet_following_one username :
  quiet_io (following_one config username : Exc W _).
Proof. unfold following_one. auto 30 with quiet. Qed.

Lemma quiet_following_loop targets : forall following_users,
  quiet_io (following_loop config targets following_users : IO W _).
Proof.
  induction targets as [|[u l] ts IH]; intros following_users; simpl;
    [auto with quiet|].
  apply quiet_bind; [|intros found; apply IH].
  apply quiet_try_except; [apply quiet_following_one | auto with quiet].
Qed.

End Frames.

#[local] Hint Resolve quiet_ret quiet_io_world quiet_io_world_ quiet_get quiet_log
  quiet_lift quiet_bind_exc quiet_bind quiet_try_except quiet_ok quiet_raise
  quiet_wait quiet_extract quiet_scroll_and_collect : quiet.

(** ** The send phase as a whole *)

Section SendPhase.

Context {W : Type} `{Backend W}.
Variable config : Config.

(** The rows the loop writes are attempts, in order, of candidates of its
    list; nothing else of the history changes, no notification is sent, and
    the counter grows by at least the number of Success rows.  When the
    history file can be written the rows are the attempts of the candidates
    at the front of the list and the counter grows by exactly the number of
    Success rows. *)
Lemma send_loop_rows msg targets : forall (st : State W),
  exists rows,
    history (send_loop config msg targets st).2 = (history st ++ rows)%list
    /\ map row_target rows `sublist_of` targets
    /\ slack (send_loop config msg targets st).2 = slack st
    /\ sent_count st + Z.of_nat (count_status "Success" rows)
       <= sent_count (send_loop config msg targets st).2
    /\ (writable_log ->
        map row_target rows `prefix_of` targets
        /\ sent_count (send_loop config msg targets st).2
           = sent_count st + Z.of_nat (count_status "Success" rows)).
Proof.
  induction targets as [|[u l] ts IH]; intros st.
  - exists []. simpl. rewrite app_nil_r.
    split; [reflexivity|]. split; [apply sublist_nil_l|]. split; [reflexivity|].
    unfold count_status. simpl. split; [lia|]. intros _.
    split; [apply prefix_nil | lia].
  - rewrite send_loop_cons.
    destruct (send_one_spec config msg u l st) as
      [(s & Hs & Hh & Hc & Hsl & _)
      |(s & t0 & w1 & ok & err & w2 & rows1 & Hs & _ & _ & _ & _ & Hh & Hrows & Hwr
          & Hc & Hsl & _)];
      rewrite Hs.
    + exists []. simpl. rewrite app_nil_r.
      split; [exact Hh|]. split; [apply sublist_nil_l|]. split; [exact Hsl|].
      unfold count_status. simpl. split; [lia|]. intros _.
      split; [apply prefix_nil | lia].
    + destruct (IH s) as (rows & Hr & Hp & Hsl' & Hc' & Hw').
      exists (rows1 ++ rows)%list. rewrite count_status_app.
      split; [|split; [|split; [|split]]].
      * rewrite Hr, Hh, <- app_assoc. reflexivity.
      * destruct Hrows as [-> | [now ->]]; simpl.
        -- apply sublist_cons. exact Hp.
        -- apply sublist_skip. exact Hp.
      * rewrite Hsl'. exact Hsl.
      * pose proof (count_success_logged _ _ _ _ _ _ Hrows). destruct ok; lia.
      * intros Hw. destruct (Hwr Hw) as [now ->]. destruct (Hw' Hw) as [Hpre Heq].
        split; [simpl; apply prefix_cons; exact Hpre|].
        rewrite count_success_attempt, Heq, Hc. destruct ok; lia.
Qed.

Lemma py_take_length {A} (n : Z) (l : list A) :
  0 <= n -> (length (py_take n l) <= Z.to_nat n)%nat.
Proof.
  intros Hn. unfold py_take. apply Z.leb_le in Hn. rewrite Hn.
  rewrite length_take. lia.
Qed.

(** The send phase: the loop over the list cut to the cap. *)
Lemma send_candidates_appends msg candidates (st : State W) :
  exists rows,
    history (send_candidates config msg candidates st).2 = (history st ++ rows)%list
    /\ map row_target rows
         `sublist_of` py_take (max_messages_per_day config) candidates
    /\ (0 <= max_messages_per_day config ->
        (length rows <= Z.to_nat (max_messages_per_day config))%nat)
    /\ sent_count st + Z.of_nat (count_status "Success" rows)
       <= sent_count (send_candidates config msg candidates st).2
    /\ slack (send_candidates config msg candidates st).2 = slack st
    /\ (writable_log ->
        map row_target rows
          `prefix_of` py_take (max_messages_per_day config) candidates
        /\ sent_count (send_candidates config msg candidates st).2
           = sent_count st + Z.of_nat (count_status "Success" rows)).
Proof.
  unfold send_candidates.
  destruct (send_loop_rows msg (py_take (max_messages_per_day config) candidates) st)
    as (rows & Hr & Hp & Hsl & Hc & Hw).
  exists rows. repeat apply conj; auto.
  intros Hcap. apply sublist_length in Hp. rewrite length_map in Hp.
  pose proof (py_take_length (max_messages_per_day config) candidates Hcap). lia.
Qed.

(** X13, the send phase.  The rows written are attempts, in order, of
    candidates of the list cut to the cap, each at most once per place in
    the list; with a cap that is not negative there are at most that many;
    the counter grows by at least the number of Success rows among them and
    no notification is sent.  When the history file can be written the rows
    are the attempts of the candidates at the front of that list, none left
    out, and the counter grows by exactly the number of Success rows. *)
Theorem send_candidates_rows msg candidates (st : State W) :
  exists rows,
    history (send_candidates config msg candidates st).2 = (history st ++ rows)%list
    /\ map row_target rows
         `sublist_of` py_take (max_messages_per_day config) candidates
    /\ (0 <= max_messages_per_day config ->
        (length rows <= Z.to_nat (max_messages_per_day config))%nat)
    /\ sent_count st + Z.of_nat (count_status "Success" rows)
       <= sent_count (send_candidates config msg candidates st).2
    /\ slack (send_candidates config msg candidates st).2 = slack st
    /\ (writable_log ->
        map row_target rows
          `prefix_of` py_take (max_messages_per_day config) candidates
        /\ sent_count (send_candidates config msg candidates st).2
           = sent_count st + Z.of_nat (count_status "Success" rows)).
Proof. exact (send_candidates_appends msg candidates st). Qed.

End SendPhase.

(** ** Discovery *)

Section Discovery.

Context {W : Type} `{Backend W}.
Variable config : Config.

Lemma passes_filter_users (st st' : State W) users t :
  sent_users st' = sent_users st -> blacklist_urls st' = blacklist_urls st ->
  t ∈ filter_users (sent_users st') (blacklist_urls st') users ->
  t ∈ users /\ passes st t.
Proof.
  intros Hs Hb Hin. unfold filter_users in Hin.
  apply elem_of_filter in Hin as [[H1 H2] Hu].
  rewrite Hs in H1. rewrite Hb in H2. split; [exact Hu | split; assumption].
Qed.

Lemma no_candidate_in_empty (t : target) : t ∈ (∅ : gset target) -> False.
Proof. apply not_elem_of_empty. Qed.

Lemma search_one_passes keyword (st : State W) :
  match search_one config keyword st with
  | (Ok users, _) => forall t, t ∈ users -> passes st t
  | (Raise _, _) => True
  end.
Proof.
  unfold search_one, bind_exc, lift, ok, raise, log, modify, get,
    io_world, io_world_, bind, ret. simpl.
  destruct (driver_get _ (world st)) as [[[]|e] w1]; simpl; [|exact I].
  destruct (random_uniform 3 6 w1) as [d w2]; simpl.
  match goal with
  | |- context [scroll_and_collect config None ?s] =>
      pose proof (quiet_scroll_and_collect config None s) as Hq;
      destruct (scroll_and_collect config None s) as [[users|e] s5]
  end; simpl; [|exact I].
  match goal with
  | |- context [wait_between_actions config ?n ?s] =>
      destruct (wait_between_actions_world config n s) as [w' ->]
  end. simpl.
  destruct Hq as (_ & _ & Hu & Hb & _). simpl in Hu, Hb.
  intros t Hin. eapply passes_filter_users; eauto.
Qed.

Lemma following_one_passes username (st : State W) :
  match following_one config username st with
  | (Ok users, _) => forall t, t ∈ users -> passes st t
  | (Raise _, _) => True
  end.
Proof.
  unfold following_one, bind_exc, lift, ok, raise, log, modify, get,
    io_world, io_world_, bind, ret. simpl.
  destruct (driver_get _ (world st)) as [[[]|e] w1]; simpl; [|exact I].
  destruct (random_uniform 4 7 w1) as [d w2]; simpl.
  match goal with
  | |- context [scroll_and_collect config (Some 3) ?s] =>
      pose proof (quiet_scroll_and_collect config (Some 3) s) as Hq;
      destruct (scroll_and_collect config (Some 3) s) as [[users|e] s5]
  end; simpl; [|exact I].
  match goal with
  | |- context [wait_between_actions config ?n ?s] =>
      destruct (wait_between_actions_world config n s) as [w' ->]
  end. simpl.
  destruct Hq as (_ & _ & Hu & Hb & _). simpl in Hu, Hb.
  intros t Hin. eapply passes_filter_users; eauto.
Qed.

Lemma passes_quiet (a b : State W) t : quiet a b -> passes b t -> passes a t.
Proof.
  intros (_ & _ & Hu & Hb & _) [H1 H2]. split; congruence.
Qed.

Lemma search_loop_passes (st0 : State W) kws : forall all_users (st : State W),
  quiet st0 st ->
  (forall t, t ∈ all_users -> passes st0 t) ->
  forall t, t ∈ (search_loop config kws all_users st).1 -> passes st0 t.
Proof.
  induction kws as [|kw kws IH]; intros all_users st Hq Hall; simpl; [exact Hall|].
  destruct (_ <=? _); [exact Hall|].
  unfold bind, try_except.
  pose proof (search_one_passes kw st) as Hone.
  pose proof (quiet_search_one config kw st) as Hq1.
  unfold bind.
  destruct (search_one config kw st) as [[found|e] s1]; simpl in *.
  - apply IH; [exact (quiet_trans _ _ _ Hq Hq1)|].
    intros t Ht. apply elem_of_union in Ht as [Ht|Ht]; [auto|].
    eapply passes_quiet; [exact Hq | auto].
  - apply IH.
    + eapply quiet_trans; [exact Hq|]. eapply quiet_trans; [exact Hq1|].
      repeat split.
    + intros t Ht. apply elem_of_union in Ht as [Ht|Ht]; [auto|].
      exfalso. exact (no_candidate_in_empty t Ht).
Qed.

Lemma following_loop_passes (st0 : State W) targets :
  forall following_users (st : State W),
  quiet st0 st ->
  (forall t, t ∈ following_users -> passes st0 t) ->
  forall t, t ∈ (following_loop config targets following_users st).1 -> passes st0 t.
Proof.
  induction targets as [|[u l] ts IH]; intros following_users st Hq Hall; simpl;
    [exact Hall|].
  unfold bind, try_except.
  pose proof (following_one_passes u st) as Hone.
  pose proof (quiet_following_one config u st) as Hq1.
  unfold bind.
  destruct (following_one config u st) as [[found|e] s1]; simpl in *.
  - apply IH; [exact (quiet_trans _ _ _ Hq Hq1)|].
    intros t Ht. apply elem_of_union in Ht as [Ht|Ht]; [auto|].
    eapply passes_quiet; [exact Hq | auto].
  - apply IH.
    + eapply quiet_trans; [exact Hq|]. eapply quiet_trans; [exact Hq1|].
      repeat split.
    + intros t Ht. apply elem_of_union in Ht as [Ht|Ht]; [auto|].
      exfalso. exact (no_candidate_in_empty t Ht).
Qed.

(** Discovery.  Both phases of discovery write no row, send no
    notification and leave the sets and the counter as they are; every
    candidate they return has an identifier outside the recent history and
    an address outside the blacklist. *)
Lemma discovery_passes (st : State W) seeds :
  (quiet st (search_users_by_keywords config st).2
   /\ forall t, t ∈ (search_users_by_keywords config st).1 -> passes st t)
  /\ (quiet st (collect_following_users config seeds st).2
      /\ forall t, t ∈ (collect_following_users config seeds st).1 -> passes st t).
Proof.
  split; split.
  - apply quiet_search_loop.
  - apply (search_loop_passes st); [apply quiet_refl|].
    intros t Ht. exfalso. exact (no_candidate_in_empty t Ht).
  - apply quiet_following_loop.
  - apply (following_loop_passes st); [apply quiet_refl|].
    intros t Ht. exfalso. exact (no_candidate_in_empty t Ht).
Qed.

(** X6, discovery.  Both phases of discovery write no row, send no
    notification and leave the sets and the counter as they are; every
    candidate they return has an identifier outside the recent history and
    an address outside the blacklist. *)
Theorem discovery_returns_filtered (st : State W) seeds :
  (quiet st (search_users_by_keywords config st).2
   /\ forall t, t ∈ (search_users_by_keywords config st).1 -> passes st t)
  /\ (quiet st (collect_following_users config seeds st).2
      /\ forall t, t ∈ (collect_following_users config seeds st).1 -> passes st t).
Proof. exact (discovery_passes st seeds). Qed.

End Discovery.

(** ** The reports *)

Section Reports.

Context {W : Type} `{Backend W}.
Variable config : Config.

Lemma calm_refl (st : State W) : calm st st.
Proof. repeat split. Qed.

Lemma calm_trans (a b c : State W) : calm a b -> calm b c -> calm a c.
Proof.
  unfold calm. intros (h1 & u1 & b1 & c1 & d1) (h2 & u2 & b2 & c2 & d2).
  repeat apply conj; congruence.
Qed.

Lemma quiet_calm (a b : State W) : quiet a b -> calm a b.
Proof. intros (h & s & u & bl & c & d). repeat split; assumption. Qed.

(** [notify_slack] records the notification and returns, whether or not the
    webhook accepts it; a refusal is logged as an error. *)
Lemma notify_slack_calm n (st : State W) :
  calm st (notify_slack n st).2
  /\ slack (notify_slack n st).2 = (slack st ++ [n])%list
  /\ (forall e w, requests_post n (world st) = (Raise e, w) ->
        logger (notify_slack n st).2
        = (logger st ++ [(ERROR, "Slack notification failed: " +:+ exn_str e)])%list).
Proof.
  unfold notify_slack, try_except, log, modify, io_world, bind, ret. simpl.
  destruct (requests_post n (world st)) as [[[]|e] w2]; simpl;
    (split; [repeat split|]); (split; [reflexivity|]); intros e' w' Heq;
    inversion Heq; subst; reflexivity.
Qed.

Lemma day_counts today rows :
  (daily_success today rows + length (daily_failed today rows))%nat
  = length (rows_of_day today rows).
Proof.
  unfold daily_success, daily_failed, rows_of_day.
  induction rows as [|r rows IH]; [reflexivity|].
  rewrite !filter_cons.
  destruct (is_today today r); destruct (String.eqb (status r) "Success");
    simpl; lia.
Qed.

(** The daily report.  The step never touches the history and always
    hands exactly one notification to the webhook: the report of the day,
    whose two counts add up to the number of rows of the day and which names
    at most five failed users, or, when the day has no row, the error
    message of the division by zero. *)
Lemma send_daily_report_shape (st : State W) :
  let today := strftime_Ymd (datetime_now (world st)).1 in
  let st' := (send_daily_report st).2 in
  calm st st'
  /\ slack st' = (slack st ++ [daily_notification today (history st)])%list
  /\ match daily_notification today (history st) with
     | DailyReport _ s f users =>
         (s + f)%nat = length (rows_of_day today (history st))
         /\ (0 < s + f)%nat /\ (length users <= 5)%nat
     | DailyReportError _ => rows_of_day today (history st) = []
     | _ => False
     end.
Proof.
  intros today st'. subst st'. unfold send_daily_report, daily_notification.
  pose proof (day_counts today (history st)) as Hcount. subst today.
  unfold try_except, bind_exc, lift, ok, raise, log, modify, get, io_world,
    bind, ret. simpl.
  destruct (datetime_now (world st)) as [now w1]. simpl in *.
  destruct (daily_success (strftime_Ymd now) (history st)
            + length (daily_failed (strftime_Ymd now) (history st)))%nat
    as [|k] eqn:Hk; simpl;
    match goal with
    | |- context [notify_slack ?n ?s] =>
        destruct (notify_slack_calm n s) as (Hc & Hsl & _);
        destruct (notify_slack n s) as [[] s']
    end; simpl in *.
  - split; [exact Hc|]. split; [exact Hsl|].
    destruct (rows_of_day _ _); [reflexivity | discriminate].
  - split; [exact Hc|]. split; [exact Hsl|].
    split; [rewrite Hk; exact Hcount|]. split; [lia|].
    rewrite length_take. lia.
Qed.

(** X14, the daily report.  The step never touches the history and always
    hands exactly one notification to the webhook: the report of the day,
    whose two counts add up to the number of rows of the day and which names
    at most five failed users, or, when the day has no row, the error
    message of the division by zero. *)
Theorem send_daily_report_one_notification (st : State W) :
  let today := strftime_Ymd (datetime_now (world st)).1 in
  let st' := (send_daily_report st).2 in
  calm st st'
  /\ slack st' = (slack st ++ [daily_notification today (history st)])%list
  /\ match daily_notification today (history st) with
     | DailyReport _ s f users =>
         (s + f)%nat = length (rows_of_day today (history st))
         /\ (0 < s + f)%nat /\ (length users <= 5)%nat
     | DailyReportError _ => rows_of_day today (history st) = []
     | _ => False
     end.
Proof. exact (send_daily_report_shape st). Qed.

(** The monthly report step: the history is left alone, and either nothing
    is sent or one monthly report; on a day that is not the report day
    nothing is sent. *)
Lemma send_monthly_report_calm (st : State W) :
  calm st (send_monthly_report config st).2
  /\ (slack (send_monthly_report config st).2 = slack st
      \/ exists m t d,
           slack (send_monthly_report config st).2
           = (slack st ++ [MonthlyReport m t d])%list)
  /\ (day (datetime_now (world st)).1 <> monthly_report_day config ->
      slack (send_monthly_report config st).2 = slack st).
Proof.
  unfold send_monthly_report, try_except, bind_exc, lift, ok, raise, log,
    modify, get, io_world, bind, ret. simpl.
  destruct (datetime_now (world st)) as [now w1]. simpl.
  destruct (day now =? monthly_report_day config) eqn:Hday; simpl.
  - destruct (last_month now) as [lm|e]; simpl.
    + match goal with
      | |- context [notify_slack ?n ?s] =>
          destruct (notify_slack_calm n s) as (Hc & Hsl & _);
          destruct (notify_slack n s) as [[] s']
      end; simpl in *.
      split; [exact Hc|]. split; [right; eauto|].
      intros Hne. apply Z.eqb_eq in Hday. contradiction.
    + split; [repeat split|]. split; [left; reflexivity|]. reflexivity.
  - split; [repeat split|]. split; [left; reflexivity|]. reflexivity.
Qed.

End Reports.

(** ** A run, from its first statement to the reports *)

Section RunRows.

Context {W : Type} `{Backend W}.
Variable config : Config.
Variable enumerate : gset target -> list target.

Lemma py_take_subset {A} (n : Z) (l : list A) x : x ∈ py_take n l -> x ∈ l.
Proof.
  unfold py_take. destruct (0 <=? n); apply subseteq_take.
Qed.

Lemma steady_refl (st : State W) : steady st st.
Proof. repeat split. Qed.

Lemma steady_quiet (st a b : State W) : steady st a -> quiet a b -> steady st b.
Proof.
  intros (h1 & s1 & u1 & b1 & c1) (h2 & s2 & u2 & b2 & c2 & _).
  repeat apply conj; congruence.
Qed.

Lemma steady_sent_only cap (st s : State W) : steady st s -> sent_only cap st s.
Proof.
  intros (Hh & Hs & _ & _ & Hc). exists []. rewrite app_nil_r.
  split; [exact Hh|]. split; [exact Hs|].
  split; [unfold count_status; simpl; lia|].
  split; [intros _; unfold count_status; simpl; lia|].
  split; [constructor|]. intros _. simpl. lia.
Qed.

Lemma triple_ret {A} (P : State W -> Prop) (a : A) (Q : A -> State W -> Prop) :
  (forall s, P s -> Q a s) -> triple P (ret a) Q.
Proof. intros HQ s Hs. apply HQ. exact Hs. Qed.

Lemma triple_bind {A B} (P : State W -> Prop) (m : IO W A) (k : A -> IO W B)
  (R : A -> State W -> Prop) (Q : B -> State W -> Prop) :
  triple P m R -> (forall a, triple (R a) (k a) Q) -> triple P (bind m k) Q.
Proof.
  intros Hm Hk s Hs. unfold bind. specialize (Hm s Hs).
  destruct (m s) as [a s1]. simpl in *. apply Hk. exact Hm.
Qed.

(** A step that touches only the world and the logger, in front of the rest
    of the computation. *)
Lemma step_quiet {A B} (st : State W) (m : IO W A) (k : A -> IO W B)
  (Q : B -> State W -> Prop) :
  quiet_io m -> (forall a, triple (steady st) (k a) Q) ->
  triple (steady st) (bind m k) Q.
Proof.
  intros Hm Hk. apply (triple_bind _ _ _ (fun _ => steady st)); [|exact Hk].
  intros s Hs. eapply steady_quiet; [exact Hs | apply Hm].
Qed.

Lemma step_quiet_exc {A B} (st : State W) (m : Exc W A) (k : A -> Exc W B)
  (Q : result B -> State W -> Prop) :
  quiet_io m -> (forall a, triple (steady st) (k a) Q) ->
  (forall e s, steady st s -> Q (Raise e) s) ->
  triple (steady st) (bind_exc m k) Q.
Proof.
  intros Hm Hk He. unfold bind_exc. apply step_quiet; [exact Hm|].
  intros [a|e]; [apply Hk|]. intros s Hs. apply He. exact Hs.
Qed.

Lemma quiet_load_message_text : quiet_io (load_message_text : IO W string).
Proof.
  unfold load_message_text. apply quiet_bind; [auto with quiet|].
  intros [text|]; auto with quiet.
Qed.

Lemma quiet_is_allowed_time : quiet_io (is_allowed_time config : IO W bool).
Proof. unfold is_allowed_time. auto with quiet. Qed.

(** Starting the browser changes the world, the logger and the [driver]
    field. *)
Lemma setup_chrome_driver_steady (st : State W) :
  triple (steady st) setup_chrome_driver (fun _ s => steady st s).
Proof.
  intros s Hs. unfold setup_chrome_driver, ok, raise, log, modify, io_world,
    bind, ret. simpl.
  destruct (chrome_start (world s)) as [[[]|e] w]; simpl; exact Hs.
Qed.

(** The send phase, entered in a state whose sets are those of [st], with
    candidates that pass the filter. *)
Lemma send_candidates_sent_only msg candidates (st : State W) :
  (forall t, t ∈ candidates -> passes st t) ->
  triple (steady st) (send_candidates config msg candidates)
    (fun _ s => sent_only (max_messages_per_day config) st s).
Proof.
  intros Hpass s (Hh & Hs & Hu & Hb & Hc).
  destruct (send_candidates_appends config msg candidates s)
    as (rows & Hr & Hp & Hlen & Hcount & Hsl & Hw).
  exists rows. split; [rewrite Hr, Hh; reflexivity|].
  split; [rewrite Hsl; exact Hs|]. split; [rewrite <- Hc; exact Hcount|].
  split; [intros Hlog; rewrite <- Hc; apply (Hw Hlog)|].
  split; [|exact Hlen].
  apply Forall_forall. intros r Hr'.
  apply Hpass. eapply py_take_subset.
  eapply sublist_subseteq; [exact Hp|].
  apply list_elem_of_fmap. exists r. split; [reflexivity | exact Hr'].
Qed.

Lemma sent_only_log cap (st s : State W) l :
  sent_only cap st s -> sent_only cap st (set_logger l s).
Proof. intros (rows & Hrest). exists rows. exact Hrest. Qed.

(** The statements of [run] inside its [try]. *)
Lemma run_body_sent_only (st : State W) :
  (forall X t, t ∈ enumerate X -> t ∈ X) ->
  sent_only (max_messages_per_day config) st (run_body config enumerate st).2.
Proof.
  intros Hsound.
  set (Post := fun (_ : result unit) (s : State W) =>
                 sent_only (max_messages_per_day config) st s).
  assert (Hpost : forall r s, steady st s -> Post r s).
  { intros r s Hs. apply steady_sent_only. exact Hs. }
  cut (triple (steady st) (run_body config enumerate) Post).
  { intros Ht. apply (Ht st). apply steady_refl. }
  unfold run_body.
  apply step_quiet_exc; [auto with quiet| |intros; apply Hpost; assumption].
  intros _.
  apply step_quiet_exc;
    [apply quiet_lift, quiet_is_allowed_time| |intros; apply Hpost; assumption].
  intros allowed. destruct (negb allowed).
  { intros s Hs. apply Hpost. eapply steady_quiet; [exact Hs|].
    apply quiet_lift, quiet_log. }
  unfold bind_exc at 1.
  apply (triple_bind _ _ _ (fun _ => steady st));
    [apply setup_chrome_driver_steady|].
  intros [[]|e]; [|intros s Hs; apply Hpost; exact Hs].
  apply step_quiet_exc;
    [apply quiet_lift, quiet_load_message_text| |intros; apply Hpost; assumption].
  intros msg.
  apply step_quiet_exc; [auto with quiet| |intros; apply Hpost; assumption].
  intros _.
  unfold bind_exc at 1.
  apply (triple_bind _ _ _
           (fun r s => steady st s
                       /\ forall users, r = Ok users ->
                            forall t, t ∈ users -> passes st t)).
  { intros s Hs. unfold lift, bind, ok, ret.
    destruct (discovery_passes config s []) as [[Hq Hp] _].
    destruct (search_users_by_keywords config s) as [users s1]. simpl in *.
    split; [eapply steady_quiet; eauto|].
    intros users' Heq t Ht. inversion Heq; subst users'.
    destruct Hs as (_ & _ & Hu & Hb & _).
    destruct (Hp t Ht) as [H1 H2]. split; congruence. }
  intros [users|e]; [|intros s [Hs _]; apply Hpost; exact Hs].
  unfold bind_exc at 1.
  apply (triple_bind _ _ _
           (fun r s => steady st s
                       /\ forall all, r = Ok all ->
                            forall t, t ∈ all -> passes st t)).
  { intros s [Hs Hpass]. specialize (Hpass users eq_refl).
    unfold lift, bind, ok, ret.
    destruct (Z.of_nat (size users) <? max_messages_per_day config); simpl.
    - unfold log, modify. simpl.
      match goal with
      | |- context [collect_following_users config ?l ?s0] =>
          destruct (discovery_passes config s0 l) as [_ [Hq Hp]];
          destruct (collect_following_users config l s0) as [found s1]
      end. simpl in *.
      split; [eapply steady_quiet; [exact Hs|exact Hq]|].
      intros all Heq t Ht. inversion Heq; subst all.
      apply elem_of_union in Ht as [Ht|Ht]; [apply Hpass; exact Ht|].
      destruct Hs as (_ & _ & Hu & Hb & _).
      destruct (Hp t Ht) as [H1 H2]. simpl in H1, H2. split; congruence.
    - split; [exact Hs|]. intros all Heq. inversion Heq; subst all. exact Hpass. }
  intros [all|e]; [|intros s [Hs _]; apply Hpost; exact Hs].
  intros s [Hs Hpass]. specialize (Hpass all eq_refl).
  unfold bind_exc, lift, bind, ok, ret, log, modify, get. simpl.
  match goal with
  | |- context [send_candidates config ?m ?l ?s0] =>
      pose proof (send_candidates_sent_only m l st
                    (fun t Ht => Hpass t (Hsound all t Ht)) s0 Hs) as Hsend;
      destruct (send_candidates config m l s0) as [[] s1]
  end. simpl in *.
  subst Post. simpl. apply sent_only_log. exact Hsend.
Qed.

End RunRows.

Section RunTheorems.

Context {W : Type} `{Backend W}.
Variable config : Config.
Variable enumerate : gset target -> list target.

Lemma run_blocks (st : State W) :
  run config enumerate st =
  run_finally config
    (match run_body config enumerate st with
     | (Ok _, s1) => s1
     | (Raise e, s1) => (run_except e s1).2
     end).
Proof.
  unfold run, run_finally, run_except, try_except, bind, ret.
  destruct (run_body config enumerate st) as [[[]|e] s1]; [reflexivity|].
  simpl. destruct (notify_slack _ _) as [[] s2]. reflexivity.
Qed.

(** The two reports, one after the other. *)
Lemma reports_shape (s : State W) :
  exists today monthly,
    calm s ((send_daily_report;; send_monthly_report config)%io s).2
    /\ slack ((send_daily_report;; send_monthly_report config)%io s).2
       = (slack s ++ [daily_notification today (history s)] ++ monthly)%list
    /\ (monthly = [] \/ exists m t d, monthly = [MonthlyReport m t d]).
Proof.
  unfold bind.
  destruct (send_daily_report_shape s) as (Hc4 & Hsl4 & _).
  destruct (send_daily_report s) as [[] s4]. simpl in Hc4, Hsl4.
  destruct (send_monthly_report_calm config s4) as (Hc5 & Hsl5 & _).
  exists (strftime_Ymd (datetime_now (world s)).1).
  destruct Hsl5 as [Hsame | (m & t & d & Hm)].
  - exists []. split; [|split; [|left; reflexivity]].
    + exact (calm_trans _ _ _ Hc4 Hc5).
    + rewrite Hsame, Hsl4, app_nil_r. reflexivity.
  - exists [MonthlyReport m t d]. split; [|split; [|right; eauto]].
    + exact (calm_trans _ _ _ Hc4 Hc5).
    + rewrite Hm, Hsl4, <- !app_assoc. reflexivity.
Qed.

(** The [finally] block: at most the two reports are sent. *)
Lemma run_finally_shape (s : State W) :
  exists today monthly,
    calm s (run_finally config s).2
    /\ slack (run_finally config s).2
       = (slack s ++ [daily_notification today (history s)] ++ monthly)%list
    /\ (monthly = [] \/ exists m t d, monthly = [MonthlyReport m t d]).
Proof.
  assert (Hsplit : exists s3,
            run_finally config s
            = (send_daily_report;; send_monthly_report config)%io s3
            /\ calm s s3 /\ slack s3 = slack s).
  { unfold run_finally. unfold bind at 1 2. unfold get, io_world_, ret.
    destruct (driver s); eexists; (split; [reflexivity|]); split; repeat split. }
  destruct Hsplit as (s3 & -> & Hc3 & Hsl3).
  destruct (reports_shape s3) as (today & monthly & Hc & Hsl & Hm).
  exists today, monthly.
  assert (Hh3 : history s3 = history s) by (destruct Hc3 as (h3 & _); exact h3).
  split; [exact (calm_trans _ _ _ Hc3 Hc)|].
  split; [rewrite Hsl, Hsl3, Hh3; reflexivity | exact Hm].
Qed.

(** What [run] does to the state, block by block. *)
Lemma run_shape (st : State W) :
  (forall X t, t ∈ enumerate X -> t ∈ X) ->
  exists s1 alert today monthly,
    sent_only (max_messages_per_day config) st s1
    /\ calm s1 (run config enumerate st).2
    /\ slack (run config enumerate st).2
       = (slack s1 ++ alert ++ [daily_notification today (history s1)] ++ monthly)%list
    /\ (alert = [] \/ exists e, alert = [SystemErrorAlert e])
    /\ (monthly = [] \/ exists m t d, monthly = [MonthlyReport m t d]).
Proof.
  intros Hsound. pose proof (run_body_sent_only config enumerate st Hsound) as Hbody.
  rewrite run_blocks.
  destruct (run_body config enumerate st) as [[[]|e] s1]; simpl in Hbody.
  - destruct (run_finally_shape s1) as (today & monthly & Hc & Hsl & Hm).
    exists s1, [], today, monthly.
    split; [exact Hbody|]. split; [exact Hc|]. split; [exact Hsl|].
    split; [left; reflexivity | exact Hm].
  - unfold run_except, bind, log, modify. simpl.
    match goal with
    | |- context [notify_slack ?n ?s] =>
        destruct (notify_slack_calm n s) as (Hcn & Hsln & _);
        destruct (notify_slack n s) as [[] s2]
    end. simpl in Hcn, Hsln. simpl.
    destruct (run_finally_shape s2) as (today & monthly & Hc & Hsl & Hm).
    exists s1, [SystemErrorAlert (exn_str e)], today, monthly.
    assert (Hh2 : history s2 = history s1) by (destruct Hcn as (h & _); exact h).
    split; [exact Hbody|]. split; [exact (calm_trans _ _ _ Hcn Hc)|].
    split; [rewrite Hsl, Hsln, Hh2, <- !app_assoc; reflexivity|].
    split; [right; eauto | exact Hm].
Qed.

(** X16, the rows of a run.  Provided the enumeration of the candidate set
    lists members of the set only, a run adds rows at the end of the history
    and changes nothing before them; every row added is for a candidate whose
    identifier was outside [sent_users] and whose address was outside the
    blacklist when the run began; with a cap that is not negative at most
    that many rows are added; the counter grows by at least the number of
    Success rows added (a success whose row could not be written is counted
    all the same), and by exactly that number when the history file can be
    written. *)
Theorem run_rows_pass_filter (st : State W) :
  (forall X t, t ∈ enumerate X -> t ∈ X) ->
  exists rows,
    history (run config enumerate st).2 = (history st ++ rows)%list
    /\ Forall (fun r => passes st (row_target r)) rows
    /\ (0 <= max_messages_per_day config ->
        (length rows <= Z.to_nat (max_messages_per_day config))%nat)
    /\ sent_count st + Z.of_nat (count_status "Success" rows)
       <= sent_count (run config enumerate st).2
    /\ (writable_log ->
        sent_count (run config enumerate st).2
        = sent_count st + Z.of_nat (count_status "Success" rows)).
Proof.
  intros Hsound.
  destruct (run_shape st Hsound)
    as (s1 & alert & today & monthly & (rows & Hh & _ & Hc & Hw & Hp & Hl) & Hcalm & _).
  destruct Hcalm as (Hh' & _ & _ & Hc' & _).
  exists rows. split; [congruence|]. split; [exact Hp|]. split; [exact Hl|].
  split; [rewrite Hc'; exact Hc|]. intros Hlog. rewrite Hc'. exact (Hw Hlog).
Qed.

(** X17, the notifications of a run.  Under the same proviso a run hands to
    the webhook, in this order: at most one system-error alert, exactly one
    daily notification (computed from the history as the run leaves it), and
    at most one monthly report. *)
Theorem run_notifications (st : State W) :
  (forall X t, t ∈ enumerate X -> t ∈ X) ->
  exists alert today monthly,
    slack (run config enumerate st).2
    = (slack st ++ alert
         ++ [daily_notification today (history (run config enumerate st).2)]
         ++ monthly)%list
    /\ (alert = [] \/ exists e, alert = [SystemErrorAlert e])
    /\ (monthly = [] \/ exists m t d, monthly = [MonthlyReport m t d]).
Proof.
  intros Hsound.
  destruct (run_shape st Hsound)
    as (s1 & alert & today & monthly & (rows & _ & Hs & _) & Hcalm & Hsl & Ha & Hm).
  destruct Hcalm as (Hh' & _).
  exists alert, today, monthly. rewrite Hsl, Hs, Hh'. auto.
Qed.

End RunTheorems.

(** Witness: the run in the world of [twin_scenario]. *)
Lemma run_rows_pass_filter_witness :
  let st := initial Sim.start [] in
  exists rows,
    history (@run _ (Sim.backend twin_scenario) demo_config set_order st).2
    = (history st ++ rows)%list
    /\ Forall (fun r => passes st (row_target r)) rows
    /\ (0 <= max_messages_per_day demo_config ->
        (length rows <= Z.to_nat (max_messages_per_day demo_config))%nat)
    /\ sent_count st + Z.of_nat (count_status "Success" rows)
       <= sent_count (@run _ (Sim.backend twin_scenario) demo_config set_order st).2
    /\ (@writable_log _ (Sim.backend twin_scenario) ->
        sent_count (@run _ (Sim.backend twin_scenario) demo_config set_order st).2
        = sent_count st + Z.of_nat (count_status "Success" rows)).
Proof.
  apply (@run_rows_pass_filter _ (Sim.backend twin_scenario) demo_config set_order
           (initial Sim.start [])).
  intros X t Ht. apply elem_of_elements. exact Ht.
Defined.

Lemma run_notifications_witness :
  let st := initial Sim.start [] in
  exists alert today monthly,
    slack (@run _ (Sim.backend twin_scenario) demo_config set_order st).2
    = (slack st ++ alert
         ++ [daily_notification today
               (history (@run _ (Sim.backend twin_scenario) demo_config set_order st).2)]
         ++ monthly)%list
    /\ (alert = [] \/ exists e, alert = [SystemErrorAlert e])
    /\ (monthly = [] \/ exists m t d, monthly = [MonthlyReport m t d]).
Proof.
  apply (@run_notifications _ (Sim.backend twin_scenario) demo_config set_order
           (initial Sim.start [])).
  intros X t Ht. apply elem_of_elements. exact Ht.
Defined.

(** ** Timestamps: what [strftime] writes, [strptime] reads back *)

Lemma match_classes_app cs : forall cap s,
  match_classes cs cap = Some (cap, EmptyString) ->
  match_classes cs (cap +:+ s) = Some (cap, s).
Proof.
  induction cs as [|c cs IH]; intros cap s Hm; simpl in *.
  - inversion Hm. reflexivity.
  - destruct cap as [|a cap]; [discriminate|]. rewrite append_cons.
    destruct (c a); [|discriminate].
    destruct (match_classes cs cap) as [[cap' r]|] eqn:Hrec; [|discriminate].
    inversion Hm; subst. rewrite (IH _ s Hrec). reflexivity.
Qed.

Lemma match_classes_fail_app cs : forall cap s,
  match_classes cs cap = None -> (length cs <= String.length cap)%nat ->
  match_classes cs (cap +:+ s) = None.
Proof.
  induction cs as [|c cs IH]; intros cap s Hm Hlen; simpl in *; [discriminate|].
  destruct cap as [|a cap]; [simpl in Hlen; lia|]. rewrite append_cons.
  destruct (c a); [|reflexivity].
  destruct (match_classes cs cap) as [[cap' r]|] eqn:Hrec; [discriminate|].
  rewrite (IH cap s Hrec); [reflexivity|]. simpl in Hlen. lia.
Qed.

Lemma alts_capture_head alts : forall cap s,
  alts_capture alts cap = true ->
  head (match_alts alts (cap +:+ s)) = Some (cap, s).
Proof.
  induction alts as [|cs alts IH]; intros cap s Hok; simpl in Hok; [discriminate|].
  unfold match_alts. simpl.
  destruct (match_classes cs cap) as [[c r]|] eqn:Hm.
  - apply andb_true_iff in Hok as [Hc Hr]. apply String.eqb_eq in Hc. subst c.
    destruct r; [|discriminate].
    rewrite (match_classes_app cs cap s Hm). reflexivity.
  - apply andb_true_iff in Hok as [Hlen Hrest]. apply Nat.leb_le in Hlen.
    rewrite (match_classes_fail_app cs cap s Hm Hlen). apply IH. exact Hrest.
Qed.

Lemma head_bind_cons {A B} (f : A -> list B) x l y :
  head (f x) = Some y -> head ((x :: l) ≫= f) = Some y.
Proof.
  intros Hx. rewrite bind_cons. destruct (f x) as [|z zs]; [discriminate|].
  exact Hx.
Qed.

Lemma head_re_dir d ts s cap s' fs r :
  head (match_alts (directive_regex d) s) = Some (cap, s') ->
  head (re_matches ts s') = Some (fs, r) ->
  head (re_matches (TDir d :: ts) s) = Some ((d, cap) :: fs, r).
Proof.
  intros Ha Hr. simpl.
  destruct (match_alts (directive_regex d) s) as [|[c x] alts]; [discriminate|].
  simpl in Ha. inversion Ha; subst c x.
  apply head_bind_cons. simpl.
  destruct (re_matches ts s') as [|[fs' r'] ms]; [discriminate|].
  simpl in Hr. inversion Hr; subst. reflexivity.
Qed.

Lemma head_re_space ts a s :
  PyStr.is_space a = false ->
  head (re_matches (TSpace :: ts) (String " " (String a s)))
  = head (re_matches ts (String a s)).
Proof.
  intros Ha. simpl. rewrite Ha. simpl.
  rewrite app_nil_r. reflexivity.
Qed.

(** A check over a range of numbers, run once, holds for each of them. *)
Lemma field_ok_range d w (lo hi : Z) :
  forallb (field_ok d w) (seq (Z.to_nat lo) (Z.to_nat (hi - lo + 1))) = true ->
  forall v, lo <= v <= hi -> 0 <= lo -> field_ok d w (Z.to_nat v) = true.
Proof.
  intros Hall v Hv Hlo. rewrite forallb_forall in Hall. apply Hall.
  apply in_seq. lia.
Qed.

Lemma years_ok v : 1 <= v <= 9999 -> field_ok dir_Y 4 (Z.to_nat v) = true.
Proof.
  intros Hv. apply (field_ok_range dir_Y 4 1 9999); [vm_compute; reflexivity| |]; lia.
Qed.

Lemma months_ok v : 1 <= v <= 12 -> field_ok dir_m 2 (Z.to_nat v) = true.
Proof.
  intros Hv. apply (field_ok_range dir_m 2 1 12); [vm_compute; reflexivity| |]; lia.
Qed.

Lemma days_ok v : 1 <= v <= 31 -> field_ok dir_d 2 (Z.to_nat v) = true.
Proof.
  intros Hv. apply (field_ok_range dir_d 2 1 31); [vm_compute; reflexivity| |]; lia.
Qed.

Lemma hours_ok v : 0 <= v <= 23 -> field_ok dir_H 2 (Z.to_nat v) = true.
Proof.
  intros Hv. apply (field_ok_range dir_H 2 0 23); [vm_compute; reflexivity| |]; lia.
Qed.

Lemma minutes_ok v : 0 <= v <= 59 -> field_ok dir_M 2 (Z.to_nat v) = true.
Proof.
  intros Hv. apply (field_ok_range dir_M 2 0 59); [vm_compute; reflexivity| |]; lia.
Qed.

Lemma seconds_ok v : 0 <= v <= 59 -> field_ok dir_S 2 (Z.to_nat v) = true.
Proof.
  intros Hv. apply (field_ok_range dir_S 2 0 59); [vm_compute; reflexivity| |]; lia.
Qed.

Lemma days_in_month_le y m : 1 <= m <= 12 -> days_in_month y m <= 31.
Proof.
  intros Hm. unfold days_in_month.
  assert (Hcases : m = 1 \/ m = 2 \/ m = 3 \/ m = 4 \/ m = 5 \/ m = 6 \/ m = 7
                   \/ m = 8 \/ m = 9 \/ m = 10 \/ m = 11 \/ m = 12) by lia.
  destruct Hcases as [->|[->|[->|[->|[->|[->|[->|[->|[->|[->|[->| ->]]]]]]]]]]];
    simpl; try lia.
  destruct (is_leap y); simpl; lia.
Qed.

Lemma append_nil_r (s : string) : s +:+ EmptyString = s.
Proof.
  induction s as [|a s IH]; [reflexivity|]. rewrite append_cons, IH. reflexivity.
Qed.

Lemma head_re_lit c ts s :
  head (re_matches (TLit c :: ts) (String c s)) = head (re_matches ts s).
Proof. simpl. rewrite Ascii.eqb_refl. reflexivity. Qed.

(** The six fields, each captured whole by its directive, are read back in
    one piece from the text they form. *)
Lemma parse_fields Y M D h Mi S :
  alts_capture (directive_regex dir_Y) Y = true ->
  alts_capture (directive_regex dir_m) M = true ->
  alts_capture (directive_regex dir_d) D = true ->
  alts_capture (directive_regex dir_H) h = true ->
  alts_capture (directive_regex dir_M) Mi = true ->
  alts_capture (directive_regex dir_S) S = true ->
  match h with String a _ => PyStr.is_space a = false | EmptyString => False end ->
  head (re_matches
          [TDir dir_Y; TLit "-"; TDir dir_m; TLit "-"; TDir dir_d; TSpace;
           TDir dir_H; TLit ":"; TDir dir_M; TLit ":"; TDir dir_S]
          (Y +:+ String "-" (M +:+ String "-" (D +:+ String " "
             (h +:+ String ":" (Mi +:+ String ":" (S +:+ EmptyString)))))))
  = Some ([(dir_Y, Y); (dir_m, M); (dir_d, D); (dir_H, h); (dir_M, Mi); (dir_S, S)],
          EmptyString).
Proof.
  intros HY HM HD HH HMi HS Hsp.
  eapply head_re_dir; [apply alts_capture_head; exact HY|].
  rewrite head_re_lit.
  eapply head_re_dir; [apply alts_capture_head; exact HM|].
  rewrite head_re_lit.
  eapply head_re_dir; [apply alts_capture_head; exact HD|].
  destruct h as [|a h]; [contradiction|]. rewrite append_cons.
  rewrite (head_re_space _ a _ Hsp). rewrite <- append_cons.
  eapply head_re_dir; [apply alts_capture_head; exact HH|].
  rewrite head_re_lit.
  eapply head_re_dir; [apply alts_capture_head; exact HMi|].
  rewrite head_re_lit.
  eapply head_re_dir; [apply alts_capture_head; exact HS|].
  reflexivity.
Qed.

Lemma strftime_YmdHMS_fields t :
  strftime_YmdHMS t =
  PyStr.zero_pad 4 (Z.to_nat (year t)) +:+ String "-"
    (PyStr.zero_pad 2 (Z.to_nat (month t)) +:+ String "-"
       (PyStr.zero_pad 2 (Z.to_nat (day t)) +:+ String " "
          (PyStr.zero_pad 2 (Z.to_nat (hour t)) +:+ String ":"
             (PyStr.zero_pad 2 (Z.to_nat (minute t)) +:+ String ":"
                (PyStr.zero_pad 2 (Z.to_nat (second t)) +:+ EmptyString))))).
Proof.
  unfold strftime_YmdHMS, fmt_date.
  rewrite !append_assoc, append_nil_r. reflexivity.
Qed.

Lemma field_ok_parts d w v :
  field_ok d w v = true ->
  alts_capture (directive_regex d) (PyStr.zero_pad w v) = true
  /\ PyStr.int (PyStr.zero_pad w v) = Z.of_nat v
  /\ match PyStr.zero_pad w v with
     | String a _ => PyStr.is_space a = false
     | EmptyString => False
     end.
Proof.
  unfold field_ok. intros Hok.
  apply andb_true_iff in Hok as [Hok Hsp].
  apply andb_true_iff in Hok as [Hcap Hint].
  split; [exact Hcap|]. split; [apply Z.eqb_eq; exact Hint|].
  destruct (PyStr.zero_pad w v); [discriminate|].
  apply negb_true_iff. exact Hsp.
Qed.

Lemma valid_ranges t :
  valid t = true ->
  1 <= year t <= 9999 /\ 1 <= month t <= 12
  /\ 1 <= day t <= days_in_month (year t) (month t)
  /\ 0 <= hour t <= 23 /\ 0 <= minute t <= 59 /\ 0 <= second t <= 59
  /\ 0 <= microsecond t <= 999999.
Proof.
  unfold valid. intros Hv.
  repeat (apply andb_true_iff in Hv as [Hv ?]).
  repeat match goal with H : (_ <=? _) = true |- _ => apply Z.leb_le in H end.
  apply Z.leb_le in Hv. lia.
Qed.

(** Round trip.  The timestamp [strftime('%Y-%m-%d %H:%M:%S')] writes for
    a valid datetime is read back by [strptime] with the same format as that
    datetime, to the second. *)
Lemma strptime_reads_strftime t :
  valid t = true ->
  strptime (strftime_YmdHMS t) "%Y-%m-%d %H:%M:%S" = Ok (whole_second t).
Proof.
  intros Hvalid. pose proof (valid_ranges t Hvalid) as (Hy & Hm & Hd & Hh & Hmi & Hs & Hus).
  pose proof (days_in_month_le (year t) (month t) Hm) as Hdim.
  destruct (field_ok_parts _ _ _ (years_ok (year t) Hy)) as (cY & iY & _).
  destruct (field_ok_parts _ _ _ (months_ok (month t) Hm)) as (cM & iM & _).
  destruct (field_ok_parts _ _ _ (days_ok (day t) ltac:(lia))) as (cD & iD & _).
  destruct (field_ok_parts _ _ _ (hours_ok (hour t) Hh)) as (cH & iH & sH).
  destruct (field_ok_parts _ _ _ (minutes_ok (minute t) Hmi)) as (cMi & iMi & _).
  destruct (field_ok_parts _ _ _ (seconds_ok (second t) Hs)) as (cS & iS & _).
  unfold strptime.
  change (compile false "%Y-%m-%d %H:%M:%S") with
    (Some [TDir dir_Y; TLit "-"; TDir dir_m; TLit "-"; TDir dir_d; TSpace;
           TDir dir_H; TLit ":"; TDir dir_M; TLit ":"; TDir dir_S]).
  rewrite strftime_YmdHMS_fields.
  rewrite (parse_fields _ _ _ _ _ _ cY cM cD cH cMi cS sH).
  cbn [PyStr.truthy group directive_eqb].
  rewrite iY, iM, iD, iH, iMi, iS, !Z2Nat.id by lia.
  assert (Hv' : valid (mk_datetime (year t) (month t) (day t) (hour t)
                         (minute t) (second t) 0) = true).
  { unfold valid in *. simpl.
    repeat (apply andb_true_iff; split); apply Z.leb_le; lia. }
  rewrite Hv'. reflexivity.
Qed.

(** X1, round trip.  The timestamp [strftime('%Y-%m-%d %H:%M:%S')] writes for
    a valid datetime is read back by [strptime] with the same format as that
    datetime, to the second. *)
Theorem strptime_strftime_roundtrip t :
  valid t = true ->
  strptime (strftime_YmdHMS t) "%Y-%m-%d %H:%M:%S" = Ok (whole_second t).
Proof. exact (strptime_reads_strftime t). Qed.

(** Witness of the round trip. *)
Lemma strptime_strftime_roundtrip_witness :
  strptime (strftime_YmdHMS noon) "%Y-%m-%d %H:%M:%S" = Ok (whole_second noon).
Proof. apply (strptime_strftime_roundtrip noon). reflexivity. Defined.

(** ** The engine's rows as the maintenance tools see them *)

Section EngineRows.

Variable now : datetime.

(** A row written by the engine at a valid time lies inside the analysis
    window exactly when its second is not older than the cutoff. *)
Lemma in_window_attempt days t u l ok err msg :
  valid t = true ->
  in_window now days (attempt_row t u l ok err msg)
  = (minus_days now days <=? instant (whole_second t)).
Proof.
  intros Hv. unfold in_window, attempt_row. simpl.
  rewrite (strptime_reads_strftime t Hv). reflexivity.
Qed.

(** X19, the statistics count what the engine logged.  Over a history made of
    rows the engine wrote at valid times inside the window, the analysis
    counts every row: the attempts are all the rows, the successes the
    Success rows, the failures the Failed rows. *)
Theorem analysis_counts_engine_rows days rows :
  Forall (fun r => exists t u l ok err msg,
            r = attempt_row t u l ok err msg /\ valid t = true
            /\ minus_days now days <= instant (whole_second t)) rows ->
  let stats := Maintenance.analyze_sending_statistics now days rows in
  Maintenance.total_attempts stats = Z.of_nat (length rows)
  /\ Maintenance.successful_sends stats = Z.of_nat (count_status "Success" rows)
  /\ Maintenance.failed_sends stats = Z.of_nat (count_status "Failed" rows).
Proof.
  intros Hrows stats.
  assert (Hst : forall r, r ∈ rows -> in_window now days r = true ->
                  status r = "Success" \/ status r = "Failed").
  { intros r Hin _. rewrite Forall_forall in Hrows.
    destruct (Hrows r Hin) as (t & u & l & ok & err & msg & -> & _).
    destruct ok; simpl; auto. }
  destruct (analyze_fold_counts now days rows Maintenance.empty_stats)
    as (Ht & Hs & Hf & _).
  rewrite (other_count_failed now days rows Hst) in Ht, Hf. simpl in Ht, Hs, Hf.
  assert (Hrate : forall s, Maintenance.total_attempts (Maintenance.with_rate s)
                            = Maintenance.total_attempts s
                            /\ Maintenance.successful_sends (Maintenance.with_rate s)
                               = Maintenance.successful_sends s
                            /\ Maintenance.failed_sends (Maintenance.with_rate s)
                               = Maintenance.failed_sends s).
  { intros s. unfold Maintenance.with_rate.
    destruct (0 <? Maintenance.total_attempts s); repeat split. }
  assert (Hcount : forall st, window_count now days st rows
                              = Z.of_nat (count_status st rows)).
  { intros st. unfold window_count, count_status, rows_with. f_equal. f_equal.
    clear Hst Ht Hs Hf Hrate stats.
    induction Hrows as [|r rows (t & u & l & ok & err & msg & -> & Hv & Hin) _ IH];
      [reflexivity|].
    rewrite !filter_cons, IH, (in_window_attempt days t u l ok err msg Hv).
    apply Z.leb_le in Hin. rewrite Hin. reflexivity. }
  subst stats. unfold Maintenance.analyze_sending_statistics.
  destruct (Hrate (fold_left (Maintenance.analyze_row (minus_days now days)) rows
                     Maintenance.empty_stats)) as (-> & -> & ->).
  rewrite Ht, Hs, Hf, !Hcount.
  split; [|split; reflexivity].
  unfold count_status, rows_with.
  clear Hst Ht Hs Hf Hcount Hrate.
  induction Hrows as [|r rows (t & u & l & ok & err & msg & -> & _) _ IH];
    [reflexivity|].
  rewrite !filter_cons. destruct ok; simpl in *; lia.
Qed.

End EngineRows.

(** ** The health checks *)

Section HealthChecks.

Import Health.

Lemma ratio_bounds (r u : Z) :
  0 <= r <= u -> 0 < u ->
  (0 <= inject_Z r / inject_Z u * 100)%Q /\ (inject_Z r / inject_Z u * 100 <= 100)%Q.
Proof.
  intros [Hr Hru] Hu.
  assert (Hu' : (0 < inject_Z u)%Q) by (unfold Qlt, inject_Z; simpl; lia).
  assert (H0 : (0 <= inject_Z r / inject_Z u)%Q).
  { apply Qle_shift_div_l; [exact Hu'|]. rewrite Qmult_0_l.
    unfold Qle, inject_Z; simpl; lia. }
  assert (H1 : (inject_Z r / inject_Z u <= 1)%Q).
  { apply Qle_shift_div_r; [exact Hu'|]. rewrite Qmult_1_l.
    unfold Qle, inject_Z; simpl; lia. }
  split.
  - apply Qmult_le_0_compat; [exact H0 | discriminate].
  - apply (Qle_trans _ (1 * 100)%Q); [|discriminate].
    apply Qmult_le_compat_r; [exact H1 | discriminate].
Qed.

Lemma size_add (x : string) (X : gset string) :
  size ({[x]} ∪ X) = if bool_decide (x ∈ X) then size X else S (size X).
Proof.
  destruct (bool_decide (x ∈ X)) eqn:Hin.
  - apply bool_decide_eq_true in Hin. f_equal.
    apply subseteq_union_1_L. apply singleton_subseteq_l. exact Hin.
  - apply bool_decide_eq_false in Hin.
    rewrite size_union by (apply disjoint_singleton_l; exact Hin).
    rewrite size_singleton. reflexivity.
Qed.

(** What the loop keeps: the recent users are among the users seen, and
    every row that parses is either the first of its user or a duplicate. *)
Lemma tally_invariant cutoff rows : forall acc,
  recent_users acc ⊆ unique_users acc ->
  let acc' := fold_left (health_row cutoff) rows acc in
  recent_users acc' ⊆ unique_users acc'
  /\ (size (unique_users acc') + length (duplicate_sends acc')
      = size (unique_users acc) + length (duplicate_sends acc)
        + length (parseable rows))%nat.
Proof.
  induction rows as [|row rows IH]; intros acc Hsub; simpl.
  - split; [exact Hsub | lia].
  - unfold parseable, parses in *. rewrite filter_cons.
    assert (Hstep : recent_users (health_row cutoff acc row)
                    ⊆ unique_users (health_row cutoff acc row)).
    { unfold health_row. destruct (strptime _ _); simpl; [|exact Hsub].
      destruct (_ && _).
      - apply union_mono_l. exact Hsub.
      - etrans; [exact Hsub | apply union_subseteq_r]. }
    destruct (IH _ Hstep) as [Hs Hn]. split; [exact Hs|].
    rewrite Hn. unfold health_row.
    destruct (strptime (date row) "%Y-%m-%d %H:%M:%S"); simpl; [|lia].
    rewrite size_add. destruct (bool_decide _); simpl; [|lia].
    rewrite length_app. simpl. lia.
Qed.

(** X20, the health of the history.  The number of recent successful users
    never exceeds the number of users seen, the reset effectiveness lies
    between 0 and 100, and it is 0 when no row of the history parses. *)
Theorem history_health_bounds config now rows :
  let r := check_sent_history_health config now rows in
  (recent_successful_users r <= total_unique_users r)%nat
  /\ (0 <= reset_effectiveness r)%Q /\ (reset_effectiveness r <= 100)%Q
  /\ (parseable rows = [] ->
      total_unique_users r = O /\ reset_effectiveness r = 0%Q).
Proof.
  intros r. subst r. unfold check_sent_history_health, tally. simpl.
  destruct (tally_invariant (minus_days now (sent_history_reset_days config)) rows
              (mk_tally ∅ ∅ [])) as [Hsub Hn]; [reflexivity|].
  set (t := fold_left _ rows _) in *.
  cbn [unique_users duplicate_sends] in Hn. rewrite size_empty in Hn.
  assert (Hle : (size (recent_users t) <= size (unique_users t))%nat)
    by (apply subseteq_size; exact Hsub).
  split; [exact Hle|].
  destruct (bool_decide (unique_users t = ∅)) eqn:He.
  - apply bool_decide_eq_true in He.
    split; [discriminate|]. split; [discriminate|].
    intros _. rewrite He, size_empty. split; reflexivity.
  - apply bool_decide_eq_false in He.
    assert (Hpos : (0 < size (unique_users t))%nat).
    { destruct (size (unique_users t)) eqn:Hsz; [|lia].
      apply size_empty_iff in Hsz. exfalso. apply He. apply leibniz_equiv. exact Hsz. }
    destruct (ratio_bounds (Z.of_nat (size (recent_users t)))
                (Z.of_nat (size (unique_users t)))) as [H0 H1]; [lia..|].
    split; [exact H0|]. split; [exact H1|].
    intros Hnone. rewrite Hnone in Hn. exfalso. simpl length in Hn. lia.
Qed.

(** X21, duplicates.  Every row that parses is either the first row of its
    user or recorded as a duplicate send; of the duplicates at most ten are
    reported, the first ones. *)
Theorem history_health_duplicates config now rows :
  let t := tally now (sent_history_reset_days config) rows in
  let r := check_sent_history_health config now rows in
  (total_unique_users r + length (duplicate_sends t) = length (parseable rows))%nat
  /\ reported_duplicates r = take 10 (duplicate_sends t)
  /\ (length (reported_duplicates r) <= 10)%nat.
Proof.
  intros t r. subst t r. unfold check_sent_history_health, tally. simpl.
  destruct (tally_invariant (minus_days now (sent_history_reset_days config)) rows
              (mk_tally ∅ ∅ [])) as [_ Hn]; [reflexivity|].
  cbn [unique_users duplicate_sends] in Hn. rewrite size_empty in Hn.
  simpl length in Hn. simpl plus in Hn.
  split; [exact Hn|]. split; [reflexivity|]. rewrite length_take. lia.
Qed.

(** The loop of [check_recent_activity] answers whether some row reads as a
    timestamp not older than the cutoff. *)
Lemma recent_activity_loop_true cutoff rows :
  recent_activity_loop cutoff rows = true <->
  exists r t, r ∈ rows /\ strptime (date r) "%Y-%m-%d %H:%M:%S" = Ok t
              /\ cutoff <= instant t.
Proof.
  induction rows as [|row rows IH]; simpl.
  - split; [discriminate|]. intros (r & t & Hin & _). inversion Hin.
  - destruct (strptime (date row) "%Y-%m-%d %H:%M:%S") as [t|e] eqn:Hp.
    + destruct (cutoff <=? instant t) eqn:Hc.
      * split; [|reflexivity]. intros _. exists row, t.
        apply Z.leb_le in Hc. split; [left|]. split; assumption.
      * rewrite IH. apply Z.leb_gt in Hc. split.
        -- intros (r & t' & Hin & Hr). exists r, t'. split; [right; exact Hin | exact Hr].
        -- intros (r & t' & Hin & Hpr & Hle).
           apply elem_of_cons in Hin as [-> | Hin].
           ++ rewrite Hp in Hpr. inversion Hpr; subst. lia.
           ++ exists r, t'. split; [exact Hin|]. split; assumption.
    + rewrite IH. split.
      * intros (r & t' & Hin & Hr). exists r, t'. split; [right; exact Hin | exact Hr].
      * intros (r & t' & Hin & Hpr & Hle).
        apply elem_of_cons in Hin as [-> | Hin].
        -- rewrite Hp in Hpr. discriminate.
        -- exists r, t'. split; [exact Hin|]. split; assumption.
Qed.

(** X22, recent activity.  An attempt the engine logged at a valid time whose
    second is not older than [now - hours] is noticed, wherever its row
    stands in the history. *)
Theorem recent_activity_sees_logged_attempt now hours rows t u l ok err msg :
  valid t = true ->
  instant now - hours * one_hour <= instant (whole_second t) ->
  attempt_row t u l ok err msg ∈ rows ->
  check_recent_activity now hours rows = true.
Proof.
  intros Hv Hle Hin. unfold check_recent_activity.
  apply recent_activity_loop_true.
  exists (attempt_row t u l ok err msg), (whole_second t).
  split; [exact Hin|]. split; [|exact Hle].
  apply (strptime_reads_strftime t Hv).
Qed.

End HealthChecks.

(** ** The send dialogue *)

Section DialogueFacts.

Context {W : Type} `{Backend W} `{Browser W}.

Lemma quiet_sleep_uniform a b : quiet_io (Dialogue.sleep_uniform a b : IO W unit).
Proof. unfold Dialogue.sleep_uniform. auto with quiet. Qed.

Lemma quiet_safe_click_loop el n : forall attempt,
  quiet_io (Dialogue.safe_click_loop el n attempt : IO W bool).
Proof.
  induction n as [|n IH]; intros attempt; simpl; [auto with quiet|].
  apply quiet_bind; [auto with quiet|]. intros [[]|e].
  - apply quiet_bind; [auto with quiet|]. intros _.
    apply quiet_bind; [auto with quiet|]. intros [|text|e]; auto 10 with quiet.
  - auto with quiet.
Qed.

Lemma quiet_first_clickable how sels :
  quiet_io (Dialogue.first_clickable how sels : Exc W _).
Proof.
  induction sels as [|sel sels IH]; simpl; [auto with quiet|].
  apply quiet_bind; [auto with quiet|]. intros [el| |e]; auto with quiet.
Qed.

Lemma quiet_type_message textbox message :
  quiet_io (Dialogue.type_message textbox message : Exc W _).
Proof.
  induction message as [|c rest IH]; simpl; [auto with quiet|].
  apply quiet_bind_exc; [auto with quiet|]. intros _.
  apply quiet_bind_exc; [auto with quiet|]. intros r.
  apply quiet_bind_exc; [|intros _; exact IH].
  apply quiet_lift. destruct (negb _); [apply quiet_sleep_uniform | auto with quiet].
Qed.

Lemma quiet_click_or_raise el : quiet_io (Dialogue.click_or_raise el : Exc W _).
Proof.
  unfold Dialogue.click_or_raise. apply quiet_bind; [auto with quiet|].
  intros [|text|e]; auto with quiet.
Qed.

Lemma quiet_send_dm_body username url message :
  quiet_io (Dialogue.send_dm_body username url message : Exc W _).
Proof.
  unfold Dialogue.send_dm_body.
  apply quiet_bind_exc; [auto with quiet|]. intros _.
  apply quiet_bind_exc; [auto with quiet|]. intros _.
  apply quiet_bind_exc; [apply quiet_lift, quiet_sleep_uniform|]. intros _.
  apply quiet_bind_exc; [apply quiet_first_clickable|]. intros [button|];
    [|auto with quiet].
  apply quiet_bind_exc; [apply quiet_lift, quiet_safe_click_loop|]. intros clicked.
  destruct (negb clicked); [auto with quiet|].
  apply quiet_bind_exc; [apply quiet_lift, quiet_sleep_uniform|]. intros _.
  apply quiet_bind_exc; [apply quiet_first_clickable|]. intros [textbox|];
    [|auto with quiet].
  apply quiet_bind_exc; [apply quiet_click_or_raise|]. intros _.
  apply quiet_bind_exc; [auto with quiet|]. intros _.
  apply quiet_bind_exc; [apply quiet_type_message|]. intros _.
  apply quiet_bind_exc; [apply quiet_lift, quiet_sleep_uniform|]. intros _.
  apply quiet_bind_exc; [auto with quiet|]. intros _.
  apply quiet_bind_exc; [apply quiet_lift, quiet_sleep_uniform|]. intros _.
  auto with quiet.
Qed.

Lemma always_bind_exc {A B} (P : result B -> Prop) (m : Exc W A) (k : A -> Exc W B) :
  (forall a, always P (k a)) -> (forall e, P (Raise e)) -> always P (bind_exc m k).
Proof.
  intros Hk He st. unfold bind_exc, bind.
  destruct (m st) as [[a|e] s1]; [apply Hk | apply He].
Qed.

Lemma send_dm_body_coherent username url message :
  always coherent_verdict (Dialogue.send_dm_body username url message : Exc W _).
Proof.
  unfold Dialogue.send_dm_body.
  apply always_bind_exc; [intros _|intros e; exact I].
  apply always_bind_exc; [intros _|intros e; exact I].
  apply always_bind_exc; [intros _|intros e; exact I].
  apply always_bind_exc; [intros [button|]|intros e; exact I];
    [|intros st; exact I].
  apply always_bind_exc; [intros clicked|intros e; exact I].
  destruct (negb clicked); [intros st; exact I|].
  apply always_bind_exc; [intros _|intros e; exact I].
  apply always_bind_exc; [intros [textbox|]|intros e; exact I];
    [|intros st; exact I].
  do 6 (apply always_bind_exc; [intros _|intros e; exact I]).
  intros st. reflexivity.
Qed.

(** X8, the verdict of the send dialogue.  [send_dm_to_user] writes no row,
    sends no notification and leaves the sets and the counter alone; and a
    verdict of success always carries the text [Success]. *)
Theorem send_dm_to_user_verdict username url message (st : State W) :
  quiet st (Dialogue.send_dm_to_user username url message st).2
  /\ ((Dialogue.send_dm_to_user username url message st).1.1 = true ->
      (Dialogue.send_dm_to_user username url message st).1.2 = "Success").
Proof.
  split.
  - apply quiet_try_except; [apply quiet_send_dm_body | auto with quiet].
  - unfold Dialogue.send_dm_to_user, try_except, bind.
    pose proof (send_dm_body_coherent username url message st) as Hc.
    destruct (Dialogue.send_dm_body username url message st) as [[[[] text]|e] s1];
      simpl in *; try discriminate.
    intros _. exact Hc.
Qed.

End DialogueFacts.

Section ClickFacts.

Context {W : Type} `{Backend W} `{Browser W}.

Lemma safe_click_loop_warnings el n : forall attempt (st : State W) r s,
  Dialogue.safe_click_loop el n attempt st = (r, s) ->
  exists ws,
    logger s = (logger st ++ ws)%list
    /\ Forall (fun entry => entry.1 = WARNING) ws
    /\ (r = false -> length ws = n)
    /\ (r = true -> (length ws < n)%nat).
Proof.
  induction n as [|n IH]; intros attempt st r s Hrun.
  - injection Hrun as <- <-. exists []. rewrite app_nil_r.
    split; [reflexivity|]. split; [constructor|]. split; [reflexivity|discriminate].
  - cbn [Dialogue.safe_click_loop] in Hrun. unfold bind at 1 in Hrun.
    unfold io_world at 1 in Hrun.
    destruct (scroll_into_view el (world st)) as [[[]|e] w1].
    + unfold bind at 1 in Hrun. unfold io_world_ at 1 in Hrun.
      unfold bind at 1 in Hrun. unfold io_world at 1 in Hrun.
      cbn [world set_world] in Hrun.
      destruct (element_click el _) as [[|text|e] w2].
      * injection Hrun as <- <-. exists []. cbn. rewrite app_nil_r.
        split; [reflexivity|]. split; [constructor|].
        split; [discriminate | intros _; lia].
      * unfold bind at 1, log at 1, modify at 1 in Hrun.
        unfold bind at 1, io_world_ at 1 in Hrun.
        apply IH in Hrun as (ws & Hl & Hw & Hf & Ht).
        eexists (_ :: ws). rewrite Hl. cbn. rewrite <- app_assoc. cbn.
        split; [reflexivity|]. split; [constructor; [reflexivity | exact Hw]|].
        split; intros Hr; [f_equal; exact (Hf Hr) | apply Ht in Hr; lia].
      * unfold bind at 1, log at 1, modify at 1 in Hrun.
        apply IH in Hrun as (ws & Hl & Hw & Hf & Ht).
        eexists (_ :: ws). rewrite Hl. cbn. rewrite <- app_assoc. cbn.
        split; [reflexivity|]. split; [constructor; [reflexivity | exact Hw]|].
        split; intros Hr; [f_equal; exact (Hf Hr) | apply Ht in Hr; lia].
    + unfold bind at 1, log at 1, modify at 1 in Hrun.
      apply IH in Hrun as (ws & Hl & Hw & Hf & Ht).
      eexists (_ :: ws). rewrite Hl. cbn. rewrite <- app_assoc. cbn.
      split; [reflexivity|]. split; [constructor; [reflexivity | exact Hw]|].
      split; intros Hr; [f_equal; exact (Hf Hr) | apply Ht in Hr; lia].
Qed.

(** X7, the retries of [safe_click] are bounded.  Every failed attempt leaves
    one warning in the log; the call answers [False] after exactly
    [max_attempts] of them ([0] when [max_attempts] is not positive) and
    [True] after fewer, and it changes nothing but the page and the log. *)
Theorem safe_click_bounded_retries el max_attempts (st : State W) :
  quiet st (Dialogue.safe_click el max_attempts st).2
  /\ exists warnings,
       logger (Dialogue.safe_click el max_attempts st).2
         = (logger st ++ warnings)%list
       /\ Forall (fun entry => entry.1 = WARNING) warnings
       /\ ((Dialogue.safe_click el max_attempts st).1 = false ->
           length warnings = Z.to_nat max_attempts)
       /\ ((Dialogue.safe_click el max_attempts st).1 = true ->
           (length warnings < Z.to_nat max_attempts)%nat).
Proof.
  split; [apply quiet_safe_click_loop|].
  unfold Dialogue.safe_click.
  destruct (Dialogue.safe_click_loop el (Z.to_nat max_attempts) 0 st) as [r s] eqn:Hrun.
  exact (safe_click_loop_warnings _ _ _ _ _ _ Hrun).
Qed.

Lemma bind_exc_val {A B} (m : Exc W A) (k : A -> Exc W B) (st : State W) a :
  (m st).1 = Ok a -> bind_exc m k st = k a (m st).2.
Proof.
  unfold bind_exc, bind. destruct (m st) as [r s]. simpl. intros ->. reflexivity.
Qed.

Lemma bind_exc_raise {A B} (m : Exc W A) (k : A -> Exc W B) (st : State W) e :
  (m st).1 = Raise e -> bind_exc m k st = (Raise e, (m st).2).
Proof.
  unfold bind_exc, bind. destruct (m st) as [r s]. simpl. intros ->. reflexivity.
Qed.

Lemma lift_unit_val (m : IO W unit) (st : State W) : (lift m st).1 = Ok tt.
Proof. unfold lift, bind, ret. destruct (m st) as [[] s]. reflexivity. Qed.

Lemma lift_val {A} (m : IO W A) (st : State W) : (lift m st).1 = Ok (m st).1.
Proof. unfold lift, bind, ret. destruct (m st) as [a s]. reflexivity. Qed.

Lemma io_world_val {A} (op : W -> A * W) (st : State W) :
  (io_world op st).1 = (op (world st)).1.
Proof. unfold io_world. destruct (op (world st)) as [a w]. reflexivity. Qed.

Lemma try_except_ok {A} (m : Exc W A) (h : exn -> IO W A) (st : State W) a :
  (m st).1 = Ok a -> (try_except m h st).1 = a.
Proof.
  unfold try_except, bind, ret. destruct (m st) as [r s]. simpl. intros ->.
  reflexivity.
Qed.

Lemma try_except_raise {A} (m : Exc W A) (h : exn -> IO W A) (st : State W) e :
  (m st).1 = Raise e -> try_except m h st = h e (m st).2.
Proof.
  unfold try_except, bind. destruct (m st) as [r s]. simpl. intros ->.
  reflexivity.
Qed.

Lemma first_clickable_none how sels (st : State W) :
  (forall sel w, In sel sels -> (wait_clickable how sel w).1 = TimedOut) ->
  (Dialogue.first_clickable how sels st).1 = Ok None.
Proof.
  revert st. induction sels as [|sel sels IH]; intros st Hto; [reflexivity|].
  cbn [Dialogue.first_clickable]. unfold bind, io_world.
  pose proof (Hto sel (world st) (or_introl eq_refl)) as Hs.
  destruct (wait_clickable how sel (world st)) as [r w1]. simpl in Hs. subst r.
  apply IH. intros s w Hin. apply Hto. right. exact Hin.
Qed.

Lemma first_clickable_found how before sel after el (st : State W) :
  (forall s w, In s before -> (wait_clickable how s w).1 = TimedOut) ->
  (forall w, (wait_clickable how sel w).1 = Found el) ->
  (Dialogue.first_clickable how (before ++ sel :: after) st).1 = Ok (Some el).
Proof.
  revert st. induction before as [|s0 before IH]; intros st Hto Hfound.
  - cbn [app Dialogue.first_clickable]. unfold bind, io_world.
    pose proof (Hfound (world st)) as Hs.
    destruct (wait_clickable how sel (world st)) as [r w1]. simpl in Hs. subst r.
    reflexivity.
  - cbn [app Dialogue.first_clickable]. unfold bind, io_world.
    pose proof (Hto s0 (world st) (or_introl eq_refl)) as Hs.
    destruct (wait_clickable how s0 (world st)) as [r w1]. simpl in Hs. subst r.
    apply IH; [|exact Hfound]. intros s w Hin. apply Hto. right. exact Hin.
Qed.

Lemma safe_click_loop_refused el n : forall attempt (st : State W),
  (forall w, (element_click el w).1 <> Clicked) ->
  (Dialogue.safe_click_loop el n attempt st).1 = false.
Proof.
  induction n as [|n IH]; intros attempt st Hno; [reflexivity|].
  cbn [Dialogue.safe_click_loop]. unfold bind at 1. unfold io_world at 1.
  destruct (scroll_into_view el (world st)) as [[[]|e] w1].
  - unfold bind at 1. unfold io_world_ at 1.
    unfold bind at 1. unfold io_world at 1. cbn [world set_world].
    match goal with |- context [element_click el ?w] =>
      pose proof (Hno w) as Hw; destruct (element_click el w) as [[|text|e] w2] end.
    + exfalso. apply Hw. reflexivity.
    + unfold bind at 1, log at 1, modify at 1.
      unfold bind at 1, io_world_ at 1. apply IH. exact Hno.
    + unfold bind at 1, log at 1, modify at 1. apply IH. exact Hno.
  - unfold bind at 1, log at 1, modify at 1. apply IH. exact Hno.
Qed.

Lemma type_message_ok textbox message : forall (st : State W),
  (forall keys w, (send_keys textbox keys w).1 = Ok tt) ->
  (Dialogue.type_message textbox message st).1 = Ok tt.
Proof.
  induction message as [|c rest IH]; intros st Hkeys; [reflexivity|].
  cbn [Dialogue.type_message].
  erewrite bind_exc_val by (rewrite io_world_val; apply Hkeys).
  erewrite bind_exc_val by apply lift_val.
  erewrite bind_exc_val by apply lift_unit_val.
  apply IH. exact Hkeys.
Qed.

(** X9, a profile without a message button.  When the page opens and none of
    the four selectors of the message button becomes clickable within the
    wait, [send_dm_to_user] answers [(False, "Message button not found")],
    whatever the user and the message. *)
Theorem send_dm_without_message_button username url message (st : State W) :
  (forall w, (driver_get url w).1 = Ok tt) ->
  (forall sel w, In sel Dialogue.message_selectors ->
     (wait_clickable XPATH sel w).1 = TimedOut) ->
  (Dialogue.send_dm_to_user username url message st).1
    = (false, "Message button not found").
Proof.
  intros Hget Hto. apply try_except_ok. unfold Dialogue.send_dm_body.
  erewrite bind_exc_val by apply lift_unit_val; cbn beta iota.
  erewrite bind_exc_val by (rewrite io_world_val; apply Hget); cbn beta iota.
  erewrite bind_exc_val by apply lift_unit_val; cbn beta iota.
  erewrite bind_exc_val by (apply first_clickable_none, Hto); cbn beta iota.
  reflexivity.
Qed.

(** X10, a message button that cannot be clicked.  When the page opens, one
    of the selectors finds the button (the ones before it time out) and no
    click on the button goes through, [send_dm_to_user] gives up after the
    three attempts of [safe_click] and answers
    [(False, "Failed to click message button")]. *)
Theorem send_dm_click_refused username url message (st : State W)
    before sel after button :
  Dialogue.message_selectors = (before ++ sel :: after)%list ->
  (forall w, (driver_get url w).1 = Ok tt) ->
  (forall s w, In s before -> (wait_clickable XPATH s w).1 = TimedOut) ->
  (forall w, (wait_clickable XPATH sel w).1 = Found button) ->
  (forall w, (element_click button w).1 <> Clicked) ->
  (Dialogue.send_dm_to_user username url message st).1
    = (false, "Failed to click message button").
Proof.
  intros Hsel Hget Hto Hfound Hno. apply try_except_ok.
  unfold Dialogue.send_dm_body. rewrite Hsel.
  erewrite bind_exc_val by apply lift_unit_val; cbn beta iota.
  erewrite bind_exc_val by (rewrite io_world_val; apply Hget); cbn beta iota.
  erewrite bind_exc_val by apply lift_unit_val; cbn beta iota.
  erewrite bind_exc_val by (apply first_clickable_found; eassumption);
    cbn beta iota.
  erewrite bind_exc_val by apply lift_val; cbn beta iota.
  unfold Dialogue.safe_click. rewrite safe_click_loop_refused by exact Hno.
  reflexivity.
Qed.

(** X11, what a success means.  When the page opens, every wait finds its
    element, the clicks go through and the keys are accepted,
    [send_dm_to_user] answers [(True, "Success")]: nothing after the RETURN
    key is looked at. *)
Theorem send_dm_success_when_nothing_raises username url message (st : State W)
    button textbox :
  (forall w, (driver_get url w).1 = Ok tt) ->
  (forall sel w, (wait_clickable XPATH sel w).1 = Found button) ->
  (forall sel w, (wait_clickable CSS_SELECTOR sel w).1 = Found textbox) ->
  (forall w, (scroll_into_view button w).1 = Ok tt) ->
  (forall w, (element_click button w).1 = Clicked) ->
  (forall w, (element_click textbox w).1 = Clicked) ->
  (forall keys w, (send_keys textbox keys w).1 = Ok tt) ->
  (Dialogue.send_dm_to_user username url message st).1 = (true, "Success").
Proof.
  intros Hget Hbutton Htextbox Hscroll Hclick Hfocus Hkeys. apply try_except_ok.
  unfold Dialogue.send_dm_body.
  erewrite bind_exc_val by apply lift_unit_val; cbn beta iota.
  erewrite bind_exc_val by (rewrite io_world_val; apply Hget); cbn beta iota.
  erewrite bind_exc_val by apply lift_unit_val; cbn beta iota.
  erewrite bind_exc_val
    by (apply (first_clickable_found XPATH []); [intros s w []|apply Hbutton]);
    cbn beta iota.
  erewrite bind_exc_val by apply lift_val; cbn beta iota.
  assert (Hc : forall s : State W, (Dialogue.safe_click button 3 s).1 = true).
  { intros s. unfold Dialogue.safe_click.
    change (Z.to_nat 3) with 3%nat. cbn [Dialogue.safe_click_loop].
    unfold bind at 1. unfold io_world at 1.
    pose proof (Hscroll (world s)) as Hs.
    destruct (scroll_into_view button (world s)) as [r w1]. simpl in Hs. subst r.
    unfold bind at 1. unfold io_world_ at 1.
    unfold bind at 1. unfold io_world at 1. cbn [world set_world].
    match goal with |- context [element_click button ?w] =>
      pose proof (Hclick w) as Hw; destruct (element_click button w) as [c w2] end.
    simpl in Hw. subst c. reflexivity. }
  rewrite Hc. cbn [negb].
  erewrite bind_exc_val by apply lift_unit_val; cbn beta iota.
  erewrite bind_exc_val
    by (apply (first_clickable_found CSS_SELECTOR []);
        [intros s w []|apply Htextbox]);
    cbn beta iota.
  erewrite bind_exc_val.
  2:{ unfold Dialogue.click_or_raise, bind, io_world.
      match goal with |- context [element_click textbox ?w] =>
        pose proof (Hfocus w) as Hw; destruct (element_click textbox w) as [c w2] end.
      simpl in Hw. subst c. reflexivity. }
  erewrite bind_exc_val by apply lift_unit_val; cbn beta iota.
  erewrite bind_exc_val by (apply type_message_ok, Hkeys); cbn beta iota.
  erewrite bind_exc_val by apply lift_unit_val; cbn beta iota.
  erewrite bind_exc_val by (rewrite io_world_val; apply Hkeys); cbn beta iota.
  erewrite bind_exc_val by apply lift_unit_val; cbn beta iota.
  reflexivity.
Qed.

(** X12, a page that does not open.  When loading the profile raises,
    [send_dm_to_user] answers [False] with the text of the exception and
    logs it as an error; no element is looked for. *)
Theorem send_dm_page_error username url message (st : State W) e :
  (forall w, (driver_get url w).1 = Raise e) ->
  (Dialogue.send_dm_to_user username url message st).1 = (false, exn_str e)
  /\ last (logger (Dialogue.send_dm_to_user username url message st).2)
     = Some (ERROR, "Error sending DM to " +:+ username +:+ ": " +:+ exn_str e).
Proof.
  intros Hget. unfold Dialogue.send_dm_to_user.
  erewrite try_except_raise.
  2:{ unfold Dialogue.send_dm_body.
      erewrite bind_exc_val by apply lift_unit_val; cbn beta iota.
      erewrite bind_exc_raise by (rewrite io_world_val; apply Hget).
      reflexivity. }
  unfold bind, log, modify, ret. cbn [fst snd logger set_logger].
  split; [reflexivity|]. apply last_snoc.
Qed.

End ClickFacts.

(** Witness: the dialogue on a page where nothing becomes clickable. *)
Lemma send_dm_without_message_button_witness :
  (@Dialogue.send_dm_to_user _ (Sim.backend twin_scenario) stuck_browser
     "@alice" "https://x.com/alice" "hi" (initial Sim.start [])).1
  = (false, "Message button not found").
Proof.
  apply (@send_dm_without_message_button _ (Sim.backend twin_scenario) stuck_browser).
  - intros w. reflexivity.
  - intros sel w _. reflexivity.
Defined.

(** Witness: the dialogue on a page whose message button is covered. *)
Lemma send_dm_click_refused_witness :
  (@Dialogue.send_dm_to_user _ (Sim.backend twin_scenario) covered_browser
     "@alice" "https://x.com/alice" "hi" (initial Sim.start [])).1
  = (false, "Failed to click message button").
Proof.
  apply (@send_dm_click_refused _ (Sim.backend twin_scenario) covered_browser
           "@alice" "https://x.com/alice" "hi" (initial Sim.start [])
           [] "//div[@aria-label='メッセージ']"
           (tail Dialogue.message_selectors) 7%nat).
  - reflexivity.
  - intros w. reflexivity.
  - intros s w [].
  - intros w. reflexivity.
  - intros w. discriminate.
Defined.

(** Witness: the dialogue on a page where everything works. *)
Lemma send_dm_success_when_nothing_raises_witness :
  (@Dialogue.send_dm_to_user _ (Sim.backend twin_scenario) ready_browser
     "@alice" "https://x.com/alice" "hi" (initial Sim.start [])).1
  = (true, "Success").
Proof.
  apply (@send_dm_success_when_nothing_raises _ (Sim.backend twin_scenario)
           ready_browser "@alice" "https://x.com/alice" "hi" (initial Sim.start [])
           7%nat 7%nat); intros; reflexivity.
Defined.

(** Witness: the dialogue with the network down. *)
Lemma send_dm_page_error_witness :
  let b := offline (Sim.backend twin_scenario) (OtherError "net::ERR") in
  let st := initial Sim.start [] in
  (@Dialogue.send_dm_to_user _ b ready_browser "@alice" "https://x.com/alice" "hi" st).1
  = (false, "net::ERR")
  /\ last (logger (@Dialogue.send_dm_to_user _ b ready_browser
                     "@alice" "https://x.com/alice" "hi" st).2)
     = Some (ERROR, "Error sending DM to " +:+ "@alice" +:+ ": " +:+ "net::ERR").
Proof.
  apply (@send_dm_page_error _ (offline (Sim.backend twin_scenario) (OtherError "net::ERR"))
           ready_browser "@alice" "https://x.com/alice" "hi" (initial Sim.start [])
           (OtherError "net::ERR")).
  intros w. reflexivity.
Defined.

(** Witness: one success logged at [noon], analysed at [noon] over a week. *)
Lemma analysis_counts_engine_rows_witness :
  let rows := [attempt_row noon "@alice" "https://x.com/alice" true "Success" "hi"] in
  let stats := Maintenance.analyze_sending_statistics noon 7 rows in
  Maintenance.total_attempts stats = Z.of_nat (length rows)
  /\ Maintenance.successful_sends stats = Z.of_nat (count_status "Success" rows)
  /\ Maintenance.failed_sends stats = Z.of_nat (count_status "Failed" rows).
Proof.
  apply (analysis_counts_engine_rows noon 7
           [attempt_row noon "@alice" "https://x.com/alice" true "Success" "hi"]).
  constructor; [|constructor].
  exists noon, "@alice", "https://x.com/alice", true, "Success", "hi".
  split; [reflexivity|]. split; [reflexivity|]. vm_compute. discriminate.
Defined.

(** Witness: an attempt logged at [noon], looked for at [noon]. *)
Lemma recent_activity_sees_logged_attempt_witness :
  Health.check_recent_activity noon 24
    [attempt_row noon "@alice" "https://x.com/alice" false "Message button not found" "hi"]
  = true.
Proof.
  apply (recent_activity_sees_logged_attempt noon 24 _ noon "@alice"
           "https://x.com/alice" false "Message button not found" "hi").
  - reflexivity.
  - vm_compute. discriminate.
  - apply list_elem_of_here.
Defined.

(** ** A browser that does not start *)

Section BrowserFailure.

Context {W : Type} `{Backend W}.
Variable config : Config.
Variable enumerate : gset target -> list target.

Lemma run_body_browser_failure (st : State W) e :
  (forall w, (chrome_start w).1 = Raise e) ->
  existsb (Z.eqb (hour (datetime_now (world st)).1)) (blocked_hours config) = false ->
  exists s1, run_body config enumerate st = (Raise e, s1) /\ steady st s1
             /\ driver s1 = driver st.
Proof.
  intros Hstart Hfree.
  unfold run_body, setup_chrome_driver, bind_exc, lift, ok, raise, is_allowed_time,
    log, modify, get, io_world, bind, ret. simpl.
  destruct (datetime_now (world st)) as [t0 w1]. simpl in *.
  rewrite Hfree. simpl.
  pose proof (Hstart w1) as Hs.
  destruct (chrome_start w1) as [r w2]. simpl in Hs. subst r. simpl.
  eexists. split; [reflexivity|]. repeat split.
Qed.

(** X18, a browser that does not start.  In an allowed hour, when Chrome
    fails to start with an exception, the run writes no row and sends no
    message; it hands to the webhook the system-error alert with the text of
    the exception, then the daily notification, then at most one monthly
    report. *)
Theorem run_browser_failure (st : State W) e :
  (forall w, (chrome_start w).1 = Raise e) ->
  existsb (Z.eqb (hour (datetime_now (world st)).1)) (blocked_hours config) = false ->
  exists today monthly,
    history (run config enumerate st).2 = history st
    /\ sent_count (run config enumerate st).2 = sent_count st
    /\ sent_users (run config enumerate st).2 = sent_users st
    /\ slack (run config enumerate st).2
       = (slack st ++ [SystemErrorAlert (exn_str e);
                       daily_notification today (history st)] ++ monthly)%list
    /\ (monthly = [] \/ exists m t d, monthly = [MonthlyReport m t d]).
Proof.
  intros Hstart Hfree. rewrite run_blocks.
  destruct (run_body_browser_failure st e Hstart Hfree)
    as (s1 & -> & (Hh1 & Hsl1 & Hu1 & _ & Hc1) & _).
  assert (Halert : exists s2, (run_except e s1).2 = s2 /\ calm s1 s2
                     /\ slack s2 = (slack s1 ++ [SystemErrorAlert (exn_str e)])%list).
  { unfold run_except, bind, log, modify. cbn [fst snd].
    match goal with |- context [notify_slack ?n ?s] =>
      destruct (notify_slack_calm n s) as (Hc & Hsl & _);
      destruct (notify_slack n s) as [[] s2] end.
    exists s2. split; [reflexivity|]. split; [exact Hc | exact Hsl]. }
  destruct Halert as (s2 & -> & (Hh2 & Hu2 & _ & Hc2 & _) & Hsl2).
  destruct (run_finally_shape config s2)
    as (today & monthly & (Hh3 & Hu3 & _ & Hc3 & _) & Hsl & Hm).
  exists today, monthly.
  split; [congruence|]. split; [congruence|]. split; [congruence|].
  split; [|exact Hm].
  rewrite Hsl, Hsl2, Hh2, Hh1, Hsl1, <- app_assoc. reflexivity.
Qed.

End BrowserFailure.

(** Witness: at [noon], with a Chrome that is not installed. *)
Lemma run_browser_failure_witness :
  let b := without_browser (Sim.backend twin_scenario) (OtherError "chromedriver") in
  let st := initial Sim.start [] in
  exists today monthly,
    history (@run _ b demo_config set_order st).2 = history st
    /\ sent_count (@run _ b demo_config set_order st).2 = sent_count st
    /\ sent_users (@run _ b demo_config set_order st).2 = sent_users st
    /\ slack (@run _ b demo_config set_order st).2
       = (slack st ++ [SystemErrorAlert (exn_str (OtherError "chromedriver"));
                       daily_notification today (history st)] ++ monthly)%list
    /\ (monthly = [] \/ exists m t d, monthly = [MonthlyReport m t d]).
Proof.
  apply (@run_browser_failure _
           (without_browser (Sim.backend twin_scenario) (OtherError "chromedriver"))
           demo_config set_order (initial Sim.start []) (OtherError "chromedriver")).
  - intros w. reflexivity.
  - reflexivity.
Defined.

(** ** What the loader of the history takes in *)

Section Loader.

Context {W : Type} `{Backend W}.
Variable config : Config.

Lemma recent_users_members now rows : forall users u,
  u ∈ recent_users config now rows users <->
  u ∈ users
  \/ exists r t, r ∈ rows /\ username r = u /\ status r = "Success"
       /\ strptime (date r) "%Y-%m-%d %H:%M" = Ok t
       /\ minus_days now (sent_history_reset_days config) < instant t.
Proof.
  unfold recent_users.
  induction rows as [|row rows IH]; intros users u; simpl.
  - split; [auto|]. intros [Hu | (r & t & Hin & _)]; [exact Hu|].
    apply elem_of_nil in Hin. destruct Hin.
  - rewrite IH. unfold history_row.
    destruct (strptime (date row) "%Y-%m-%d %H:%M") as [t|e] eqn:Hparse.
    + destruct (minus_days now (sent_history_reset_days config) <? instant t)
        eqn:Hnew; simpl.
      * destruct (String.eqb (status row) "Success") eqn:Hst.
        -- apply String.eqb_eq in Hst. apply Z.ltb_lt in Hnew.
           rewrite elem_of_union, elem_of_singleton. split.
           ++ intros [[-> | Hu] | (r & t' & Hin & Hr)].
              ** right. exists row, t. split; [apply list_elem_of_here|]. auto.
              ** left. exact Hu.
              ** right. exists r, t'. split; [apply list_elem_of_further, Hin|exact Hr].
           ++ intros [Hu | (r & t' & Hin & Hr)]; [left; right; exact Hu|].
              apply elem_of_cons in Hin as [-> | Hin].
              ** left. left. symmetry. apply Hr.
              ** right. exists r, t'. split; [exact Hin | exact Hr].
        -- split.
           ++ intros [Hu | (r & t' & Hin & Hr)]; [left; exact Hu|].
              right. exists r, t'. split; [apply list_elem_of_further, Hin|exact Hr].
           ++ intros [Hu | (r & t' & Hin & Hr)]; [left; exact Hu|].
              apply elem_of_cons in Hin as [-> | Hin].
              ** destruct Hr as (_ & Hs & _). rewrite Hs in Hst. discriminate.
              ** right. exists r, t'. split; [exact Hin | exact Hr].
      * apply Z.ltb_ge in Hnew. split.
        -- intros [Hu | (r & t' & Hin & Hr)]; [left; exact Hu|].
           right. exists r, t'. split; [apply list_elem_of_further, Hin|exact Hr].
        -- intros [Hu | (r & t' & Hin & Hr)]; [left; exact Hu|].
           apply elem_of_cons in Hin as [-> | Hin].
           ++ destruct Hr as (_ & _ & Hp & Hlt). rewrite Hparse in Hp.
              injection Hp as <-. lia.
           ++ right. exists r, t'. split; [exact Hin | exact Hr].
    + split.
      * intros [Hu | (r & t' & Hin & Hr)]; [left; exact Hu|].
        right. exists r, t'. split; [apply list_elem_of_further, Hin|exact Hr].
      * intros [Hu | (r & t' & Hin & Hr)]; [left; exact Hu|].
        apply elem_of_cons in Hin as [-> | Hin].
        -- destruct Hr as (_ & _ & Hp & _). rewrite Hparse in Hp. discriminate.
        -- right. exists r, t'. split; [exact Hin | exact Hr].
Qed.

(** X2, who counts as already contacted.  After [load_sent_history] an
    identifier is in [sent_users] exactly when it was there before or the
    history has a row for it with status Success whose date reads as a
    timestamp to the minute, strictly later than the start of the window;
    the history itself is left as it was. *)
Theorem load_sent_history_members (st : State W) u :
  history (load_sent_history config st).2 = history st
  /\ (u ∈ sent_users (load_sent_history config st).2 <->
      u ∈ sent_users st
      \/ exists r t, r ∈ history st /\ username r = u /\ status r = "Success"
           /\ strptime (date r) "%Y-%m-%d %H:%M" = Ok t
           /\ minus_days (datetime_now (world st)).1 (sent_history_reset_days config)
              < instant t).
Proof.
  unfold load_sent_history, log, modify, get, io_world, bind, ret.
  destruct (datetime_now (world st)) as [now w1]. simpl.
  split; [reflexivity|]. apply recent_users_members.
Qed.

End Loader.

(** ** The identifier taken from a link *)

Lemma split_pieces_no_separator c s :
  Forall (fun w => has_char c w = false) (PyStr.split c s).
Proof.
  induction s as [|a s IH]; simpl; [repeat constructor|].
  destruct (Ascii.eqb a c) eqn:Hac.
  - constructor; [reflexivity | exact IH].
  - destruct (PyStr.split c s) as [|w ws]; [repeat constructor; simpl; rewrite Hac; reflexivity|].
    inversion IH as [|? ? Hw Hws]; subst. constructor; [|exact Hws].
    simpl. rewrite Hac, Hw. reflexivity.
Qed.

Lemma split_pieces_keep_absent c d s :
  has_char d s = false ->
  Forall (fun w => has_char d w = false) (PyStr.split c s).
Proof.
  induction s as [|a s IH]; simpl; intros Hd; [repeat constructor|].
  apply orb_false_iff in Hd as [Had Hd]. specialize (IH Hd).
  destruct (Ascii.eqb a c).
  - constructor; [reflexivity | exact IH].
  - destruct (PyStr.split c s) as [|w ws];
      [repeat constructor; simpl; rewrite Had; reflexivity|].
    inversion IH as [|? ? Hw Hws]; subst. constructor; [|exact Hws].
    simpl. rewrite Had, Hw. reflexivity.
Qed.

Lemma last_item_Forall (P : string -> Prop) l :
  P EmptyString -> Forall P l -> P (PyStr.last_item l).
Proof.
  intros H0 Hl. unfold PyStr.last_item.
  induction Hl as [|x l Hx Hl IH]; [exact H0|].
  destruct l as [|y l]; [exact Hx | exact IH].
Qed.

Lemma first_item_Forall (P : string -> Prop) l :
  P EmptyString -> Forall P l -> P (PyStr.first_item l).
Proof. intros H0 Hl. destruct Hl; [exact H0 | assumption]. Qed.

Lemma username_part_chars href :
  has_char "/" (username_part href) = false
  /\ has_char "?" (username_part href) = false.
Proof.
  unfold username_part. split.
  - apply first_item_Forall; [reflexivity|].
    apply split_pieces_keep_absent.
    apply last_item_Forall; [reflexivity|]. apply split_pieces_no_separator.
  - apply first_item_Forall; [reflexivity|]. apply split_pieces_no_separator.
Qed.

Lemma reserved_prefix_has_slash part :
  PyStr.startswith part "i/" = true -> has_char "/" part = true.
Proof.
  intros Hp. apply String.prefix_correct in Hp.
  destruct part as [|a [|b rest]]; try discriminate.
  simpl in Hp. injection Hp as Ha Hb. subst a b. reflexivity.
Qed.

Lemma reserved_prefix_guard_idle href :
  PyStr.startswith (username_part href) "i/" = false.
Proof.
  destruct (PyStr.startswith (username_part href) "i/") eqn:Hp; [|reflexivity].
  apply reserved_prefix_has_slash in Hp.
  rewrite (proj1 (username_part_chars href)) in Hp. discriminate.
Qed.

Lemma user_of_href_unfold href :
  user_of_href (Some href) =
  if PyStr.truthy href && negb (PyStr.contains "/status/" href)
     && negb (PyStr.contains "/search" href)
     && (PyStr.contains "twitter.com" href || PyStr.contains "x.com" href)
     && PyStr.truthy (username_part href)
  then Some ("@" +:+ username_part href, href)
  else None.
Proof.
  unfold user_of_href. fold (username_part href).
  rewrite reserved_prefix_guard_idle.
  destruct (PyStr.truthy href), (PyStr.contains "/status/" href),
    (PyStr.contains "/search" href); simpl; try reflexivity.
  destruct (PyStr.contains "twitter.com" href || PyStr.contains "x.com" href);
    simpl; [|reflexivity].
  destruct (PyStr.truthy (username_part href)); reflexivity.
Qed.

(** X3, the identifier taken from a link.  When a link yields a candidate,
    the address is the link itself and the identifier is [@] followed by a
    non-empty text without any slash or question mark: the last path
    segment, up to the query; the link names neither a status nor a search
    page. *)
Theorem user_of_href_identifier href u l :
  user_of_href (Some href) = Some (u, l) ->
  l = href
  /\ u = "@" +:+ username_part href
  /\ username_part href <> EmptyString
  /\ has_char "/" (username_part href) = false
  /\ has_char "?" (username_part href) = false
  /\ PyStr.contains "/status/" href = false
  /\ PyStr.contains "/search" href = false.
Proof.
  rewrite user_of_href_unfold. intros Hu.
  destruct (PyStr.truthy href); [|discriminate].
  destruct (PyStr.contains "/status/" href); [discriminate|].
  destruct (PyStr.contains "/search" href); [discriminate|].
  destruct (PyStr.contains "twitter.com" href || PyStr.contains "x.com" href);
    [|discriminate].
  destruct (PyStr.truthy (username_part href)) eqn:Hpart; [|discriminate].
  simpl in Hu. injection Hu as <- <-.
  split; [reflexivity|]. split; [reflexivity|].
  split; [intros He; rewrite He in Hpart; discriminate|].
  split; [apply username_part_chars|]. split; [apply username_part_chars|].
  split; reflexivity.
Qed.

(** X4, the test on the reserved prefix never rejects a link.  The text the
    identifier is made of never starts with [i/], since it holds no slash;
    so a link is dropped exactly when it is empty, names a status or a
    search page, mentions neither domain, or ends in an empty segment. *)
Theorem user_of_href_rejects_iff href :
  PyStr.startswith (username_part href) "i/" = false
  /\ (user_of_href (Some href) = None <->
      href = EmptyString
      \/ PyStr.contains "/status/" href = true
      \/ PyStr.contains "/search" href = true
      \/ (PyStr.contains "twitter.com" href = false
          /\ PyStr.contains "x.com" href = false)
      \/ username_part href = EmptyString).
Proof.
  split; [apply reserved_prefix_guard_idle|].
  rewrite user_of_href_unfold.
  destruct href as [|a href']; [simpl; split; auto|].
  set (href := String a href').
  assert (Hne : href <> EmptyString) by discriminate.
  change (PyStr.truthy href) with true. cbn [andb].
  destruct (PyStr.contains "/status/" href); [simpl; split; auto|].
  destruct (PyStr.contains "/search" href); [simpl; split; auto|].
  destruct (PyStr.contains "twitter.com" href), (PyStr.contains "x.com" href);
    cbn [negb andb orb].
  4: split; auto 6.
  all: destruct (username_part href) as [|b part] eqn:Hpart; cbn [PyStr.truthy];
    [split; auto 6|].
  all: split; [discriminate|].
  all: intros [He | [Hs | [Hs | [[H1 H2] | Hp]]]]; congruence.
Qed.

(** Witness: a link with a query. *)
Lemma user_of_href_identifier_witness :
  let href := "https://x.com/alice?lang=en" in
  href = href
  /\ "@alice" = "@" +:+ username_part href
  /\ username_part href <> EmptyString
  /\ has_char "/" (username_part href) = false
  /\ has_char "?" (username_part href) = false
  /\ PyStr.contains "/status/" href = false
  /\ PyStr.contains "/search" href = false.
Proof.
  apply (user_of_href_identifier "https://x.com/alice?lang=en" "@alice"
           "https://x.com/alice?lang=en").
  reflexivity.
Defined.

(** ** A page that is never scrolled *)

Section NoScroll.

Context {W : Type} `{Backend W}.
Variable config : Config.

Lemma bind_exc_raises_left {A B} (m : Exc W A) (k : A -> Exc W B) :
  (forall st, exists e, (m st).1 = Raise e) ->
  forall st, exists e, (bind_exc m k st).1 = Raise e.
Proof.
  intros Hm st. destruct (Hm st) as [e He]. exists e.
  unfold bind_exc, bind. destruct (m st) as [r s]. simpl in He. subst r.
  reflexivity.
Qed.

Lemma bind_exc_raises_right {A B} (m : Exc W A) (k : A -> Exc W B) :
  (forall a st, exists e, (k a st).1 = Raise e) ->
  forall st, exists e, (bind_exc m k st).1 = Raise e.
Proof.
  intros Hk st. unfold bind_exc, bind. destruct (m st) as [[a|e] s].
  - apply Hk.
  - exists e. reflexivity.
Qed.

Lemma scroll_and_collect_no_turn (st : State W) :
  max_scroll_per_page config <= 0 ->
  scroll_and_collect config None st = (Raise (UnboundLocalError "scroll"), st).
Proof.
  intros Hmax. unfold scroll_and_collect. simpl.
  replace (Z.to_nat (max_scroll_per_page config)) with O by lia.
  reflexivity.
Qed.

Lemma search_one_no_turn keyword :
  max_scroll_per_page config <= 0 ->
  forall st : State W, exists e, (search_one config keyword st).1 = Raise e.
Proof.
  intros Hmax. unfold search_one.
  do 4 (apply bind_exc_raises_right; intros ?).
  apply bind_exc_raises_left. intros st.
  rewrite (scroll_and_collect_no_turn st Hmax). eexists. reflexivity.
Qed.

Lemma search_loop_no_turn kws :
  max_scroll_per_page config <= 0 ->
  forall st : State W, (search_loop config kws ∅ st).1 = ∅.
Proof.
  intros Hmax. induction kws as [|keyword kws IH]; intros st; [reflexivity|].
  cbn [search_loop]. destruct (_ <=? _); [reflexivity|].
  unfold bind at 1. unfold try_except at 1. unfold bind at 1.
  destruct (search_one_no_turn keyword Hmax st) as [e He].
  destruct (search_one config keyword st) as [r s1]. simpl in He. subst r.
  unfold bind at 1, log at 1, modify at 1, ret at 1. cbn [fst snd].
  rewrite (left_id_L ∅ (∪)). apply IH.
Qed.

(** X5, a page that is never scrolled.  With [max_scroll_per_page] at zero
    or below, [scroll_and_collect] leaves its loop without a turn and fails
    on the variable [scroll] of its last log line; the search catches the
    error for every keyword and returns no candidate at all. *)
Theorem search_without_scrolling_finds_nobody (st : State W) :
  max_scroll_per_page config <= 0 ->
  (scroll_and_collect config None st).1 = Raise (UnboundLocalError "scroll")
  /\ (search_users_by_keywords config st).1 = ∅.
Proof.
  intros Hmax. split.
  - rewrite (scroll_and_collect_no_turn st Hmax). reflexivity.
  - apply search_loop_no_turn. exact Hmax.
Qed.

End NoScroll.

(** Witness: the search of [twin_scenario] with scrolling switched off. *)
Lemma search_without_scrolling_finds_nobody_witness :
  let st := initial Sim.start [] in
  (@scroll_and_collect _ (Sim.backend twin_scenario) idle_config None st).1
  = Raise (UnboundLocalError "scroll")
  /\ (@search_users_by_keywords _ (Sim.backend twin_scenario) idle_config st).1 = ∅.
Proof.
  apply (@search_without_scrolling_finds_nobody _ (Sim.backend twin_scenario)
           idle_config (initial Sim.start [])).
  simpl. lia.
Defined.

(** ** The monthly report *)

Section Monthly.

Context {W : Type} `{Backend W}.
Variable config : Config.

Lemma size_list_to_set_le (l : list string) :
  (size (list_to_set l : gset string) <= length l)%nat.
Proof.
  induction l as [|x l IH].
  - rewrite list_to_set_nil, size_empty. simpl. lia.
  - rewrite list_to_set_cons, size_add. simpl length.
    destruct (bool_decide _); lia.
Qed.

(** X15, the monthly report.  The step leaves the history alone.  On a day
    other than the report day it sends nothing; on the report day it sends
    one report for the month before, whose total is the number of Success
    rows of that month and whose number of active days is at least one when
    there is such a row and never more than the total. *)
Theorem send_monthly_report_counts (st : State W) :
  let now := (datetime_now (world st)).1 in
  let st' := (send_monthly_report config st).2 in
  history st' = history st
  /\ (day now <> monthly_report_day config -> slack st' = slack st)
  /\ (forall lm, day now = monthly_report_day config -> last_month now = Ok lm ->
      let sent := monthly_rows (strftime_Ym lm) (history st) in
      exists days,
        slack st' = (slack st ++ [MonthlyReport (strftime_Ym lm) (length sent) days])%list
        /\ (days <= length sent)%nat
        /\ (sent <> [] -> (0 < days)%nat)).
Proof.
  intros now st'. subst now st'.
  unfold send_monthly_report, try_except, bind_exc, lift, ok, raise, log,
    modify, get, io_world, bind, ret. simpl.
  destruct (datetime_now (world st)) as [now w1]. simpl.
  destruct (day now =? monthly_report_day config) eqn:Hday; simpl.
  - apply Z.eqb_eq in Hday.
    destruct (last_month now) as [lm|e]; simpl.
    + match goal with
      | |- context [notify_slack ?n ?s] =>
          destruct (notify_slack_calm n s) as (Hc & Hsl & _);
          destruct (notify_slack n s) as [[] s']
      end; simpl in *.
      split; [apply Hc|]. split; [intros Hne; contradiction|].
      intros lm' _ Hlm. injection Hlm as <-. eexists. split; [exact Hsl|].
      split.
      * etransitivity; [apply size_list_to_set_le|]. rewrite length_map. lia.
      * intros Hne. apply Nat.neq_0_lt_0. intros Hzero. destruct (monthly_rows _ _) as [|r rows] eqn:Hrows;
          [contradiction|].
        cbn [map] in Hzero. rewrite list_to_set_cons, size_add in Hzero.
        destruct (bool_decide _) eqn:Hin0.
        -- apply bool_decide_eq_true in Hin0. apply size_empty_iff in Hzero.
           apply Hzero in Hin0.
           exact (not_elem_of_empty (C := gset string) _ Hin0).
        -- discriminate Hzero.
    + split; [reflexivity|]. split; [reflexivity|]. intros lm _ Hlm. discriminate.
  - apply Z.eqb_neq in Hday.
    split; [reflexivity|]. split; [reflexivity|]. intros lm Hd. contradiction.
Qed.

End Monthly.

(** ** A run after the provider of the blacklist has failed *)

Section AfterFailure.

Context {W : Type} `{Backend W}.
Variable config : Config.
Variable enumerate : gset target -> list target.
Variables href u l : string.

Hypothesis Hpage : page_shows href.
Hypothesis Huser : user_of_href (Some href) = Some (u, l).

Lemma users_of_hrefs_shown : (u, l) ∈ users_of_hrefs [Some href].
Proof.
  unfold users_of_hrefs.
  change (omap user_of_href [Some href])
    with (match user_of_href (Some href) with
          | Some t => t :: omap user_of_href []
          | None => omap user_of_href []
          end).
  rewrite Huser. apply elem_of_list_to_set. apply list_elem_of_here.
Qed.

Lemma extract_loop_keeps sels : forall usernames (st : State W),
  (u, l) ∈ usernames -> (u, l) ∈ (extract_loop sels usernames st).1.
Proof.
  induction sels as [|sel sels IH]; intros usernames st Hin; [exact Hin|].
  cbn [extract_loop]. unfold bind, io_world.
  destruct (find_hrefs sel (world st)) as [[hrefs [e|]] w1]; cbn [fst snd].
  - unfold log, modify. cbn [fst snd]. apply IH. apply elem_of_union. left. exact Hin.
  - destruct (bool_decide _).
    + apply IH. apply elem_of_union. left. exact Hin.
    + apply elem_of_union. left. exact Hin.
Qed.

(** The page read: the account shown is among the candidates. *)
Lemma extract_loop_shows sel sels usernames (st : State W) :
  (u, l) ∈ (extract_loop (sel :: sels) usernames st).1.
Proof.
  cbn [extract_loop]. unfold bind at 1. unfold io_world at 1.
  destruct Hpage as (_ & Hfind & _).
  pose proof (Hfind sel (world st)) as Hf.
  destruct (find_hrefs sel (world st)) as [r w1].
  cbn [fst snd] in *. subst r. cbn [fst snd].
  assert (Hin : (u, l) ∈ (usernames ∪ users_of_hrefs [Some href] : gset target))
    by (apply elem_of_union; right; apply users_of_hrefs_shown).
  destruct (bool_decide _); [|exact Hin].
  apply extract_loop_keeps. exact Hin.
Qed.

Lemma extract_shows (st : State W) :
  (u, l) ∈ (extract_usernames_from_page st).1.
Proof. unfold extract_usernames_from_page, selectors. apply extract_loop_shows. Qed.

(** A turn of the scroll loop raises nothing, and the account shown is in
    the set it returns. *)
Lemma scroll_turn_shows all (st : State W) :
  exists all' same,
    (scroll_turn all st).1 = Ok (all', same) /\ (u, l) ∈ all'
    /\ ((u, l) ∈ all -> (u, l) ∈ all').
Proof.
  destruct Hpage as (_ & _ & Hheight & Hscroll).
  unfold scroll_turn.
  erewrite bind_exc_val by apply lift_val; cbn beta.
  match goal with |- context [bind_exc (io_world scroll_height) _ ?s] =>
    destruct (Hheight (world s)) as [h1 Hh1] end.
  erewrite bind_exc_val by (rewrite io_world_val; exact Hh1); cbn beta.
  erewrite bind_exc_val by (rewrite io_world_val; apply Hscroll); cbn beta.
  erewrite bind_exc_val by apply lift_val; cbn beta.
  erewrite bind_exc_val by apply lift_unit_val; cbn beta.
  match goal with |- context [bind_exc (io_world scroll_height) _ ?s] =>
    destruct (Hheight (world s)) as [h2 Hh2] end.
  erewrite bind_exc_val by (rewrite io_world_val; exact Hh2); cbn beta.
  eexists _, _. split; [reflexivity|]. split.
  - apply elem_of_union. right. apply extract_shows.
  - intros Hin. apply elem_of_union. left. exact Hin.
Qed.

Lemma scroll_loop_keeps n : forall entered all stable (st : State W),
  (u, l) ∈ all ->
  exists all' m,
    (scroll_loop n entered all stable st).1 = Ok (all', m)
    /\ (u, l) ∈ all' /\ (entered <= m)%nat.
Proof.
  induction n as [|n IH]; intros entered all stable st Hin.
  - exists all, entered. repeat split; [exact Hin | lia].
  - cbn [scroll_loop].
    destruct (scroll_turn_shows all st) as (all1 & same & Hturn & Hin1 & _).
    erewrite bind_exc_val by exact Hturn; cbn beta iota.
    destruct same; [destruct (2 <=? stable + 1)|].
    + exists all1, (S entered). repeat split; [exact Hin1 | lia].
    + destruct (IH (S entered) all1 (stable + 1) (scroll_turn all st).2 Hin1)
        as (all' & m & Hloop & Hin' & Hle).
      exists all', m. repeat split; [exact Hloop | exact Hin' | lia].
    + destruct (IH (S entered) all1 0 (scroll_turn all st).2 Hin1)
        as (all' & m & Hloop & Hin' & Hle).
      exists all', m. repeat split; [exact Hloop | exact Hin' | lia].
Qed.

Lemma scroll_loop_shows n entered all stable (st : State W) :
  exists all' m,
    (scroll_loop (S n) entered all stable st).1 = Ok (all', m)
    /\ (u, l) ∈ all' /\ (entered < m)%nat.
Proof.
  cbn [scroll_loop].
  destruct (scroll_turn_shows all st) as (all1 & same & Hturn & Hin1 & _).
  erewrite bind_exc_val by exact Hturn; cbn beta iota.
  destruct same; [destruct (2 <=? stable + 1)|].
  - exists all1, (S entered). repeat split; [exact Hin1 | lia].
  - destruct (scroll_loop_keeps n (S entered) all1 (stable + 1)
                (scroll_turn all st).2 Hin1) as (all' & m & Hloop & Hin' & Hle).
    exists all', m. repeat split; [exact Hloop | exact Hin' | lia].
  - destruct (scroll_loop_keeps n (S entered) all1 0
                (scroll_turn all st).2 Hin1) as (all' & m & Hloop & Hin' & Hle).
    exists all', m. repeat split; [exact Hloop | exact Hin' | lia].
Qed.

(** With at least one turn allowed, [scroll_and_collect] returns a set that
    holds the account shown. *)
Lemma scroll_and_collect_shows max_scrolls (st : State W) :
  0 < default (max_scroll_per_page config) max_scrolls ->
  exists all, (scroll_and_collect config max_scrolls st).1 = Ok all /\ (u, l) ∈ all.
Proof.
  intros Hmax. unfold scroll_and_collect.
  destruct (Z.to_nat (default (max_scroll_per_page config) max_scrolls))
    as [|n] eqn:Hn; [lia|].
  destruct (scroll_loop_shows n 0 ∅ 0 st) as (all & m & Hloop & Hin & Hm).
  erewrite bind_exc_val by exact Hloop; cbn beta iota.
  destruct m as [|m]; [lia|].
  erewrite bind_exc_val by apply lift_unit_val.
  exists all. split; [reflexivity | exact Hin].
Qed.

Hypothesis Hmax : 0 < max_scroll_per_page config.

Lemma steady_quiet_io {A} (st : State W) (m : IO W A) (s : State W) :
  quiet_io m -> steady st s -> steady st (m s).2.
Proof. intros Hm Hs. eapply steady_quiet; [exact Hs | apply Hm]. Qed.

Lemma bind_exc_step {A B} (m : Exc W A) (k : A -> Exc W B) (s : State W) a :
  (m s).1 = Ok a -> exists s1, s1 = (m s).2 /\ bind_exc m k s = k a s1.
Proof. intros Hv. eexists. split; [reflexivity|]. apply bind_exc_val. exact Hv. Qed.

Lemma lift_state {A} (m : IO W A) (s : State W) : (lift m s).2 = (m s).2.
Proof. unfold lift, bind, ok, ret. destruct (m s). reflexivity. Qed.

(** One keyword searched: the account shown passes the filter of a state
    whose recent history does not hold it and whose blacklist does not hold
    its address. *)
Lemma search_one_finds keyword (s : State W) :
  u ∉ sent_users s -> l ∉ blacklist_urls s ->
  exists found, (search_one config keyword s).1 = Ok found /\ (u, l) ∈ found.
Proof.
  intros Hu Hl. destruct Hpage as (Hget & _). unfold search_one.
  match goal with |- context [bind_exc ?m ?k s] =>
    destruct (bind_exc_step m k s tt (lift_unit_val _ _)) as (s1 & E1 & ->) end.
  match goal with |- context [bind_exc ?m ?k s1] =>
    destruct (bind_exc_step m k s1 tt
                ltac:(rewrite io_world_val; apply Hget)) as (s2 & E2 & ->) end.
  match goal with |- context [bind_exc ?m ?k s2] =>
    destruct (bind_exc_step m k s2 _ (lift_val _ _)) as (s3 & E3 & ->) end.
  cbn beta.
  match goal with |- context [bind_exc ?m ?k s3] =>
    destruct (bind_exc_step m k s3 tt (lift_unit_val _ _)) as (s4 & E4 & ->) end.
  destruct (scroll_and_collect_shows None s4 Hmax) as (all & Hall & Hin).
  match goal with |- context [bind_exc ?m ?k s4] =>
    destruct (bind_exc_step m k s4 all Hall) as (s5 & E5 & ->) end.
  cbn beta.
  match goal with |- context [bind_exc ?m ?k s5] =>
    destruct (bind_exc_step m k s5 _ (lift_val _ _)) as (s6 & E6 & ->) end.
  cbn beta.
  match goal with |- context [bind_exc ?m ?k s6] =>
    destruct (bind_exc_step m k s6 _ (lift_val _ _)) as (s7 & E7 & ->) end.
  cbn beta.
  match goal with |- context [bind_exc ?m ?k s7] =>
    destruct (bind_exc_step m k s7 tt (lift_unit_val _ _)) as (s8 & E8 & ->) end.
  match goal with |- context [bind_exc ?m ?k s8] =>
    destruct (bind_exc_step m k s8 tt (lift_unit_val _ _)) as (s9 & E9 & ->) end.
  eexists. split; [reflexivity|].
  assert (Hq5 : quiet s s5).
  { subst s5 s4 s3 s2 s1.
    repeat (eapply quiet_trans; [|solve [apply quiet_scroll_and_collect
                                        | apply quiet_lift; auto with quiet
                                        | apply quiet_io_world]]).
    apply quiet_refl. }
  assert (E6' : s6 = s5) by (subst s6; reflexivity).
  unfold get. cbn [fst snd]. rewrite E6'.
  destruct Hq5 as (_ & _ & Hsu & Hbl & _).
  unfold filter_users. apply elem_of_filter. cbn [fst snd].
  rewrite Hsu, Hbl. split; [split; assumption | exact Hin].
Qed.

Lemma search_loop_keeps kws : forall all (s : State W),
  (u, l) ∈ all -> (u, l) ∈ (search_loop config kws all s).1.
Proof.
  induction kws as [|keyword kws IH]; intros all s Hin; [exact Hin|].
  cbn [search_loop]. destruct (_ <=? _); [exact Hin|].
  unfold bind at 1.
  destruct (try_except (search_one config keyword) _ s) as [found s1].
  apply IH. apply elem_of_union. left. exact Hin.
Qed.

(** The search: with a keyword to search and room for a candidate, the
    account shown is found. *)
Lemma search_finds (s : State W) :
  u ∉ sent_users s -> l ∉ blacklist_urls s ->
  keywords config <> [] -> 0 < max_users_per_keyword config ->
  (u, l) ∈ (search_users_by_keywords config s).1.
Proof.
  intros Hu Hl Hkw Hroom. unfold search_users_by_keywords.
  destruct (keywords config) as [|keyword kws] eqn:Hk; [contradiction|].
  cbn [search_loop]. rewrite size_empty.
  assert (Hpos : 0 < max_users_per_keyword config
                     * Z.of_nat (length (keyword :: kws)))
    by (apply Z.mul_pos_pos; [exact Hroom | cbn [length]; lia]).
  replace (_ <=? _) with false
    by (symmetry; apply Z.leb_gt; rewrite ?Hk; exact Hpos).
  unfold bind at 1.
  destruct (search_one_finds keyword s Hu Hl) as (found & Hfound & Hin).
  pose proof (try_except_ok (search_one config keyword)
                (fun e =>
                   log ERROR ("Error searching for keyword '" +:+ keyword +:+ "': "
                              +:+ exn_str e);;
                   ret ∅) s found Hfound) as Hval.
  destruct (try_except (search_one config keyword) _ s) as [found' s1].
  cbn [fst] in Hval. subst found'.
  apply search_loop_keeps. apply elem_of_union. right. exact Hin.
Qed.

(** The send phase entered below the cap, with the time gate open, a
    history file that can be written and a candidate to attempt: the first
    candidate is handed to the backend and its row is written. *)
Lemma send_candidates_first msg candidates (s : State W) :
  writable_log -> always_allowed config ->
  0 <= sent_count s < max_messages_per_day config ->
  candidates <> [] ->
  exists row rows,
    history (send_candidates config msg candidates s).2
    = (history s ++ row :: rows)%list
    /\ (status row = "Success" \/ status row = "Failed")
    /\ row_target row ∈ candidates.
Proof.
  intros Hlog Hopen [H0 Hlt] Hne.
  destruct candidates as [|[u0 l0] rest]; [contradiction|].
  unfold send_candidates, py_take.
  replace (0 <=? max_messages_per_day config) with true
    by (symmetry; apply Z.leb_le; lia).
  destruct (Z.to_nat (max_messages_per_day config)) as [|k] eqn:Hk; [lia|].
  change (take (S k) ((u0, l0) :: rest)) with ((u0, l0) :: take k rest).
  rewrite send_loop_cons.
  destruct (send_one_spec config msg u0 l0 s) as
    [(s' & Hs & _ & _ & _ & _ & _ & [Hge | Hb])
    |(s' & t0 & w1 & ok & err & w2 & rows1 & Hs & _ & _ & _ & _ & Hh & _ & Hwr & _)].
  - lia.
  - rewrite Hopen in Hb. discriminate.
  - rewrite Hs. destruct (Hwr Hlog) as [now ->].
    destruct (send_loop_rows config msg (take k rest) s') as (rows & Hr & _).
    exists (attempt_row now u0 l0 ok err msg), rows.
    split; [rewrite Hr, Hh, <- app_assoc; reflexivity|].
    split; [destruct ok; auto|]. apply list_elem_of_here.
Qed.

Lemma is_allowed_time_open (s : State W) :
  always_allowed config -> (is_allowed_time config s).1 = true.
Proof.
  intros Hopen. unfold is_allowed_time, bind, io_world, ret.
  specialize (Hopen (world s)).
  destruct (datetime_now (world s)) as [now w]. cbn in *. rewrite Hopen.
  reflexivity.
Qed.

Lemma setup_chrome_driver_ok (s : State W) :
  (forall w, (chrome_start w).1 = Ok tt) -> (setup_chrome_driver s).1 = Ok tt.
Proof.
  intros Hstart. unfold setup_chrome_driver, bind, io_world.
  specialize (Hstart (world s)).
  destruct (chrome_start (world s)) as [r w]. cbn in *. subst r. reflexivity.
Qed.

(** The statements of [run] inside its [try], entered with an empty
    blacklist or any other that does not hold the address shown: a message
    is attempted and its row written. *)
Lemma run_body_sends (st : State W) :
  always_allowed config -> (forall w, (chrome_start w).1 = Ok tt) ->
  writable_log -> (forall X t, t ∈ X -> t ∈ enumerate X) ->
  u ∉ sent_users st -> l ∉ blacklist_urls st ->
  keywords config <> [] -> 0 < max_users_per_keyword config ->
  0 <= sent_count st < max_messages_per_day config ->
  exists row rows,
    history (run_body config enumerate st).2 = (history st ++ row :: rows)%list
    /\ (status row = "Success" \/ status row = "Failed").
Proof.
  intros Hopen Hstart Hlog Hcomplete Hu Hl Hkw Hroom Hcount. unfold run_body.
  match goal with |- context [bind_exc ?m ?k st] =>
    destruct (bind_exc_step m k st tt (lift_unit_val _ _)) as (s1 & E1 & ->) end.
  assert (S1 : steady st s1).
  { subst s1. apply steady_quiet_io; [apply quiet_lift, quiet_log | apply steady_refl]. }
  match goal with |- context [bind_exc ?m ?k s1] =>
    destruct (bind_exc_step m k s1 true) as (s2 & E2 & ->) end.
  { rewrite lift_val, is_allowed_time_open by exact Hopen. reflexivity. }
  cbn beta iota. cbn [negb].
  assert (S2 : steady st s2).
  { subst s2. apply steady_quiet_io; [apply quiet_lift, quiet_is_allowed_time | exact S1]. }
  match goal with |- context [bind_exc ?m ?k s2] =>
    destruct (bind_exc_step m k s2 tt (setup_chrome_driver_ok s2 Hstart))
      as (s3 & E3 & ->) end.
  assert (S3 : steady st s3).
  { subst s3. exact (setup_chrome_driver_steady st s2 S2). }
  match goal with |- context [bind_exc ?m ?k s3] =>
    destruct (bind_exc_step m k s3 _ (lift_val _ _)) as (s4 & E4 & ->) end.
  cbn beta.
  assert (S4 : steady st s4).
  { subst s4. apply steady_quiet_io; [apply quiet_lift, quiet_load_message_text | exact S3]. }
  match goal with |- context [bind_exc ?m ?k s4] =>
    destruct (bind_exc_step m k s4 tt (lift_unit_val _ _)) as (s5 & E5 & ->) end.
  assert (S5 : steady st s5).
  { subst s5. apply steady_quiet_io; [apply quiet_lift, quiet_log | exact S4]. }
  match goal with |- context [bind_exc ?m ?k s5] =>
    destruct (bind_exc_step m k s5 _ (lift_val _ _)) as (s6 & E6 & ->) end.
  cbn beta.
  assert (S6 : steady st s6).
  { subst s6. apply steady_quiet_io; [|exact S5].
    apply quiet_lift. unfold search_users_by_keywords. apply quiet_search_loop. }
  assert (Hfound : (u, l) ∈ (search_users_by_keywords config s5).1).
  { destruct S5 as (_ & _ & Hsu & Hbl & _).
    apply search_finds; [rewrite Hsu; exact Hu | rewrite Hbl; exact Hl
                        | exact Hkw | exact Hroom]. }
  set (found := (search_users_by_keywords config s5).1) in *.
  match goal with |- context [bind_exc ?m ?k s6] =>
    destruct (bind_exc_step m k s6 _ (lift_val _ _)) as (s7 & E7 & ->) end.
  cbn beta.
  match type of E7 with _ = (lift ?m s6).2 =>
    assert (Q7 : quiet_io m);
    [|assert (Hall : (u, l) ∈ (m s6).1); [|set (all := (m s6).1) in *]] end.
  { destruct (_ <? _); [|auto with quiet].
    apply quiet_bind; [apply quiet_log|]. intros _.
    apply quiet_bind; [|intros; apply quiet_ret].
    unfold collect_following_users. apply quiet_following_loop. }
  { destruct (_ <? _); [|exact Hfound].
    unfold bind, log, modify, ret. cbn [fst snd].
    match goal with |- context [collect_following_users config ?c ?s0] =>
      destruct (collect_following_users config c s0) as [following s0'] end.
    cbn [fst snd]. apply elem_of_union. left. exact Hfound. }
  assert (S7 : steady st s7).
  { subst s7. apply steady_quiet_io; [apply quiet_lift; exact Q7 | exact S6]. }
  match goal with |- context [bind_exc ?m ?k s7] =>
    destruct (bind_exc_step m k s7 tt (lift_unit_val _ _)) as (s8 & E8 & ->) end.
  assert (S8 : steady st s8).
  { subst s8. apply steady_quiet_io; [apply quiet_lift, quiet_log | exact S7]. }
  match goal with |- context [bind_exc ?m ?k s8] =>
    destruct (bind_exc_step m k s8 tt (lift_unit_val _ _)) as (s9 & E9 & ->) end.
  match goal with |- context [bind_exc ?m ?k s9] =>
    destruct (bind_exc_step m k s9 _ (lift_val _ _)) as (s10 & E10 & ->) end.
  cbn beta.
  rewrite lift_state in E9.
  destruct S8 as (Hh8 & _ & _ & _ & Hc8).
  match type of E9 with _ = (send_candidates config ?msg ?cands s8).2 =>
    destruct (send_candidates_first msg cands s8 Hlog Hopen)
      as (row & rows & Hrows & Hstatus & _) end.
  { rewrite Hc8. exact Hcount. }
  { intros Hnil. pose proof (Hcomplete all (u, l) Hall) as Hin.
    rewrite Hnil in Hin. apply elem_of_nil in Hin. exact Hin. }
  exists row, rows. split; [|exact Hstatus].
  assert (Hlast : forall lv text (s0 : State W),
            history (lift (log lv text) s0).2 = history s0) by reflexivity.
  rewrite Hlast. subst s10. rewrite lift_state. unfold get. cbn [snd].
  rewrite E9, Hrows, Hh8. reflexivity.
Qed.

(** The notifications and the cleaning up that end a run add nothing to the
    history. *)
Lemma run_history (st : State W) :
  history (run config enumerate st).2 = history (run_body config enumerate st).2.
Proof.
  rewrite run_blocks.
  destruct (run_body config enumerate st) as [[[]|e] s1]; cbn [snd].
  - destruct (run_finally_shape config s1) as (_ & _ & (Hh & _) & _). exact Hh.
  - destruct (run_finally_shape config (run_except e s1).2) as (_ & _ & (Hh & _) & _).
    rewrite Hh. unfold run_except, bind, log, modify. cbn [fst snd].
    match goal with |- context [notify_slack ?n ?s] =>
      destruct (notify_slack_calm n s) as ((Hn & _) & _) end.
    destruct (notify_slack _ _) as [[] s2]. cbn [snd] in *. exact Hn.
Qed.

End AfterFailure.

Section ProviderFailure.

Context {W : Type} `{Backend W}.
Variable config : Config.
Variable enumerate : gset target -> list target.


End ProviderFailure.

